(** * Home Assistant adapters: OpenWRT ubus device tracker, Xiaomi miio switch and vacuum

    A shallow embedding of
    - [homeassistant/components/device_tracker/ubus.py],
    - [homeassistant/components/xiaomi_miio/vacuum.py],
    - [homeassistant/components/xiaomi_miio/ng_switch.py],
    and the properties of their adapters.

    Python objects that the adapters only call into (the ubus JSON-RPC client,
    the miio device, the update coordinator) are interfaces whose operations
    are state transformers that return a value or raise; the adapters
    themselves are written in a state-and-exception monad. *)

From Stdlib Require Import ZArith List Ascii String Bool Lia.
From stdpp Require Import base option list gmap strings fin_maps.

Set Default Proof Using "Type".

(* ===================================================================== *)
(** * The fragment of the Python runtime the adapters rely on *)
(* ===================================================================== *)

Module Py.

(** Exception classes that occur in the three modules: the two vendor
    exceptions, and the built-in ones the statements can raise. *)
Inductive exn : Type :=
| UbusException (msg : string)
| DeviceException (msg : string)
| OSError (msg : string)
| ValueError (msg : string)
| KeyError (key : string)
| TypeError (msg : string)
| NameError (name : string)
| AttributeError (attr : string).

Definition is_UbusException (e : exn) : bool :=
  match e with UbusException _ => true | _ => false end.
Definition is_DeviceException (e : exn) : bool :=
  match e with DeviceException _ => true | _ => false end.
Definition is_OSError (e : exn) : bool :=
  match e with OSError _ => true | _ => false end.
Definition is_ValueError (e : exn) : bool :=
  match e with ValueError _ => true | _ => false end.
Definition is_KeyError (e : exn) : bool :=
  match e with KeyError _ => true | _ => false end.

(** A statement either completes with a value or raises. *)
Inductive Outcome (A : Type) : Type :=
| Ret (a : A)
| Raise (e : exn).
Arguments Ret {A} a.
Arguments Raise {A} e.

(** [logging]: a record keeps its level and its format string. *)
Inductive level : Type := DEBUG | WARNING | ERROR.

Definition LogRecord : Type := (level * string)%type.

(** Statements over a store [S]. *)
Definition M (S A : Type) : Type := S -> Outcome A * S.

Definition ret {S A} (a : A) : M S A := fun s => (Ret a, s).

Definition raise {S A} (e : exn) : M S A := fun s => (Raise e, s).

Definition bind {S A B} (m : M S A) (k : A -> M S B) : M S B :=
  fun s =>
    match m s with
    | (Ret a, s') => k a s'
    | (Raise e, s') => (Raise e, s')
    end.

(** [try: body / except <catches> as ex: handler ex]. *)
Definition try_except {S A}
    (body : M S A) (catches : exn -> bool) (handler : exn -> M S A) : M S A :=
  fun s =>
    match body s with
    | (Ret a, s') => (Ret a, s')
    | (Raise e, s') => if catches e then handler e s' else (Raise e, s')
    end.

Definition gets {S A} (f : S -> A) : M S A := fun s => (Ret (f s), s).

Definition modify {S} (f : S -> S) : M S unit := fun s => (Ret tt, f s).

(** An expression that raises without touching the store. *)
Definition eval {S A} (o : Outcome A) : M S A := fun s => (o, s).

(** [for x in xs: body x]. *)
Fixpoint for_each {S A} (xs : list A) (body : A -> M S unit) : M S unit :=
  match xs with
  | [] => ret tt
  | x :: xs' => bind (body x) (fun _ => for_each xs' body)
  end.

(** A statement over the right component of a pair of stores, run in a
    frame that also has local variables [L]. *)
Definition in_frame {L S A} (m : M S A) : M (L * S) A :=
  fun '(l, s) => let '(r, s') := m s in (r, (l, s')).

Definition set_local {L S} (f : L -> L) : M (L * S) unit :=
  fun '(l, s) => (Ret tt, (f l, s)).

(** Run [body] with the local variables initialised to [init]; the
    function's [return <local>] after the body is [finish]. *)
Definition with_locals {L S A B}
    (init : L) (body : M (L * S) A) (finish : L -> B) : M S B :=
  fun s =>
    match body (init, s) with
    | (Ret _, (l, s')) => (Ret (finish l), s')
    | (Raise e, (_, s')) => (Raise e, s')
    end.

(** A statement with no local variables of its own. *)
Definition without_locals {S A} (body : M (unit * S) A) : M S A :=
  fun s => let '(r, (_, s')) := body (tt, s) in (r, s').

Declare Scope py_scope.
Delimit Scope py_scope with py.
Notation "x <- m ;; k" := (bind m (fun x => k))
  (at level 100, m at next level, right associativity) : py_scope.
Notation "m ;;; k" := (bind m (fun _ => k))
  (at level 100, right associativity) : py_scope.

(* ------------------------------------------------------------------- *)
(** ** [str] methods, on ASCII text

    A [str] is modelled by a [string] of code points below 128: the text
    of a dnsmasq lease file and the service arguments are ASCII.  The
    non-ASCII line boundaries of [str.splitlines] (U+0085, U+2028, U+2029)
    and non-ASCII case mappings are outside the model. *)

Definition chr (n : nat) : ascii := ascii_of_nat n.

(** Line boundaries of [str.splitlines]: LF, VT, FF, CR, FS, GS, RS. *)
Definition is_linebreak (c : ascii) : bool :=
  match nat_of_ascii c with
  | 10 | 11 | 12 | 13 | 28 | 29 | 30 => true
  | _ => false
  end.

Definition is_CR (c : ascii) : bool := Nat.eqb (nat_of_ascii c) 13.
Definition is_LF (c : ascii) : bool := Nat.eqb (nat_of_ascii c) 10.

Definition snoc (s : string) (c : ascii) : string := (s +:+ String c "")%string.

(** [str.splitlines()]: the text is cut at every line boundary, CR LF
    counting as one; a last line is kept only when it is not empty. *)
Fixpoint splitlines_from (cur : string) (s : string) : list string :=
  match s with
  | EmptyString => if String.eqb cur "" then [] else [cur]
  | String c rest =>
      if is_linebreak c then
        match rest with
        | String c' rest' =>
            if is_CR c && is_LF c'
            then cur :: splitlines_from "" rest'
            else cur :: splitlines_from "" rest
        | EmptyString => cur :: splitlines_from "" rest
        end
      else splitlines_from (snoc cur c) rest
  end.

Definition splitlines (s : string) : list string := splitlines_from "" s.

(** [str.split(sep)] with a one-character separator: cut at every
    occurrence of [sep]; adjacent separators delimit empty fields. *)
Fixpoint split_from (sep : ascii) (cur : string) (s : string) : list string :=
  match s with
  | EmptyString => [cur]
  | String c rest =>
      if Ascii.eqb c sep
      then cur :: split_from sep "" rest
      else split_from sep (snoc cur c) rest
  end.

Definition split (sep : ascii) (s : string) : list string := split_from sep "" s.

(** Whitespace of [str.split()] within ASCII:
    HT, LF, VT, FF, CR, FS, GS, RS, US and space. *)
Definition is_space (c : ascii) : bool :=
  match nat_of_ascii c with
  | 9 | 10 | 11 | 12 | 13 | 28 | 29 | 30 | 31 | 32 => true
  | _ => false
  end.

(** [str.split()] without a separator: fields are the maximal runs of
    non-whitespace characters. *)
Fixpoint split_whitespace_from (cur : string) (s : string) : list string :=
  match s with
  | EmptyString => if String.eqb cur "" then [] else [cur]
  | String c rest =>
      if is_space c
      then (if String.eqb cur "" then [] else [cur]) ++ split_whitespace_from "" rest
      else split_whitespace_from (snoc cur c) rest
  end.

Definition split_whitespace (s : string) : list string :=
  split_whitespace_from "" s.

Definition upper_char (c : ascii) : ascii :=
  let n := nat_of_ascii c in
  if Nat.leb 97 n && Nat.leb n 122 then ascii_of_nat (n - 32) else c.

(** [str.upper()]. *)
Fixpoint upper (s : string) : string :=
  match s with
  | EmptyString => EmptyString
  | String c rest => String (upper_char c) (upper rest)
  end.

(** The whitespace that [int] skips around the literal of an ASCII [str]:
    HT, LF, VT, FF, CR and space.  (The separators FS, GS, RS and US
    separate fields for [str.split()], but [int] rejects them.) *)
Definition is_int_space (c : ascii) : bool :=
  match nat_of_ascii c with
  | 9 | 10 | 11 | 12 | 13 | 32 => true
  | _ => false
  end.

(** Dropping that whitespace at both ends of the characters of a string. *)
Fixpoint lstrip (l : list ascii) : list ascii :=
  match l with
  | c :: l' => if is_int_space c then lstrip l' else l
  | [] => []
  end.

Definition strip (l : list ascii) : list ascii := rev (lstrip (rev (lstrip l))).

Definition is_digit (c : ascii) : bool :=
  let n := nat_of_ascii c in Nat.leb 48 n && Nat.leb n 57.

Definition is_underscore (c : ascii) : bool := Nat.eqb (nat_of_ascii c) 95.

(** Decimal digits, with single underscores allowed between digits. *)
Fixpoint digits_value (acc : Z) (after_digit : bool) (l : list ascii) : option Z :=
  match l with
  | [] => if after_digit then Some acc else None
  | c :: l' =>
      if is_digit c
      then digits_value (10 * acc + Z.of_nat (nat_of_ascii c - 48)) true l'
      else if is_underscore c && after_digit
           then digits_value acc false l'
           else None
  end.

(** The builtin [int] applied to an ASCII [str], in base ten: the
    whitespace of [is_int_space] around the literal is dropped, one sign
    is allowed, and anything but a decimal literal raises [ValueError].  (The interpreter's configurable
    limit on the number of digits is not part of this definition.) *)
Definition int_of_str (s : string) : Outcome Z :=
  let body := strip (list_ascii_of_string s) in
  let parsed :=
    match body with
    | c :: l' =>
        if Nat.eqb (nat_of_ascii c) 45 then Z.opp <$> digits_value 0 false l'
        else if Nat.eqb (nat_of_ascii c) 43 then digits_value 0 false l'
        else digits_value 0 false body
    | [] => None
    end in
  match parsed with
  | Some n => Ret n
  | None => Raise (ValueError "invalid literal for int() with base 10")
  end.

End Py.

(* ===================================================================== *)
(** * [device_tracker/ubus.py]: the OpenWRT ubus device scanner *)
(* ===================================================================== *)

Module Ubus.
Import Py.
Local Open Scope py_scope.

(** [CONF_LEASE_FILE], the one configuration key the module defines. *)
Definition CONF_LEASE_FILE : string := "lease_file".

(** [class Lease]: an [attr.s] class with five positional attributes. *)
Record Lease : Type := mkLease {
  expires : string;
  mac : string;
  ip : string;
  hostname : string;
  client_id : string
}.

(** [Lease( *args )]: the generated [__init__] takes exactly five
    positional arguments and raises [TypeError] otherwise. *)
Definition Lease_new (args : list string) : Outcome Lease :=
  match args with
  | [a1; a2; a3; a4; a5] => Ret (mkLease a1 a2 a3 a4 a5)
  | _ :: _ :: _ :: _ :: _ :: _ :: _ =>
      Raise (TypeError "__init__() takes 6 positional arguments")
  | _ => Raise (TypeError "__init__() missing required positional arguments")
  end.

(** One association record of [iwinfo assoclist]: a dict of attributes
    ([mac], [signal], ...). *)
Abbreviation client := (gmap string string).

(** The values kept in the dict that [_get_leases] returns: leases parsed
    from a dnsmasq file, and what [_get_odhcpd_leases] hands back, which
    is the last raw per-interface dict of lease lists its loop bound to
    the name [leases]. *)
Inductive LeaseValue : Type :=
| IsLease (l : Lease)
| OdhcpdList (vlist : list string).

(** [x[key]] on a dict with string keys. *)
Definition getitem {A} (d : gmap string A) (key : string) : Outcome A :=
  match d !! key with
  | Some v => Ret v
  | None => Raise (KeyError key)
  end.

(** A list or dict comprehension whose element expression may raise. *)
Fixpoint comprehension {A B} (f : A -> Outcome B) (xs : list A) : Outcome (list B) :=
  match xs with
  | [] => Ret []
  | x :: xs' =>
      match f x with
      | Raise e => Raise e
      | Ret y =>
          match comprehension f xs' with
          | Raise e => Raise e
          | Ret ys => Ret (y :: ys)
          end
      end
  end.

(** [d.update(pairs)]: later pairs replace earlier ones. *)
Definition update_pairs {A} (d : gmap string A) (pairs : list (string * A)) : gmap string A :=
  fold_left (fun acc kv => <[kv.1 := kv.2]> acc) pairs d.

(** Host-framework constants imported from [homeassistant.const] and
    [homeassistant.components.device_tracker]; their values are not part
    of the sources. *)
Class HostConstants : Type := {
  CONF_HOST : string;
  CONF_PASSWORD : string;
  CONF_USERNAME : string;
  DOMAIN : string
}.

Section Scanner.

(** The state of the router and of the session behind the [Ubus]
    client object; the adapter never looks inside. *)
Variable V : Type.

(** The operations of the python-ubus client that the scanner uses.
    Each may change the vendor state and may raise.
    - [ubus_connect]: [Ubus(host, username, password)];
    - [ubus_enter], [ubus_exit]: the context manager of
      [with self.ubus as ubus] (the exit does not swallow exceptions);
    - [ubus_contains]: [name in ubus];
    - [iwinfo_devices]: [ubus["iwinfo"]["devices"]()];
    - [iwinfo_assoclist]: [ubus["iwinfo"]["assoclist"](device=iface)];
    - [dhcp_leases]: [ubus["dhcp"][method]().values()], each value a
      dict from interface to a dict of lists of raw leases, listed
      in iteration order;
    - [uci_get]: [ubus["uci"]["get"](config=..., type=...)["values"]];
    - [file_read]: [ubus["file"]["read"](path=...)["data"]];
    - [is_valid_session]: [ubus.is_valid_session()]. *)
Record UbusClient : Type := {
  ubus_connect : option string -> option string -> option string -> M V unit;
  ubus_enter : M V unit;
  ubus_exit : M V unit;
  ubus_contains : string -> M V bool;
  iwinfo_devices : M V (list string);
  iwinfo_assoclist : string -> M V (list client);
  dhcp_leases : string -> M V (list (list (string * gmap string (list string))));
  uci_get : string -> string -> M V (list (gmap string string));
  file_read : string -> M V string;
  is_valid_session : M V bool
}.

(** What a method of the scanner can touch besides its own locals. *)
Record World : Type := mkWorld {
  router : V;
  log : list LogRecord
}.

(** A call into the vendor library. *)
Definition call {A} (op : M V A) : M World A :=
  fun w => let '(r, v) := op (router w) in (r, mkWorld v (log w)).

Definition _LOGGER_log (l : level) (fmt : string) : M World unit :=
  modify (fun w => mkWorld (router w) ((l, fmt) :: log w)).
Definition _LOGGER_debug := _LOGGER_log DEBUG.
Definition _LOGGER_warning := _LOGGER_log WARNING.
Definition _LOGGER_error := _LOGGER_log ERROR.

Variable ubus : UbusClient.

(** [with self.ubus as ubus: body]. The exit runs however the body
    ends; an exception of the exit replaces that of the body. *)
Definition with_ubus {L A} (body : M (L * World) A) : M (L * World) A :=
  in_frame (call (ubus_enter ubus)) ;;;
  fun s =>
    let '(r, s') := body s in
    match in_frame (call (ubus_exit ubus)) s' with
    | (Ret _, s'') => (r, s'')
    | (Raise e, s'') => (Raise e, s'')
    end.

(** [class UbusDeviceScanner]: the attributes [__init__] sets (the
    client object itself is [ubus]). A configuration value is a string
    or [None]. *)
Record UbusDeviceScanner : Type := mkScanner {
  username : option string;
  password : option string;
  lease_file : option string;
  _wlan_ifaces : list string;
  success_init : bool
}.

(** [_get_network_interfaces]: the [return] inside the [with] takes effect
    once the session has been left; after a caught exception the method
    falls through to [return []]. *)
Definition _get_network_interfaces : M World (list string) :=
  returned <- without_locals
    (try_except
       (with_ubus (
          devices <- in_frame (call (iwinfo_devices ubus)) ;;
          ret (Some devices)))
       is_UbusException
       (fun ex =>
          in_frame (_LOGGER_error
            "Unable to read network interfaces from ubus,check your configuration: %s") ;;;
          ret None)) ;;
  match returned with
  | Some devices => ret devices
  | None => ret []
  end.

(** The body of the [try] in [_get_connected_devices]; the local is
    [clients]. *)
Definition connected_devices_try (self : UbusDeviceScanner)
  : M (gmap string client * World) unit :=
  with_ubus (
    for_each (_wlan_ifaces self) (fun iface =>
      clients_for_iface <- in_frame (call (iwinfo_assoclist ubus iface)) ;;
      by_mac <- eval (comprehension
                        (fun x => match getitem x "mac" with
                                  | Ret m => Ret (m, x)
                                  | Raise e => Raise e
                                  end)
                        clients_for_iface) ;;
      set_local (fun clients => update_pairs clients by_mac))) ;;;
  in_frame (_LOGGER_debug "Total %s connected devices: %s").

(** [_get_connected_devices]. *)
Definition _get_connected_devices (self : UbusDeviceScanner)
  : M World (gmap string client) :=
  with_locals ∅
    (try_except
       (connected_devices_try self)
       is_UbusException
       (fun ex => in_frame (_LOGGER_error "Unable to read connected devices: %s")))
    (fun clients => clients).

(** [_get_odhcpd_leases]. The innermost [for iface, leases in
    dev.items()] rebinds the local [leases], which is what the function
    returns. *)
Definition _get_odhcpd_leases : M World (gmap string LeaseValue) :=
  with_locals (∅ : gmap string LeaseValue)
    (in_frame (_LOGGER_warning "odhcpd not supported, please report the lines below") ;;;
     for_each ["ipv4leases"; "ipv6leases"]%string (fun lease_method =>
       devs <- in_frame (call (dhcp_leases ubus lease_method)) ;;
       for_each devs (fun dev =>
         in_frame (_LOGGER_warning "RAW lease: %s") ;;;
         for_each dev (fun '(iface, leases) =>
           set_local (fun _ => OdhcpdList <$> leases) ;;;
           for_each (map_to_list leases).*2 (fun vlist =>
             for_each vlist (fun lease =>
               in_frame (_LOGGER_warning "odhcpd lease: %s")))))))
    (fun leases => leases).

(** [_get_lease_files]. *)
Definition _get_lease_files : M World (list string) :=
  dhcp_config <- call (uci_get ubus "dhcp" "dnsmasq") ;;
  eval (comprehension (fun x => getitem x "leasefile") dhcp_config).

(** The loop of [_get_dnsmasq_leases] over the lines of the file. *)
Definition dnsmasq_line {S} (lease_line : string) : M (gmap string Lease * S) unit :=
  lease <- eval (Lease_new (split " " lease_line)) ;;
  set_local (fun leases => <[upper (mac lease) := lease]> leases).

(** [_get_dnsmasq_leases]. *)
Definition _get_dnsmasq_leases (lease_file : string) : M World (gmap string Lease) :=
  with_locals ∅
    (currently_leased <- in_frame (call (file_read ubus lease_file)) ;;
     for_each (splitlines currently_leased) dnsmasq_line)
    (fun leases => leases).

(** The body of the [try] in [_get_leases]; the local is [leases]. *)
Definition leases_try (self : UbusDeviceScanner)
  : M (gmap string LeaseValue * World) unit :=
  with_ubus (
    has_dhcp <- in_frame (call (ubus_contains ubus "dhcp")) ;;
    (if has_dhcp : bool then
       odhcpd <- in_frame _get_odhcpd_leases ;;
       set_local (fun leases => odhcpd ∪ leases) ;;;
       in_frame (_LOGGER_warning "Report the lease format as shown above")
     else ret tt) ;;;
    lease_files <- match lease_file self with
                   | None => in_frame _get_lease_files
                   | Some f => ret [f]
                   end ;;
    for_each lease_files (fun lease_file =>
      parsed <- in_frame (_get_dnsmasq_leases lease_file) ;;
      set_local (fun leases => (IsLease <$> parsed) ∪ leases)) ;;;
    in_frame (_LOGGER_debug "Found %s leases: %s")).

(** [_get_leases]. *)
Definition _get_leases (self : UbusDeviceScanner) : M World (gmap string LeaseValue) :=
  with_locals ∅
    (try_except
       (leases_try self)
       is_UbusException
       (fun ex => in_frame (_LOGGER_error "Unable to read leases from ubus: %s")))
    (fun leases => leases).

(** [scan_devices]: the keys of the connected-clients dict.  The code
    returns the [dict_keys] view, which iterates in insertion order; the
    list written here has the same members, each once, in the order of
    the map, so that only membership and the absence of duplicates are
    meant. *)
Definition scan_devices (self : UbusDeviceScanner) : M World (list string) :=
  clients <- _get_connected_devices self ;;
  ret (map_to_list clients).*1.

(** [get_device_name]: falls off the end, returning [None], when [mac]
    is not a key. *)
Definition get_device_name (self : UbusDeviceScanner) (mac : string)
  : M World (option string) :=
  leases <- _get_leases self ;;
  match leases !! mac with
  | Some (IsLease l) => ret (Some (hostname l))
  | Some (OdhcpdList _) => raise (AttributeError "hostname")
  | None => ret None
  end.

Context `{HostConstants}.

(** The global names bound in the module [ubus.py], by its imports and
    its assignments, with the values the scanner reads. *)
Definition module_globals : gmap string string :=
  <["CONF_LEASE_FILE" := CONF_LEASE_FILE]>
  (<["CONF_HOST" := CONF_HOST]>
  (<["CONF_PASSWORD" := CONF_PASSWORD]>
  (<["CONF_USERNAME" := CONF_USERNAME]>
  (<["DOMAIN" := DOMAIN]> ∅)))).

(** Evaluating a global name: [NameError] when the module does not
    bind it. *)
Definition load_global {S} (name : string) : M S string :=
  match module_globals !! name with
  | Some v => ret v
  | None => raise (NameError name)
  end.

(** [UbusDeviceScanner.__init__]. *)
Definition __init__ (config : gmap string (option string)) : M World UbusDeviceScanner :=
  k <- load_global "CONF_HOST" ;;
  host <- eval (getitem config k) ;;
  k <- load_global "CONF_USERNAME" ;;
  username <- eval (getitem config k) ;;
  k <- load_global "CONF_PASSWORD" ;;
  password <- eval (getitem config k) ;;
  k <- load_global "CONF_LEASEFILE" ;;
  lease_file <- eval (getitem config k) ;;
  call (ubus_connect ubus host username password) ;;;
  wlan_ifaces <- _get_network_interfaces ;;
  success_init <- call (is_valid_session ubus) ;;
  ret (mkScanner username password lease_file wlan_ifaces success_init).

(** [get_scanner], given [config[DOMAIN]]. *)
Definition get_scanner (domain_config : gmap string (option string))
  : M World (option UbusDeviceScanner) :=
  scanner <- __init__ domain_config ;;
  ret (if success_init scanner then Some scanner else None).

End Scanner.

Arguments mkWorld {V} _ _.
Arguments router {V} _.
Arguments log {V} _.
Arguments ubus_connect {V} _ _ _ _.
Arguments ubus_enter {V} _.
Arguments ubus_exit {V} _.
Arguments ubus_contains {V} _ _.
Arguments iwinfo_devices {V} _.
Arguments iwinfo_assoclist {V} _ _.
Arguments dhcp_leases {V} _ _.
Arguments uci_get {V} _ _ _.
Arguments file_read {V} _ _.
Arguments is_valid_session {V} _.
Arguments call {V A} _.
Arguments _LOGGER_log {V} _ _.
Arguments _LOGGER_debug {V} _.
Arguments _LOGGER_warning {V} _.
Arguments _LOGGER_error {V} _.
Arguments with_ubus {V} _ {L A} _.
Arguments _get_network_interfaces {V} _.
Arguments connected_devices_try {V} _ _.
Arguments _get_connected_devices {V} _ _.
Arguments _get_odhcpd_leases {V} _.
Arguments _get_lease_files {V} _.
Arguments _get_dnsmasq_leases {V} _ _.
Arguments leases_try {V} _ _.
Arguments _get_leases {V} _ _.
Arguments scan_devices {V} _ _.
Arguments get_device_name {V} _ _ _.
Arguments module_globals {_}.
Arguments load_global {_ S} _.
Arguments __init__ {V} _ {_} _.
Arguments get_scanner {V} _ {_} _.

(** The uppercased second field of a lease line. *)
Definition lease_key (line : string) : string :=
  upper (nth 1 (split " " line) ""%string).

(** The parser in the words of the specification, to compare with
    [_get_dnsmasq_leases]: "lease-file lines are parsed into fields by
    whitespace splitting and the resulting key is the uppercased second
    field". *)
Definition spec_insert_line (acc : Outcome (gmap string Lease)) (line : string)
  : Outcome (gmap string Lease) :=
  match acc with
  | Raise e => Raise e
  | Ret leases =>
      match Lease_new (split_whitespace line) with
      | Ret l => Ret (<[upper (mac l) := l]> leases)
      | Raise e => Raise e
      end
  end.

Definition spec_dnsmasq_leases (text : string) : Outcome (gmap string Lease) :=
  fold_left spec_insert_line (splitlines text) (Ret ∅).

(** One round of the loop of [_get_dnsmasq_leases] on the dict alone. *)
Definition insert_line (acc : gmap string Lease) (line : string) : gmap string Lease :=
  match Lease_new (split " " line) with
  | Ret l => <[upper (mac l) := l]> acc
  | Raise _ => acc
  end.

End Ubus.

(* ===================================================================== *)
(** * [xiaomi_miio]: what the vacuum and the switch entity share *)
(* ===================================================================== *)

Module Miio.
Import Py.
Local Open Scope py_scope.

(** [dict.get(key)] on a dict written as its items in insertion order. *)
Fixpoint dict_get {K A} `{EqDecision K} (d : list (K * A)) (key : K) : option A :=
  match d with
  | [] => None
  | (k, v) :: d' => if decide (k = key) then Some v else dict_get d' key
  end.

(** What a command handler can touch: the entity [self], the data last
    fetched by the coordinator, the device behind the SDK object, the log,
    the SDK calls run through the executor with how each ended, and the
    number of times the entity wrote its state to the host. *)
Record World (E C D K : Type) : Type := mkWorld {
  entity : E;
  data : C;
  device : D;
  log : list LogRecord;
  sdk_calls : list (K * Outcome unit);
  state_writes : nat
}.
Arguments mkWorld {E C D K} _ _ _ _ _ _.
Arguments entity {E C D K} _.
Arguments data {E C D K} _.
Arguments device {E C D K} _.
Arguments log {E C D K} _.
Arguments sdk_calls {E C D K} _.
Arguments state_writes {E C D K} _.

Section Entity.
Context {E C D K : Type}.

Definition set_entity (f : E -> E) : M (World E C D K) unit :=
  modify (fun w => mkWorld (f (entity w)) (data w) (device w) (log w)
                           (sdk_calls w) (state_writes w)).

Definition _LOGGER_log (l : level) (fmt : string) : M (World E C D K) unit :=
  modify (fun w => mkWorld (entity w) (data w) (device w) ((l, fmt) :: log w)
                           (sdk_calls w) (state_writes w)).
Definition _LOGGER_debug := _LOGGER_log DEBUG.
Definition _LOGGER_error := _LOGGER_log ERROR.

(** Modelled from the spec: [Entity.async_write_ha_state] of the host
    framework, which is not part of the sources.  Of the "switch/vacuum
    entity capability (state, attribute properties, async command
    methods)" that the host owns, the model keeps how many times the
    entity wrote its state to the host; what the host does with the state,
    and what it logs through loggers of its own, is not modelled. *)
Definition async_write_ha_state : M (World E C D K) unit :=
  modify (fun w => mkWorld (entity w) (data w) (device w) (log w)
                           (sdk_calls w) (S (state_writes w))).

(** Modelled from the spec: [hass.async_add_executor_job] of the host
    framework, which is not part of the sources, for
    [await self.hass.async_add_executor_job(partial(func, *args))]:
    "executor-offloaded blocking calls in the vacuum adapter, per the host
    framework's threading convention for synchronous device SDK calls".
    The SDK call [k] runs against the device and its result, or the
    exception it raises, comes back to the handler; the model records the
    call and how it ended, and nothing the host may log of its own. *)
Definition async_add_executor_job (sdk : K -> M D unit) (k : K)
  : M (World E C D K) unit :=
  fun w =>
    let '(r, d) := sdk k (device w) in
    (r, mkWorld (entity w) (data w) d (log w) ((k, r) :: sdk_calls w)
                (state_writes w)).

(** A command that failed without a trace on the entity: the entity,
    the coordinator data and the number of state writes are those of
    [w], and the newest log record of [w'] is an error. *)
Definition unchanged_but_logged (w w' : World E C D K) : Prop :=
  entity w' = entity w /\
  data w' = data w /\
  state_writes w' = state_writes w /\
  exists fmt earlier, log w' = (ERROR, fmt) :: earlier ++ log w.

End Entity.

End Miio.

(* ===================================================================== *)
(** * [xiaomi_miio/vacuum.py]: the vacuum entity *)
(* ===================================================================== *)

Module Vacuum.
Import Py Miio.
Local Open Scope py_scope.

(** [miio.interfaces.vacuuminterface.VacuumState]: the six members the
    adapter names, and [Other] for any further member the vendor enum
    reports. *)
Inductive VacuumState : Type :=
| Error | Cleaning | Idle | Docked | Returning | Paused
| Other (name : string).

#[global] Instance VacuumState_eq_dec : EqDecision VacuumState.
Proof. solve_decision. Defined.

(** [self.coordinator.data]: the status object of the last poll. *)
Record VacuumStatus : Type := mkStatus {
  vacuum_state : VacuumState;
  fanspeed : Z;
  battery : Z;
  status_state : string
}.

(** [class MiroboVacuum]: the attributes [__init__] sets. *)
Record MiroboVacuum : Type := mkVacuum {
  _fan_speed_presets : list (string * Z);
  _fan_speed_presets_reverse : gmap Z string;
  _state : option string
}.

(** [{speed: name for name, speed in presets.items()}]: a later item
    replaces an earlier one with the same speed. *)
Definition presets_reverse (presets : list (string * Z)) : gmap Z string :=
  fold_left (fun acc item => <[item.2 := item.1]> acc) presets ∅.

(** [MiroboVacuum.__init__], given what [device.fan_speed_presets()]
    returned. *)
Definition __init__ (fan_speed_presets : list (string * Z)) : MiroboVacuum :=
  mkVacuum fan_speed_presets (presets_reverse fan_speed_presets) None.

(** The [fan_speed] property. *)
Definition fan_speed (self : MiroboVacuum) (status : VacuumStatus) : string :=
  default "Custom"%string (_fan_speed_presets_reverse self !! fanspeed status).

(** The [fan_speed_list] property. *)
Definition fan_speed_list (self : MiroboVacuum) : list string :=
  (_fan_speed_presets self).*1.

(** The [battery_level] property. *)
Definition battery_level (status : VacuumStatus) : Z := battery status.

(** The display constants of [homeassistant.components.vacuum]; their
    values are not part of the sources. *)
Class HassStates : Type := {
  STATE_CLEANING : string;
  STATE_DOCKED : string;
  STATE_ERROR : string;
  STATE_IDLE : string;
  STATE_PAUSED : string;
  STATE_RETURNING : string
}.

(** The SDK methods the handlers pass to the executor, with their
    arguments.  [float], and [Params] for the parameters of a raw command,
    are passed through. *)
Inductive command (float Params : Type) : Type :=
| resume_or_start
| pause
| stop
| set_fan_speed (speed : Z)
| home
| spot
| find
| raw_command (cmd : string) (params : Params)
| manual_start
| manual_stop
| manual_control (velocity : float) (rotation : Z) (duration : Z)
| manual_control_once (velocity : float) (rotation : Z) (duration : Z)
| goto (x_coord y_coord : Z)
| segment_clean (segments : list Z)
| zoned_clean (zone : list (list Z)).
Arguments resume_or_start {float Params}.
Arguments pause {float Params}.
Arguments stop {float Params}.
Arguments set_fan_speed {float Params} speed.
Arguments home {float Params}.
Arguments spot {float Params}.
Arguments find {float Params}.
Arguments raw_command {float Params} cmd params.
Arguments manual_start {float Params}.
Arguments manual_stop {float Params}.
Arguments manual_control {float Params} velocity rotation duration.
Arguments manual_control_once {float Params} velocity rotation duration.
Arguments goto {float Params} x_coord y_coord.
Arguments segment_clean {float Params} segments.
Arguments zoned_clean {float Params} zone.

(** The miio device object, over the state [D] of the robot behind it:
    running a command, and the status poll of the coordinator (which
    keeps the previous data when it fails). *)
Record Device (float Params D : Type) : Type := {
  run : command float Params -> M D unit;
  poll : D -> option VacuumStatus * D
}.
Arguments run {float Params D} _ _.
Arguments poll {float Params D} _ _.

(** The [zone] argument of [async_clean_zone]: a list whose items are
    list objects.  [zone_items] gives, position by position, the identity
    of the object held there, and [zone_objects] the contents of the list
    object of each identity, so that one object may be held at several
    positions of the list. *)
Record ZoneList : Type := mkZoneList {
  zone_objects : nat -> list Z;
  zone_items : list nat
}.

(** [_zone.append(x)] on the list object of identity [i]: the object is
    changed in place, for every position that holds it. *)
Definition list_append (objects : nat -> list Z) (i : nat) (x : Z) : nat -> list Z :=
  fun j => if decide (j = i) then objects j ++ [x] else objects j.

(** The values of a list of list objects, as the SDK serialises them. *)
Definition zone_values (objects : nat -> list Z) (items : list nat) : list (list Z) :=
  objects <$> items.

(** The user-initiated commands of the entity, as the host's services
    name them. *)
Inductive service (float Params : Type) : Type :=
| Start
| Pause
| Stop
| SetFanSpeed (fan_speed : string)
| ReturnToBase
| CleanSpot
| Locate
| SendCommand (cmd : string) (params : Params)
| RemoteControlStart
| RemoteControlStop
| RemoteControlMove (rotation : Z) (velocity : float) (duration : Z)
| RemoteControlMoveStep (rotation : Z) (velocity : float) (duration : Z)
| Goto (x_coord y_coord : Z)
| CleanSegment (segments : Z + list Z)
| CleanZone (zone : ZoneList) (repeats : Z).
Arguments Start {float Params}.
Arguments Pause {float Params}.
Arguments Stop {float Params}.
Arguments SetFanSpeed {float Params} fan_speed.
Arguments ReturnToBase {float Params}.
Arguments CleanSpot {float Params}.
Arguments Locate {float Params}.
Arguments SendCommand {float Params} cmd params.
Arguments RemoteControlStart {float Params}.
Arguments RemoteControlStop {float Params}.
Arguments RemoteControlMove {float Params} rotation velocity duration.
Arguments RemoteControlMoveStep {float Params} rotation velocity duration.
Arguments Goto {float Params} x_coord y_coord.
Arguments CleanSegment {float Params} segments.
Arguments CleanZone {float Params} zone repeats.

Section Entity.
Context {float Params D : Type} `{HassStates}.

Variable sdk : Device float Params D.

Abbreviation VWorld := (World MiroboVacuum VacuumStatus D (command float Params)).

(** The [state] property. *)
Definition state (self : MiroboVacuum) (status : VacuumStatus) : option string :=
  if decide (vacuum_state status = Error) then Some STATE_ERROR else _state self.

(** The dict literal [VACUUMSTATE_TO_HASS]. *)
Definition VACUUMSTATE_TO_HASS : list (VacuumState * string) :=
  [ (Error, STATE_ERROR);
    (Cleaning, STATE_CLEANING);
    (Idle, STATE_IDLE);
    (Docked, STATE_DOCKED);
    (Returning, STATE_RETURNING);
    (Paused, STATE_PAUSED) ].

Definition set__state (v : option string) : M VWorld unit :=
  set_entity (fun self =>
    mkVacuum (_fan_speed_presets self) (_fan_speed_presets_reverse self) v).

(** [_handle_coordinator_update]. [dict.get] returns [None] for a
    missing key; [super()._handle_coordinator_update()] writes the
    state to the host. *)
Definition _handle_coordinator_update : M VWorld unit :=
  vacstate <- gets (fun w => vacuum_state (data w)) ;;
  try_except
    (looked_up <- eval (Ret (dict_get VACUUMSTATE_TO_HASS vacstate)) ;;
     set__state looked_up)
    is_KeyError
    (fun _ =>
       _LOGGER_error "Unknown state: %s" ;;;
       set__state None) ;;;
  async_write_ha_state.

(** Modelled from the spec: [DataUpdateCoordinator.async_refresh] of the
    host framework, "a host-framework component that performs periodic
    polling and fans out updates to entities": it polls the device,
    keeps the new status when there is one, and has the entity handle
    the update.  It does not raise. *)
Definition async_refresh : M VWorld unit :=
  fun w =>
    let '(polled, d) := poll sdk (device w) in
    _handle_coordinator_update
      (mkWorld (entity w) (default (data w) polled) d (log w)
               (sdk_calls w) (state_writes w)).

(** [_try_command]. *)
Definition _try_command (mask_error : string) (func : command float Params)
  : M VWorld bool :=
  try_except
    (async_add_executor_job (run sdk) func ;;;
     async_refresh ;;;
     ret true)
    is_DeviceException
    (fun exc =>
       _LOGGER_error mask_error ;;;
       ret false).

Definition async_start : M VWorld unit :=
  _ <- _try_command "Unable to start the vacuum: %s" resume_or_start ;; ret tt.

Definition async_pause : M VWorld unit :=
  _ <- _try_command "Unable to set start/pause: %s" pause ;; ret tt.

Definition async_stop : M VWorld unit :=
  _ <- _try_command "Unable to stop: %s" stop ;; ret tt.

(** The builtin [int] on a [str] argument: the integer, or the
    exception it raises.  It stays a parameter, so that what is proved of
    [async_set_fan_speed] holds whatever the interpreter accepts as a
    number; [Py.int_of_str] is its instance on ASCII decimal text. *)
Variable int : string -> Outcome Z.

(** [async_set_fan_speed]; [None] stands for the [return] in the
    [except] clause. *)
Definition async_set_fan_speed (fan_speed : string) : M VWorld unit :=
  self <- gets entity ;;
  chosen <- match dict_get (_fan_speed_presets self) fan_speed with
            | Some speed => ret (Some speed)
            | None =>
                try_except
                  (fan_speed_int <- eval (int fan_speed) ;; ret (Some fan_speed_int))
                  is_ValueError
                  (fun exc =>
                     _LOGGER_error
                       "Fan speed step not recognized (%s). Valid speeds are: %s" ;;;
                     ret None)
            end ;;
  match chosen with
  | None => ret tt
  | Some fan_speed_int =>
      _ <- _try_command "Unable to set fan speed: %s" (set_fan_speed fan_speed_int) ;;
      ret tt
  end.

Definition async_return_to_base : M VWorld unit :=
  _ <- _try_command "Unable to return home: %s" home ;; ret tt.

Definition async_clean_spot : M VWorld unit :=
  _ <- _try_command "Unable to start the vacuum for a spot clean-up: %s" spot ;;
  ret tt.

Definition async_locate : M VWorld unit :=
  _ <- _try_command "Unable to locate the botvac: %s" find ;; ret tt.

Definition async_send_command (cmd : string) (params : Params) : M VWorld unit :=
  _ <- _try_command "Unable to send command to the vacuum: %s"
         (raw_command cmd params) ;;
  ret tt.

Definition async_remote_control_start : M VWorld unit :=
  _ <- _try_command "Unable to start remote control the vacuum: %s" manual_start ;;
  ret tt.

Definition async_remote_control_stop : M VWorld unit :=
  _ <- _try_command "Unable to stop remote control the vacuum: %s" manual_stop ;;
  ret tt.

Definition async_remote_control_move (rotation : Z) (velocity : float) (duration : Z)
  : M VWorld unit :=
  _ <- _try_command "Unable to move with remote control the vacuum: %s"
         (manual_control velocity rotation duration) ;;
  ret tt.

Definition async_remote_control_move_step (rotation : Z) (velocity : float) (duration : Z)
  : M VWorld unit :=
  _ <- _try_command "Unable to remote control the vacuum: %s"
         (manual_control_once velocity rotation duration) ;;
  ret tt.

Definition async_goto (x_coord y_coord : Z) : M VWorld unit :=
  _ <- _try_command
         "Unable to send the vacuum cleaner to the specified coordinates: %s"
         (goto x_coord y_coord) ;;
  ret tt.

(** [async_clean_segment]: a single [int] becomes a one-element list. *)
Definition async_clean_segment (segments : Z + list Z) : M VWorld unit :=
  let segments := match segments with inl n => [n] | inr l => l end in
  _ <- _try_command "Unable to start cleaning of the specified segments: %s"
         (segment_clean segments) ;;
  ret tt.

(** [async_clean_zone]: the loop [for _zone in zone: _zone.append(repeats)]
    appends in place to the object at each position in turn, so an object
    held at several positions is appended to once for each; the list is
    then passed to the SDK with the contents its objects have by then.
    (The objects are the caller's; the model keeps their new contents
    for the call only.) *)
Definition async_clean_zone (zone : ZoneList) (repeats : Z) : M VWorld unit :=
  let objects :=
    fold_left (fun objects _zone => list_append objects _zone repeats)
              (zone_items zone) (zone_objects zone) in
  _LOGGER_debug "Zone with repeats: %s" ;;;
  try_except
    (async_add_executor_job (run sdk) (zoned_clean (zone_values objects (zone_items zone))) ;;;
     async_refresh)
    (fun e => is_OSError e || is_DeviceException e)
    (fun exc =>
       _LOGGER_error "Unable to send zoned_clean command to the vacuum: %s").

(** The handler the host calls for a service. *)
Definition handler (svc : service float Params) : M VWorld unit :=
  match svc with
  | Start => async_start
  | Pause => async_pause
  | Stop => async_stop
  | SetFanSpeed fan_speed => async_set_fan_speed fan_speed
  | ReturnToBase => async_return_to_base
  | CleanSpot => async_clean_spot
  | Locate => async_locate
  | SendCommand cmd params => async_send_command cmd params
  | RemoteControlStart => async_remote_control_start
  | RemoteControlStop => async_remote_control_stop
  | RemoteControlMove r v d => async_remote_control_move r v d
  | RemoteControlMoveStep r v d => async_remote_control_move_step r v d
  | Goto x y => async_goto x y
  | CleanSegment segments => async_clean_segment segments
  | CleanZone zone repeats => async_clean_zone zone repeats
  end.

End Entity.

End Vacuum.

(* ===================================================================== *)
(** * [xiaomi_miio/ng_switch.py]: the switch entity *)
(* ===================================================================== *)

Module Switch.
Import Py Miio.
Local Open Scope py_scope.

(** [class XiaomiSwitch]: the attributes [__init__] sets; [key] is
    [entity_description.key]. *)
Record XiaomiSwitch : Type := mkSwitch {
  _name : string;
  _property : string;
  key : string;
  _attr_is_on : option bool
}.

Section Entity.

(** The status object of the coordinator and the state of the device. *)
Context {C D : Type}.

(** [self._setter], the SDK method that sets the option. *)
Variable _setter : bool -> M D unit.

(** [_extract_value_from_attribute] of the base class, which is not
    part of the sources: the value of an attribute of the status. *)
Variable _extract_value_from_attribute : C -> string -> option bool.

Abbreviation SWorld := (World XiaomiSwitch C D bool).

Definition set__attr_is_on (v : option bool) : M SWorld unit :=
  set_entity (fun self => mkSwitch (_name self) (_property self) (key self) v).

(** [_handle_coordinator_update]. *)
Definition _handle_coordinator_update : M SWorld unit :=
  w <- gets (fun w => w) ;;
  set__attr_is_on (_extract_value_from_attribute (data w) (key (entity w))) ;;;
  async_write_ha_state.

(** Modelled from the spec: [XiaomiCoordinatedMiioEntity._try_command]
    of [device.py], which the switch inherits and which is not part of
    the sources.  "Each method is a direct call-through to an external
    library method with [...] error logging on a caught exception from
    the vendor library"; the exception is converted to "a boolean
    failure signal".  (The vacuum overrides it only to refresh the
    coordinator on success.) *)
Definition _try_command (mask_error : string) (func : bool -> M D unit) (arg : bool)
  : M SWorld bool :=
  try_except
    (async_add_executor_job func arg ;;;
     ret true)
    is_DeviceException
    (fun exc =>
       _LOGGER_error mask_error ;;;
       ret false).

(** [async_turn_on]. *)
Definition async_turn_on : M SWorld unit :=
  ok <- _try_command "Turning %s on failed" _setter true ;;
  if ok : bool then
    set__attr_is_on (Some true) ;;;
    async_write_ha_state
  else ret tt.

(** [async_turn_off]. *)
Definition async_turn_off : M SWorld unit :=
  ok <- _try_command "Turning off failed" _setter false ;;
  if ok : bool then
    set__attr_is_on (Some false) ;;;
    async_write_ha_state
  else ret tt.

End Entity.

End Switch.

(* ===================================================================== *)
(** * Concrete routers, robots and plugs *)
(* ===================================================================== *)

Module Scenario.
Import Py.
Local Open Scope string_scope.

Definition LF : string := String (chr 10) "".
Definition TAB : string := String (chr 9) "".

(** ** A router *)

Definition host_constants : Ubus.HostConstants :=
  {| Ubus.CONF_HOST := "host";
     Ubus.CONF_PASSWORD := "password";
     Ubus.CONF_USERNAME := "username";
     Ubus.DOMAIN := "device_tracker" |}.

Definition config : gmap string (option string) :=
  <["host" := Some "192.168.1.1"]>
  (<["username" := Some "root"]>
  (<["password" := Some "secret"]>
  (<["lease_file" := None]> ∅))).

(** Two leases as dnsmasq writes them. *)
Definition lease_text : string :=
  "1700000000 aa:bb:cc:dd:ee:ff 192.168.1.2 laptop 01:aa:bb:cc:dd:ee:ff" ++ LF ++
  "1700000500 11:22:33:44:55:66 192.168.1.3 phone *" ++ LF.

Definition laptop : Ubus.Lease :=
  Ubus.mkLease "1700000000" "aa:bb:cc:dd:ee:ff" "192.168.1.2" "laptop"
               "01:aa:bb:cc:dd:ee:ff".

Definition phone : Ubus.Lease :=
  Ubus.mkLease "1700000500" "11:22:33:44:55:66" "192.168.1.3" "phone" "*".

(** One lease whose fields are separated by a space, two spaces, and
    single spaces. *)
Definition padded_text : string :=
  "1700000000 aa:bb:cc:dd:ee:ff  192.168.1.2 laptop *".

Definition station : gmap string string :=
  <["mac" := "AA:BB:CC:DD:EE:FF"]> (<["signal" := "-52"]> ∅).

(** A router whose first radio and first lease file can be read and
    whose second radio and other files cannot. *)
Definition router : Ubus.UbusClient unit :=
  {| Ubus.ubus_connect := fun _ _ _ => ret tt;
     Ubus.ubus_enter := ret tt;
     Ubus.ubus_exit := ret tt;
     Ubus.ubus_contains := fun _ => ret false;
     Ubus.iwinfo_devices := ret ["wlan0"; "wlan1"];
     Ubus.iwinfo_assoclist := fun iface =>
       if String.eqb iface "wlan0" then ret [station]
       else raise (UbusException "Request timed out");
     Ubus.dhcp_leases := fun _ => ret [];
     Ubus.uci_get := fun _ _ =>
       ret [ <["leasefile" := "/tmp/dhcp.leases"]> ∅;
             <["leasefile" := "/tmp/guest.leases"]> ∅ ];
     Ubus.file_read := fun path =>
       if String.eqb path "/tmp/dhcp.leases" then ret lease_text
       else if String.eqb path "/tmp/padded.leases" then ret padded_text
       else raise (UbusException "Not found");
     Ubus.is_valid_session := ret true |}.

(** A router that refuses the session. *)
Definition unreachable_router : Ubus.UbusClient unit :=
  {| Ubus.ubus_connect := fun _ _ _ => ret tt;
     Ubus.ubus_enter := raise (UbusException "Access denied");
     Ubus.ubus_exit := ret tt;
     Ubus.ubus_contains := fun _ => ret false;
     Ubus.iwinfo_devices := ret [];
     Ubus.iwinfo_assoclist := fun _ => ret [];
     Ubus.dhcp_leases := fun _ => ret [];
     Ubus.uci_get := fun _ _ => ret [];
     Ubus.file_read := fun _ => ret "";
     Ubus.is_valid_session := ret false |}.

(** A scanner that asks the router for its lease files, and one that
    was given a lease file. *)
Definition scanner : Ubus.UbusDeviceScanner :=
  Ubus.mkScanner (Some "root") (Some "secret") None ["wlan0"; "wlan1"] true.

Definition scanner_with_file : Ubus.UbusDeviceScanner :=
  Ubus.mkScanner (Some "root") (Some "secret") (Some "/tmp/dhcp.leases")
                 ["wlan0"; "wlan1"] true.

Definition known_leases : gmap string Ubus.LeaseValue :=
  <["AA:BB:CC:DD:EE:FF" := Ubus.IsLease laptop]>
  (<["11:22:33:44:55:66" := Ubus.IsLease phone]> ∅).

Definition quiet : Ubus.World unit := Ubus.mkWorld tt [].

(** ** A robot *)

Definition hass_states : Vacuum.HassStates :=
  {| Vacuum.STATE_CLEANING := "cleaning";
     Vacuum.STATE_DOCKED := "docked";
     Vacuum.STATE_ERROR := "error";
     Vacuum.STATE_IDLE := "idle";
     Vacuum.STATE_PAUSED := "paused";
     Vacuum.STATE_RETURNING := "returning" |}.

Definition presets : list (string * Z) :=
  [("Silent", 38%Z); ("Standard", 60%Z); ("Medium", 77%Z); ("Turbo", 90%Z)].

(** A robot that does not answer, and one that does; velocities are
    written in hundredths. *)
Definition silent_robot : Vacuum.Device Z (list string) unit :=
  {| Vacuum.run := fun _ => raise (DeviceException "No response from the device");
     Vacuum.poll := fun d => (None, d) |}.

Definition robot : Vacuum.Device Z (list string) unit :=
  {| Vacuum.run := fun _ => ret tt;
     Vacuum.poll := fun d => (None, d) |}.

Definition status (vs : Vacuum.VacuumState) : Vacuum.VacuumStatus :=
  Vacuum.mkStatus vs 60 100 "Charging".

Definition vacuum_world (vs : Vacuum.VacuumState)
  : Miio.World Vacuum.MiroboVacuum Vacuum.VacuumStatus unit (Vacuum.command Z (list string)) :=
  Miio.mkWorld (Vacuum.__init__ presets) (status vs) tt [] [] 0.

(** ** A plug *)

Definition silent_plug : bool -> M unit unit :=
  fun _ => raise (DeviceException "No response from the device").

Definition plug_world : Miio.World Switch.XiaomiSwitch unit unit bool :=
  Miio.mkWorld (Switch.mkSwitch "Power" "power" "power" (Some false)) tt tt [] [] 0.

(** ** More routers, robots and plugs *)

(** A router given by what each of its operations answers, in any state. *)
Definition make_router (enter exit : Outcome unit) (has_dhcp : bool)
    (devices : Outcome (list string))
    (assoclist : string -> Outcome (list (gmap string string)))
    (dhcp : string -> list (list (string * gmap string (list string))))
    (sections : list (gmap string string))
    (files : string -> Outcome string) : Ubus.UbusClient unit :=
  {| Ubus.ubus_connect := fun _ _ _ => ret tt;
     Ubus.ubus_enter := eval enter;
     Ubus.ubus_exit := eval exit;
     Ubus.ubus_contains := fun _ => ret has_dhcp;
     Ubus.iwinfo_devices := eval devices;
     Ubus.iwinfo_assoclist := fun iface => eval (assoclist iface);
     Ubus.dhcp_leases := fun method => ret (dhcp method);
     Ubus.uci_get := fun _ _ => ret sections;
     Ubus.file_read := fun path => eval (files path);
     Ubus.is_valid_session := ret true |}.

Definition station2 : gmap string string :=
  <["mac" := "11:22:33:44:55:66"]> (<["signal" := "-61"]> ∅).

(** An association record without its [mac] attribute. *)
Definition nameless : gmap string string := <["signal" := "-70"]> ∅.

Definition radio_records (iface : string) : list (gmap string string) :=
  if String.eqb iface "wlan0" then [station] else [station2; station].

(** A lease file with an empty line between its two leases. *)
Definition blank_line_text : string :=
  "1700000000 aa:bb:cc:dd:ee:ff 192.168.1.2 laptop 01:aa:bb:cc:dd:ee:ff" ++ LF ++ LF ++
  "1700000500 11:22:33:44:55:66 192.168.1.3 phone *" ++ LF.

(** What odhcpd answers for its IPv4 leases: one device, whose interface
    [br-lan] has the list of leases under the key [leases]. *)
Definition odhcpd_ipv4 : list (list (string * gmap string (list string))) :=
  [ [ ("br-lan", <["leases" := ["192.168.1.7 tablet"]]> ∅) ] ].

(** A router with both radios up. *)
Definition two_radio_router : Ubus.UbusClient unit :=
  make_router (Ret tt) (Ret tt) false (Ret ["wlan0"; "wlan1"])
    (fun iface => Ret (radio_records iface)) (fun _ => []) []
    (fun _ => Ret lease_text).

(** A router that answers and then fails to close the session. *)
Definition hanging_router : Ubus.UbusClient unit :=
  make_router (Ret tt) (Raise (UbusException "Session expired")) false
    (Ret ["wlan0"]) (fun _ => Ret []) (fun _ => []) [] (fun _ => Ret "").

(** A router that does not list its radios. *)
Definition deaf_router : Ubus.UbusClient unit :=
  make_router (Ret tt) (Ret tt) false (Raise (UbusException "Not found"))
    (fun _ => Ret []) (fun _ => []) [] (fun _ => Ret "").

(** A router one of whose association records has no [mac]. *)
Definition anonymous_router : Ubus.UbusClient unit :=
  make_router (Ret tt) (Ret tt) false (Ret ["wlan0"])
    (fun _ => Ret [station; nameless]) (fun _ => []) [] (fun _ => Ret "").

(** A router whose lease file has an empty line. *)
Definition blank_line_router : Ubus.UbusClient unit :=
  make_router (Ret tt) (Ret tt) false (Ret ["wlan0"])
    (fun _ => Ret []) (fun _ => []) [] (fun _ => Ret blank_line_text).

(** A router that runs odhcpd and configures no dnsmasq lease file. *)
Definition odhcpd_router : Ubus.UbusClient unit :=
  make_router (Ret tt) (Ret tt) true (Ret ["wlan0"])
    (fun _ => Ret [])
    (fun method => if String.eqb method "ipv4leases" then odhcpd_ipv4 else [])
    [] (fun _ => Ret "").

(** A router one of whose dnsmasq sections names no lease file. *)
Definition headless_router : Ubus.UbusClient unit :=
  make_router (Ret tt) (Ret tt) false (Ret ["wlan0"])
    (fun _ => Ret []) (fun _ => [])
    [ <["leasefile" := "/tmp/dhcp.leases"]> ∅; <["domain" := "lan"]> ∅ ]
    (fun _ => Ret lease_text).

(** A lease file as dnsmasq writes it when it also serves DHCPv6: the
    line with the server's DUID follows the leases. *)
Definition duid_text : string :=
  lease_text ++ "duid 00:01:00:01:2b:5e:1c:7a:aa:bb:cc:00:11:22" ++ LF.

(** A router whose dnsmasq also serves DHCPv6. *)
Definition dhcpv6_router : Ubus.UbusClient unit :=
  make_router (Ret tt) (Ret tt) false (Ret ["wlan0"])
    (fun _ => Ret []) (fun _ => []) [] (fun _ => Ret duid_text).

Definition one_radio_scanner : Ubus.UbusDeviceScanner :=
  Ubus.mkScanner (Some "root") (Some "secret") None ["wlan0"] true.

(** Presets two of which have the same speed. *)
Definition doubled_presets : list (string * Z) :=
  [("Silent", 38%Z); ("Quiet", 38%Z); ("Turbo", 90%Z)].

(** A robot whose connection breaks below the SDK. *)
Definition unplugged_robot : Vacuum.Device Z (list string) unit :=
  {| Vacuum.run := fun _ => raise (OSError "Network is unreachable");
     Vacuum.poll := fun d => (None, d) |}.

(** A plug that answers. *)
Definition plug : bool -> M unit unit := fun _ => ret tt.

(** Two zone objects, each of four coordinates. *)
Definition zone_lists (i : nat) : list Z :=
  match i with
  | 0 => [1; 2; 3; 4]%Z
  | 1 => [5; 6; 7; 8]%Z
  | _ => []
  end.

(** A list of one zone, a list of the two zones, and a list that holds
    the first zone object at both of its positions. *)
Definition one_zone : Vacuum.ZoneList := Vacuum.mkZoneList zone_lists [0].

Definition two_zones : Vacuum.ZoneList := Vacuum.mkZoneList zone_lists [0; 1].

Definition same_zone_twice : Vacuum.ZoneList := Vacuum.mkZoneList zone_lists [0; 0].

End Scenario.

(* ===================================================================== *)
(** * Notions used to state invariants *)
(* ===================================================================== *)

Module Invariants.
Import Py.

(** A statement keeps a property of the local variables, however it ends,
    and its value, when it returns one, satisfies [Q]. *)
Definition preserves {L S A} (P : L -> Prop) (Q : A -> Prop) (m : M (L * S) A) : Prop :=
  forall l s, P l ->
    match m (l, s) with
    | (Ret a, (l', _)) => P l' /\ Q a
    | (Raise _, (l', _)) => P l'
    end.

(** The number of occurrences of a character in a string. *)
Fixpoint count_char (c : ascii) (s : string) : nat :=
  match s with
  | EmptyString => 0
  | String c' rest => (if Ascii.eqb c' c then 1 else 0) + count_char c rest
  end.

(** A field without a space and without a line boundary. *)
Definition clean_field (f : string) : Prop :=
  count_char " " f = 0 /\ forall c, is_linebreak c = true -> count_char c f = 0.

Definition clean_lease (l : Ubus.Lease) : Prop :=
  clean_field (Ubus.expires l) /\ clean_field (Ubus.mac l) /\ clean_field (Ubus.ip l) /\
  clean_field (Ubus.hostname l) /\ clean_field (Ubus.client_id l).

(** Every client record is stored under its own [mac] attribute. *)
Definition keyed_by_mac (clients : gmap string (gmap string string)) : Prop :=
  forall k x, clients !! k = Some x -> x !! "mac"%string = Some k.

(** Every lease is stored under its uppercased hardware address. *)
Definition parsed_under_upper_mac (parsed : gmap string Ubus.Lease) : Prop :=
  forall k l, parsed !! k = Some l -> k = upper (Ubus.mac l).

Definition leases_under_upper_mac (leases : gmap string Ubus.LeaseValue) : Prop :=
  forall k v, leases !! k = Some v ->
    exists l, v = Ubus.IsLease l /\ k = upper (Ubus.mac l).

(** Between two worlds of the scanner the router did not move and only
    warnings were logged. *)
Definition only_warned {V} (w w' : Ubus.World V) : Prop :=
  Ubus.router w' = Ubus.router w /\
  exists new, Ubus.log w' = new ++ Ubus.log w /\
              Forall (fun r : LogRecord => r.1 = WARNING) new.

(** The dict that the name [leases] is bound to after the loop
    [for iface, leases in dev.items()] has run over [items], when it was
    bound to [before]: the dict of the last item. *)
Definition last_bound (items : list (string * gmap string (list string)))
    (before : gmap string Ubus.LeaseValue) : gmap string Ubus.LeaseValue :=
  match last items with
  | Some (_, leases) => Ubus.OdhcpdList <$> leases
  | None => before
  end.

(** The body of that loop in [_get_odhcpd_leases]. *)
Definition rebind_and_log {V} (item : string * gmap string (list string))
  : M (gmap string Ubus.LeaseValue * Ubus.World V) unit :=
  let '(iface, leases) := item in
  bind (set_local (fun _ => Ubus.OdhcpdList <$> leases))
       (fun _ => for_each (map_to_list leases).*2 (fun vlist =>
                   for_each vlist (fun lease =>
                     in_frame (Ubus._LOGGER_warning "odhcpd lease: %s")))).

(** The association lists of [ifaces], asked for one after the other:
    what the router answered for each, and the vendor state reached. *)
Fixpoint assoclists {V} (ubus : Ubus.UbusClient V) (ifaces : list string)
  : M V (list (list (gmap string string))) :=
  match ifaces with
  | [] => ret []
  | iface :: ifaces' =>
      bind (Ubus.iwinfo_assoclist ubus iface) (fun records =>
        bind (assoclists ubus ifaces') (fun rest => ret (records :: rest)))
  end.

(** The texts of [files], read one after the other. *)
Fixpoint file_reads {V} (ubus : Ubus.UbusClient V) (files : list string)
  : M V (list string) :=
  match files with
  | [] => ret []
  | file :: files' =>
      bind (Ubus.file_read ubus file) (fun text =>
        bind (file_reads ubus files') (fun rest => ret (text :: rest)))
  end.

(** Storing records under their [mac], a later record replacing an
    earlier one with the same [mac]. *)
Definition store_by_mac (clients : gmap string (gmap string string))
    (records : list (gmap string string)) : gmap string (gmap string string) :=
  fold_left (fun acc x => match x !! "mac"%string with
                          | Some m => <[m := x]> acc
                          | None => acc
                          end) records clients.

(** The lease files that [_get_leases] goes through, found in the vendor
    state [v]: the configured one, or else the [leasefile] of every dnsmasq
    section the router lists. *)
Definition lease_files_found {V} (ubus : Ubus.UbusClient V)
    (self : Ubus.UbusDeviceScanner) (v : V) (files : list string) (v' : V) : Prop :=
  match Ubus.lease_file self with
  | Some file => files = [file] /\ v' = v
  | None =>
      exists sections,
        Ubus.uci_get ubus "dhcp" "dnsmasq" v = (Ret sections, v') /\
        Forall2 (fun sec file => sec !! "leasefile"%string = Some file) sections files
  end.

(** A lease line that [Lease( *fields )] accepts. *)
Definition five_fields (line : string) : Prop := length (split " " line) = 5.

(** The number of positions of a list of objects that hold the object
    of identity [i]. *)
Definition times_held (i : nat) (items : list nat) : nat :=
  length (filter (fun j => j = i) items).

(** The presets of the vacuum entity and their reverse are those of [w]. *)
Definition same_presets {C D K} (w w' : Miio.World Vacuum.MiroboVacuum C D K) : Prop :=
  Vacuum._fan_speed_presets (Miio.entity w') = Vacuum._fan_speed_presets (Miio.entity w) /\
  Vacuum._fan_speed_presets_reverse (Miio.entity w')
    = Vacuum._fan_speed_presets_reverse (Miio.entity w).

End Invariants.

(* ===================================================================== *)
(** * Properties of the ubus device scanner *)
(* ===================================================================== *)

Module UbusFacts.
Import Py Ubus.

(** ** [Lease( *fields )] *)

Lemma Lease_new_five fields :
  length fields = 5 ->
  exists l, Lease_new fields = Ret l /\
            fields = [expires l; mac l; ip l; hostname l; client_id l].
Proof.
  intros H. do 6 (destruct fields as [|? fields]; simpl in H; try lia).
  eexists (mkLease _ _ _ _ _). split; reflexivity.
Qed.

Lemma Lease_new_Ret fields l :
  Lease_new fields = Ret l ->
  fields = [expires l; mac l; ip l; hostname l; client_id l].
Proof.
  intros H. do 6 (destruct fields as [|? fields]; simpl in H; try discriminate).
  by injection H as <-.
Qed.

Lemma Lease_new_not_five fields :
  length fields <> 5 -> exists msg, Lease_new fields = Raise (TypeError msg).
Proof.
  intros H. do 6 (destruct fields as [|? fields]; simpl in *; try lia; eauto).
Qed.

(** ** The loop over the lines of a lease file *)

Section Loop.
Context {S : Type}.

Lemma dnsmasq_loop_ok (lines : list string) (acc : gmap string Lease) (s : S) :
  Forall (fun line => length (split " " line) = 5) lines ->
  for_each lines dnsmasq_line (acc, s) = (Ret tt, (fold_left insert_line lines acc, s)).
Proof.
  intros H. revert acc. induction H as [|line lines H5 _ IH]; intros acc; [reflexivity|].
  destruct (Lease_new_five _ H5) as (l & Hl & _).
  simpl. unfold bind at 1, dnsmasq_line, insert_line.
  unfold bind at 1, eval. rewrite Hl. simpl. apply IH.
Qed.

Lemma dnsmasq_loop_bad (lines : list string) (acc : gmap string Lease) (s : S) :
  Exists (fun line => length (split " " line) <> 5) lines ->
  exists msg acc',
    for_each lines dnsmasq_line (acc, s) = (Raise (TypeError msg), (acc', s)).
Proof.
  intros H. revert acc. induction lines as [|line lines IH]; intros acc.
  - inversion H.
  - destruct (decide (length (split " " line) = 5)) as [H5|H5].
    + destruct (Lease_new_five _ H5) as (l & Hl & _).
      inversion H as [? ? Hbad|? ? Hrest]; subst; [contradiction|].
      destruct (IH Hrest (<[upper (mac l) := l]> acc)) as (msg & acc' & Hr).
      exists msg, acc'. simpl. unfold bind at 1, dnsmasq_line.
      unfold bind at 1, eval. rewrite Hl. simpl. apply Hr.
    + destruct (Lease_new_not_five _ H5) as (msg & Hl).
      exists msg, acc. simpl. unfold bind at 1, dnsmasq_line.
      unfold bind at 1, eval. by rewrite Hl.
Qed.

End Loop.

Lemma fold_insert_line_origin lines acc k l :
  fold_left insert_line lines acc !! k = Some l ->
  acc !! k = Some l \/
  exists line, In line lines /\ Lease_new (split " " line) = Ret l /\ k = upper (mac l).
Proof.
  revert acc. induction lines as [|line lines IH]; intros acc H; simpl in *; [by left|].
  destruct (IH _ H) as [Hacc|(line' & Hin & Hl & Hk)].
  - unfold insert_line in Hacc.
    destruct (Lease_new (split " " line)) as [l0|] eqn:E; [|by left].
    destruct (decide (upper (mac l0) = k)) as [<-|Hne].
    + rewrite lookup_insert_eq in Hacc. injection Hacc as <-. right. exists line. auto.
    + rewrite lookup_insert_ne in Hacc by done. by left.
  - right. exists line'. auto.
Qed.

Lemma fold_insert_line_other lines acc k :
  Forall (fun line => lease_key line <> k) lines ->
  fold_left insert_line lines acc !! k = acc !! k.
Proof.
  intros H. revert acc. induction H as [|line lines Hk _ IH]; intros acc; simpl; [done|].
  rewrite IH. unfold insert_line.
  destruct (Lease_new (split " " line)) as [l|] eqn:E; [|done].
  apply lookup_insert_ne. intros Heq. apply Hk. unfold lease_key.
  by rewrite (Lease_new_Ret _ _ E).
Qed.

Section Scanner.
Context {V : Type} (ubus : UbusClient V).

(** C2, as amended.  When the vendor read of the lease file returns
    [text] and every line of [text] (as [str.splitlines] cuts it) has
    exactly five fields when cut at every single space character,
    [_get_dnsmasq_leases] returns a mapping in which every entry is the
    [Lease] built, fields in order, from some line and is stored under
    the uppercased second field of that line, and in which every line
    that no later line shadows is found under its uppercased second
    field. *)
Theorem get_dnsmasq_leases_single_space lease_file (w : World V) text v' :
  file_read ubus lease_file (router w) = (Ret text, v') ->
  Forall (fun line => length (split " " line) = 5) (splitlines text) ->
  exists leases,
    _get_dnsmasq_leases ubus lease_file w = (Ret leases, mkWorld v' (log w)) /\
    (forall k l, leases !! k = Some l ->
       exists line, In line (splitlines text) /\
         split " " line = [expires l; mac l; ip l; hostname l; client_id l] /\
         k = upper (mac l)) /\
    (forall before line after l,
       splitlines text = before ++ line :: after ->
       split " " line = [expires l; mac l; ip l; hostname l; client_id l] ->
       Forall (fun line' => lease_key line' <> upper (mac l)) after ->
       leases !! upper (mac l) = Some l).
Proof.
  intros Hread Hfive.
  exists (fold_left insert_line (splitlines text) ∅). split; [|split].
  - unfold _get_dnsmasq_leases, with_locals, bind at 1, in_frame, call.
    rewrite Hread. by rewrite dnsmasq_loop_ok.
  - intros k l Hk.
    destruct (fold_insert_line_origin _ _ _ _ Hk) as [He|(line & Hin & Hl & ->)].
    + by rewrite lookup_empty in He.
    + exists line. split; [done|]. split; [|done]. by apply Lease_new_Ret.
  - intros before line after [e m i h c] Hsplit Hl Hafter. simpl in *.
    rewrite Hsplit, fold_left_app. simpl.
    rewrite fold_insert_line_other by done.
    unfold insert_line. rewrite Hl. simpl. apply lookup_insert_eq.
Qed.

(** A line with another number of fields makes the call raise
    [TypeError], which no handler of the module catches. *)
Lemma get_dnsmasq_leases_TypeError lease_file (w : World V) text v' :
  file_read ubus lease_file (router w) = (Ret text, v') ->
  Exists (fun line => length (split " " line) <> 5) (splitlines text) ->
  exists msg,
    _get_dnsmasq_leases ubus lease_file w = (Raise (TypeError msg), mkWorld v' (log w)).
Proof.
  intros Hread Hbad.
  unfold _get_dnsmasq_leases, with_locals, bind at 1, in_frame, call.
  rewrite Hread.
  destruct (dnsmasq_loop_bad (splitlines text) ∅ (mkWorld v' (log w)) Hbad)
    as (msg & acc' & ->).
  by exists msg.
Qed.

(** ** [try ... except UbusException] around a session *)

Lemma try_ubus_caught {L} (body : M (L * World V) unit) fmt (init : L) (w : World V) :
  with_locals init
    (try_except body is_UbusException (fun ex => in_frame (_LOGGER_error fmt)))
    (fun l => l) w =
  match body (init, w) with
  | (Ret _, (l, w')) => (Ret l, w')
  | (Raise e, (l, w')) =>
      if is_UbusException e
      then (Ret l, mkWorld (router w') ((ERROR, fmt) :: log w'))
      else (Raise e, w')
  end.
Proof.
  unfold with_locals, try_except.
  destruct (body (init, w)) as [[a|e] [l w']]; [done|].
  by destruct (is_UbusException e).
Qed.

Lemma try_ubus_not_raised {L} (body : M (L * World V) unit) fmt
      (init : L) (w : World V) msg :
  fst (with_locals init
         (try_except body is_UbusException (fun ex => in_frame (_LOGGER_error fmt)))
         (fun l => l) w) <> Raise (UbusException msg).
Proof.
  rewrite try_ubus_caught.
  destruct (body (init, w)) as [[a|e] [l w']]; [done|].
  destruct (is_UbusException e) eqn:E; simpl; [done|].
  intros [= ->]. discriminate.
Qed.

Lemma with_ubus_enter_fails {L A} (body : M (L * World V) A) (l : L) (w : World V) e v' :
  ubus_enter ubus (router w) = (Raise e, v') ->
  with_ubus ubus body (l, w) = (Raise e, (l, mkWorld v' (log w))).
Proof.
  intros H. unfold with_ubus, bind, in_frame, call. by rewrite H.
Qed.

Variable self : UbusDeviceScanner.

(** C5, on the code.  For a configuration that has the host, the
    username and the password, [__init__] raises [NameError] when it
    evaluates [CONF_LEASEFILE], a name the module does not bind (it
    binds [CONF_LEASE_FILE]); the vendor library has not been called
    by then, and no scanner is built. *)
Theorem scanner_init_raises_NameError `{HostConstants}
        (config : gmap string (option string)) (w : World V) :
  is_Some (config !! CONF_HOST) ->
  is_Some (config !! CONF_USERNAME) ->
  is_Some (config !! CONF_PASSWORD) ->
  __init__ ubus config w = (Raise (NameError "CONF_LEASEFILE"), w) /\
  get_scanner ubus config w = (Raise (NameError "CONF_LEASEFILE"), w).
Proof.
  intros [host Hh] [user Hu] [pass Hp].
  assert (Hinit : __init__ ubus config w = (Raise (NameError "CONF_LEASEFILE"), w)).
  { assert (module_globals !! "CONF_HOST"%string = Some CONF_HOST) as G1
      by reflexivity.
    assert (module_globals !! "CONF_USERNAME"%string = Some CONF_USERNAME) as G2
      by reflexivity.
    assert (module_globals !! "CONF_PASSWORD"%string = Some CONF_PASSWORD) as G3
      by reflexivity.
    assert (module_globals !! "CONF_LEASEFILE"%string = None) as G4
      by reflexivity.
    unfold __init__, bind, load_global, eval, getitem, ret, raise.
    by rewrite G1, Hh, G2, Hu, G3, Hp, G4. }
  split; [done|]. unfold get_scanner, bind. by rewrite Hinit.
Qed.

End Scanner.

End UbusFacts.

(* ===================================================================== *)
(** * Properties of the vacuum entity *)
(* ===================================================================== *)

Module VacuumFacts.
Import Py Miio Vacuum.

(** ** The reverse mapping of the fan-speed presets *)

Lemma fold_reverse_absent (presets : list (string * Z)) (acc : gmap Z string) speed :
  (forall name, (name, speed) ∉ presets) ->
  fold_left (fun acc item => <[item.2 := item.1]> acc) presets acc !! speed = acc !! speed.
Proof.
  revert acc. induction presets as [|[name v] presets IH]; intros acc Habs; simpl; [done|].
  rewrite IH.
  - apply lookup_insert_ne. intros ->. apply (Habs name). simpl. left.
  - intros n Hin. apply (Habs n). by right.
Qed.

Lemma fold_reverse_present (presets : list (string * Z)) (acc : gmap Z string) name speed :
  NoDup presets.*2 ->
  (name, speed) ∈ presets ->
  fold_left (fun acc item => <[item.2 := item.1]> acc) presets acc !! speed = Some name.
Proof.
  revert acc. induction presets as [|[n v] presets IH]; intros acc Hnd Hin; simpl in *.
  - by apply elem_of_nil in Hin.
  - apply NoDup_cons in Hnd as [Hv Hnd].
    apply elem_of_cons in Hin as [[= <- <-]|Hin].
    + rewrite fold_reverse_absent; [apply lookup_insert_eq|].
      intros n' Hn'. apply Hv. apply list_elem_of_fmap. by exists (n', speed).
    + by apply IH.
Qed.

Lemma dict_get_elem_of {K A} `{EqDecision K} (d : list (K * A)) k v :
  dict_get d k = Some v -> (k, v) ∈ d.
Proof.
  induction d as [|[k' v'] d IH]; simpl; [done|].
  destruct (decide (k' = k)) as [->|Hne].
  - intros [= ->]. left.
  - intros H0. right. by apply IH.
Qed.

(** C7.  For an entity as [__init__] builds it from the presets (whatever
    display state it stores): when the preset speeds are pairwise
    distinct, a name of [fan_speed_list] whose preset speed is the speed
    the device reports is what [fan_speed] returns; and when the reported
    speed is the speed of no preset, [fan_speed] returns "Custom". *)
Theorem fan_speed_reverse_lookup (presets : list (string * Z)) (stored : option string)
        (status : VacuumStatus) :
  let self := mkVacuum presets (presets_reverse presets) stored in
  (NoDup presets.*2 ->
   forall name, name ∈ fan_speed_list self ->
     dict_get presets name = Some (fanspeed status) ->
     fan_speed self status = name)
  /\ ((forall name, (name, fanspeed status) ∉ presets) ->
      fan_speed self status = "Custom"%string).
Proof.
  simpl. split.
  - intros Hnd name _ Hget. unfold fan_speed, presets_reverse. simpl.
    by rewrite (fold_reverse_present _ _ name) by eauto using dict_get_elem_of.
  - intros Habs. unfold fan_speed, presets_reverse. simpl.
    by rewrite fold_reverse_absent, lookup_empty.
Qed.

Section Entity.
Context {float Params D : Type} `{HassStates}.
Variable sdk : Device float Params D.
Variable int : string -> Outcome Z.

Local Abbreviation VWorld := (World MiroboVacuum VacuumStatus D (command float Params)).

(** ** Coordinator updates *)

(** What an update does to the world, whatever the reported state. *)
Lemma update_effect (w : VWorld) :
  _handle_coordinator_update w =
    (Ret tt,
     mkWorld
       (mkVacuum (_fan_speed_presets (entity w)) (_fan_speed_presets_reverse (entity w))
          (dict_get VACUUMSTATE_TO_HASS (vacuum_state (data w))))
       (data w) (device w) (log w) (sdk_calls w) (S (state_writes w))).
Proof. reflexivity. Qed.

(** C3, on the code.  When the coordinator data report a state outside
    the six of the table, the update returns, the stored display state
    becomes [None], and the log is what it was: no error is logged,
    because [dict.get] does not raise the [KeyError] that the logging
    handler waits for. *)
Theorem unknown_state_not_logged (w : VWorld) name :
  vacuum_state (data w) = Other name ->
  fst (_handle_coordinator_update w) = Ret tt /\
  _state (entity (snd (_handle_coordinator_update w))) = None /\
  log (snd (_handle_coordinator_update w)) = log w.
Proof.
  intros Hs. rewrite update_effect. simpl. by rewrite Hs.
Qed.

(** C6.  After the update handler has run, the stored display state is
    the host constant that the table gives for the reported state:
    Error, Cleaning, Idle, Docked, Returning and Paused give
    [STATE_ERROR], [STATE_CLEANING], [STATE_IDLE], [STATE_DOCKED],
    [STATE_RETURNING] and [STATE_PAUSED]. *)
Theorem known_states_table (w : VWorld) :
  let stored := _state (entity (snd (_handle_coordinator_update w))) in
  (vacuum_state (data w) = Error -> stored = Some STATE_ERROR) /\
  (vacuum_state (data w) = Cleaning -> stored = Some STATE_CLEANING) /\
  (vacuum_state (data w) = Idle -> stored = Some STATE_IDLE) /\
  (vacuum_state (data w) = Docked -> stored = Some STATE_DOCKED) /\
  (vacuum_state (data w) = Returning -> stored = Some STATE_RETURNING) /\
  (vacuum_state (data w) = Paused -> stored = Some STATE_PAUSED).
Proof.
  rewrite update_effect. simpl. repeat split; intros ->; reflexivity.
Qed.

(** C9.  The [state] property is [STATE_ERROR] whenever the coordinator
    data report Error, whatever display state is stored, and is the
    stored display state otherwise. *)
Theorem state_error_overrides (self : MiroboVacuum) (status : VacuumStatus) :
  (vacuum_state status = Error -> state self status = Some STATE_ERROR) /\
  (vacuum_state status <> Error -> state self status = _state self).
Proof.
  unfold state. split; intros Hs; by destruct (decide (vacuum_state status = Error)).
Qed.

(** ** Commands *)

(** The refresh after a successful command leaves the record of SDK
    calls and the log alone. *)
Lemma refresh_effect (w : VWorld) :
  exists e c n, async_refresh sdk w =
    (Ret tt, mkWorld e c (snd (poll sdk (device w))) (log w) (sdk_calls w) n).
Proof.
  unfold async_refresh. destruct (poll sdk (device w)) as [polled d].
  rewrite update_effect. simpl. eauto.
Qed.

(** How [_try_command] ends, by how the SDK call ends. *)
Lemma try_command_cases mask func (w : VWorld) :
  match run sdk func (device w) with
  | (Ret _, d) =>
      exists e c d' n, _try_command sdk mask func w =
        (Ret true, mkWorld e c d' (log w) ((func, Ret tt) :: sdk_calls w) n)
  | (Raise ex, d) =>
      _try_command sdk mask func w =
        if is_DeviceException ex
        then (Ret false,
              mkWorld (entity w) (data w) d ((ERROR, mask) :: log w)
                      ((func, Raise ex) :: sdk_calls w) (state_writes w))
        else (Raise ex,
              mkWorld (entity w) (data w) d (log w)
                      ((func, Raise ex) :: sdk_calls w) (state_writes w))
  end.
Proof.
  unfold _try_command, try_except, bind, async_add_executor_job. cbv beta.
  destruct (run sdk func (device w)) as [[[]|ex] d].
  - destruct (refresh_effect
                (mkWorld (entity w) (data w) d (log w) ((func, Ret tt) :: sdk_calls w)
                         (state_writes w))) as (e & c & n & ->).
    simpl. eauto 10.
  - by destruct (is_DeviceException ex).
Qed.

Lemma via_try_command_failure mask func (w : VWorld) c msg :
  let r := bind (_try_command sdk mask func) (fun _ => ret tt) w in
  sdk_calls (snd r) = (c, Raise (DeviceException msg)) :: sdk_calls w ->
  fst r = Ret tt /\ unchanged_but_logged w (snd r).
Proof.
  pose proof (try_command_cases mask func w) as Hc.
  unfold bind.
  destruct (run sdk func (device w)) as [[[]|ex] d].
  - destruct Hc as (e & c' & d' & n & ->). simpl. intros [=].
  - rewrite Hc. destruct ex; simpl; intros [= <- <-]; simpl.
    unfold unchanged_but_logged. simpl. repeat split; try done.
    by exists mask, [].
Qed.

Lemma set_fan_speed_cases fan_speed (w : VWorld) :
  async_set_fan_speed sdk int fan_speed w =
    match dict_get (_fan_speed_presets (entity w)) fan_speed with
    | Some speed =>
        bind (_try_command sdk "Unable to set fan speed: %s" (set_fan_speed speed))
             (fun _ => ret tt) w
    | None =>
        match int fan_speed with
        | Ret n =>
            bind (_try_command sdk "Unable to set fan speed: %s" (set_fan_speed n))
                 (fun _ => ret tt) w
        | Raise ex =>
            if is_ValueError ex
            then (Ret tt,
                  mkWorld (entity w) (data w) (device w)
                    ((ERROR, "Fan speed step not recognized (%s). Valid speeds are: %s"%string)
                       :: log w)
                    (sdk_calls w) (state_writes w))
            else (Raise ex, w)
        end
    end.
Proof.
  unfold async_set_fan_speed.
  unfold bind at 1. unfold gets at 1. cbv beta iota.
  destruct (dict_get (_fan_speed_presets (entity w)) fan_speed) as [speed|]; [done|].
  unfold bind at 1, try_except, bind at 1, eval.
  destruct (int fan_speed) as [n|ex]; [done|].
  by destruct (is_ValueError ex).
Qed.

(** C10.  [async_set_fan_speed]: when the argument is no preset name and
    [int] raises [ValueError] on it, the handler returns having only
    logged an error (the entity, the coordinator data, the device and
    the record of SDK calls are unchanged); when the argument is a
    preset name, the SDK call issued is [set_fan_speed] with the speed
    of that preset; when it is no preset name and [int] gives [n], the
    SDK call issued is [set_fan_speed n]. *)
Theorem set_fan_speed_argument fan_speed (w : VWorld) :
  let w' := snd (async_set_fan_speed sdk int fan_speed w) in
  (forall msg,
      dict_get (_fan_speed_presets (entity w)) fan_speed = None ->
      int fan_speed = Raise (ValueError msg) ->
      async_set_fan_speed sdk int fan_speed w =
        (Ret tt,
         mkWorld (entity w) (data w) (device w)
           ((ERROR, "Fan speed step not recognized (%s). Valid speeds are: %s"%string)
              :: log w)
           (sdk_calls w) (state_writes w)))
  /\ (forall speed,
      dict_get (_fan_speed_presets (entity w)) fan_speed = Some speed ->
      sdk_calls w' =
        (set_fan_speed speed, fst (run sdk (set_fan_speed speed) (device w)))
          :: sdk_calls w)
  /\ (forall n,
      dict_get (_fan_speed_presets (entity w)) fan_speed = None ->
      int fan_speed = Ret n ->
      sdk_calls w' =
        (set_fan_speed n, fst (run sdk (set_fan_speed n) (device w))) :: sdk_calls w).
Proof.
  assert (Hissued : forall speed,
    sdk_calls (snd (bind (_try_command sdk "Unable to set fan speed: %s"
                            (set_fan_speed speed)) (fun _ => ret tt) w)) =
    (set_fan_speed speed, fst (run sdk (set_fan_speed speed) (device w))) :: sdk_calls w).
  { intros speed.
    pose proof (try_command_cases "Unable to set fan speed: %s" (set_fan_speed speed) w)
      as Hc.
    unfold bind.
    destruct (run sdk (set_fan_speed speed) (device w)) as [[[]|ex] d].
    - by destruct Hc as (e & c' & d' & n & ->).
    - rewrite Hc. by destruct (is_DeviceException ex). }
  simpl. rewrite set_fan_speed_cases. repeat split.
  - intros msg -> ->. reflexivity.
  - intros speed ->. apply Hissued.
  - intros n -> ->. apply Hissued.
Qed.

Lemma clean_zone_failure zone repeats (w : VWorld) c msg :
  let r := async_clean_zone sdk zone repeats w in
  sdk_calls (snd r) = (c, Raise (DeviceException msg)) :: sdk_calls w ->
  fst r = Ret tt /\ unchanged_but_logged w (snd r).
Proof.
  unfold async_clean_zone, try_except, bind, _LOGGER_debug, _LOGGER_error,
    _LOGGER_log, modify, async_add_executor_job.
  cbv beta iota. simpl.
  destruct (run sdk _ (device w)) as [[[]|ex] d].
  - match goal with |- context [async_refresh sdk ?w1] =>
      destruct (refresh_effect w1) as (e & c' & n & ->) end.
    simpl. intros [=].
  - destruct ex; simpl; intros [= <- <-]; simpl.
    unfold unchanged_but_logged. simpl. repeat split; try done.
    eexists _, (cons _ nil). reflexivity.
Qed.

(** Every handler of the vacuum: a call that raised the device
    exception leaves no trace but the logged error. *)
Lemma vacuum_command_failure svc (w : VWorld) c msg :
  let r := handler sdk int svc w in
  sdk_calls (snd r) = (c, Raise (DeviceException msg)) :: sdk_calls w ->
  fst r = Ret tt /\ unchanged_but_logged w (snd r).
Proof.
  destruct svc as [| | |fs| | | |? ?| | |? ? ?|? ? ?|? ?|?|? ?];
    try apply via_try_command_failure.
  - simpl. rewrite set_fan_speed_cases.
    destruct (dict_get _ fs); [apply via_try_command_failure|].
    destruct (int fs) as [n|ex]; [apply via_try_command_failure|].
    destruct (is_ValueError ex); simpl; intros Hl;
      apply (f_equal length) in Hl; simpl in Hl; lia.
  - apply clean_zone_failure.
Qed.

End Entity.

End VacuumFacts.

(* ===================================================================== *)
(** * Properties of the switch entity *)
(* ===================================================================== *)

Module SwitchFacts.
Import Py Miio Switch.

Section Entity.
Context {C D : Type}.
Variable _setter : bool -> M D unit.

Local Abbreviation SWorld := (World XiaomiSwitch C D bool).

Lemma turn_cases mask (arg : bool) (w : SWorld) :
  bind (_try_command mask _setter arg)
       (fun ok : bool =>
          if ok then bind (set__attr_is_on (Some arg)) (fun _ => async_write_ha_state)
          else ret tt) w =
  match _setter arg (device w) with
  | (Ret _, d) =>
      (Ret tt,
       mkWorld (mkSwitch (_name (entity w)) (_property (entity w)) (key (entity w))
                         (Some arg))
               (data w) d (log w) ((arg, Ret tt) :: sdk_calls w) (S (state_writes w)))
  | (Raise ex, d) =>
      if is_DeviceException ex
      then (Ret tt,
            mkWorld (entity w) (data w) d ((ERROR, mask) :: log w)
                    ((arg, Raise ex) :: sdk_calls w) (state_writes w))
      else (Raise ex,
            mkWorld (entity w) (data w) d (log w)
                    ((arg, Raise ex) :: sdk_calls w) (state_writes w))
  end.
Proof.
  unfold _try_command, try_except, bind, async_add_executor_job. cbv beta.
  destruct (_setter arg (device w)) as [[[]|ex] d]; [done|].
  by destruct (is_DeviceException ex).
Qed.

(** Turning the switch on or off: a call that raised the device
    exception leaves no trace but the logged error. *)
Lemma switch_command_failure (on : bool) (w : SWorld) c msg :
  let r := (if on then async_turn_on _setter else async_turn_off _setter) w in
  sdk_calls (snd r) = (c, Raise (DeviceException msg)) :: sdk_calls w ->
  fst r = Ret tt /\ unchanged_but_logged w (snd r).
Proof.
  assert (Hgen : forall mask arg,
    let r := bind (_try_command mask _setter arg)
       (fun ok : bool =>
          if ok then bind (set__attr_is_on (Some arg)) (fun _ => async_write_ha_state)
          else ret tt) w in
    sdk_calls (snd r) = (c, Raise (DeviceException msg)) :: sdk_calls w ->
    fst r = Ret tt /\ unchanged_but_logged w (snd r)).
  { intros mask arg. simpl. rewrite turn_cases.
    destruct (_setter arg (device w)) as [[[]|ex] d]; simpl; [intros [=]|].
    destruct ex; simpl; intros [= <- <-]; simpl.
    unfold unchanged_but_logged. simpl. repeat split; try done.
    by exists mask, []. }
  destruct on; apply Hgen.
Qed.

End Entity.

End SwitchFacts.

(* ===================================================================== *)
(** * Failing commands, for both entities *)
(* ===================================================================== *)

Module CommandFacts.
Import Py Miio.

Section Entities.
Context {float Params D : Type} `{Vacuum.HassStates}.
Variable sdk : Vacuum.Device float Params D.
Variable int : string -> Outcome Z.
Context {C' D' : Type}.
Variable _setter : bool -> M D' unit.


End Entities.

End CommandFacts.

(* ===================================================================== *)
(** * The properties on the concrete scenario *)
(* ===================================================================== *)

Module UbusCases.
Import Py Ubus.


(** The two-lease file of the scenario, read through the router. *)
Lemma get_dnsmasq_leases_single_space_witness :
  file_read Scenario.router "/tmp/dhcp.leases" (router Scenario.quiet)
    = (Ret Scenario.lease_text, tt) /\
  Forall (fun line => length (split " " line) = 5) (splitlines Scenario.lease_text) /\
  exists leases,
    _get_dnsmasq_leases Scenario.router "/tmp/dhcp.leases" Scenario.quiet
      = (Ret leases, mkWorld tt (log Scenario.quiet)) /\
    (forall k l, leases !! k = Some l ->
       exists line, In line (splitlines Scenario.lease_text) /\
         split " " line = [expires l; mac l; ip l; hostname l; client_id l] /\
         k = upper (mac l)) /\
    (forall before line after l,
       splitlines Scenario.lease_text = before ++ line :: after ->
       split " " line = [expires l; mac l; ip l; hostname l; client_id l] ->
       Forall (fun line' => lease_key line' <> upper (mac l)) after ->
       leases !! upper (mac l) = Some l).
Proof.
  assert (H1 : file_read Scenario.router "/tmp/dhcp.leases" (router Scenario.quiet)
               = (Ret Scenario.lease_text, tt)) by reflexivity.
  assert (H2 : Forall (fun line => length (split " " line) = 5)
                      (splitlines Scenario.lease_text))
    by (vm_compute; repeat constructor).
  split; [exact H1|]. split; [exact H2|].
  exact (UbusFacts.get_dnsmasq_leases_single_space Scenario.router _ _ _ _ H1 H2).
Defined.

(** C2 as stated fails: on a line with two spaces between two fields,
    whitespace splitting gives the five fields of a lease and a mapping
    keyed by the uppercased second field, whereas the code cuts the line
    into six fields and raises [TypeError]. *)
Lemma whitespace_fields_counterexample :
  spec_dnsmasq_leases Scenario.padded_text
    = Ret (<["AA:BB:CC:DD:EE:FF" :=
               mkLease "1700000000" "aa:bb:cc:dd:ee:ff" "192.168.1.2" "laptop" "*"]> ∅) /\
  _get_dnsmasq_leases Scenario.router "/tmp/padded.leases" Scenario.quiet
    = (Raise (TypeError "__init__() takes 6 positional arguments"), Scenario.quiet) /\
  fst (_get_dnsmasq_leases Scenario.router "/tmp/padded.leases" Scenario.quiet)
    <> spec_dnsmasq_leases Scenario.padded_text.
Proof.
  split; [vm_compute; reflexivity|]. split; [vm_compute; reflexivity|].
  vm_compute. discriminate.
Qed.

(** C4 as stated fails: the second radio and the second lease file raise
    the vendor exception, and both methods return what the first radio
    and the first lease file had given, not an empty dict. *)
Lemma partial_result_counterexample :
  iwinfo_assoclist Scenario.router "wlan1" tt
    = (Raise (UbusException "Request timed out"), tt) /\
  _get_connected_devices Scenario.router Scenario.scanner Scenario.quiet
    = (Ret (<["AA:BB:CC:DD:EE:FF" := Scenario.station]> ∅),
       mkWorld tt [(ERROR, "Unable to read connected devices: %s")]) /\
  fst (_get_connected_devices Scenario.router Scenario.scanner Scenario.quiet) <> Ret ∅ /\
  file_read Scenario.router "/tmp/guest.leases" tt
    = (Raise (UbusException "Not found"), tt) /\
  _get_leases Scenario.router Scenario.scanner Scenario.quiet
    = (Ret Scenario.known_leases,
       mkWorld tt [(ERROR, "Unable to read leases from ubus: %s")]) /\
  fst (_get_leases Scenario.router Scenario.scanner Scenario.quiet) <> Ret ∅.
Proof.
  repeat split; try (vm_compute; reflexivity).
  - vm_compute. discriminate.
  - vm_compute. discriminate.
Qed.

(** Constructing the scanner from a complete configuration. *)
Lemma scanner_init_raises_NameError_witness :
  is_Some (Scenario.config !! @CONF_HOST Scenario.host_constants) /\
  is_Some (Scenario.config !! @CONF_USERNAME Scenario.host_constants) /\
  is_Some (Scenario.config !! @CONF_PASSWORD Scenario.host_constants) /\
  __init__ Scenario.router (H := Scenario.host_constants) Scenario.config Scenario.quiet
    = (Raise (NameError "CONF_LEASEFILE"), Scenario.quiet) /\
  get_scanner Scenario.router (H := Scenario.host_constants) Scenario.config Scenario.quiet
    = (Raise (NameError "CONF_LEASEFILE"), Scenario.quiet).
Proof.
  assert (H1 : is_Some (Scenario.config !! @CONF_HOST Scenario.host_constants))
    by (eexists; reflexivity).
  assert (H2 : is_Some (Scenario.config !! @CONF_USERNAME Scenario.host_constants))
    by (eexists; reflexivity).
  assert (H3 : is_Some (Scenario.config !! @CONF_PASSWORD Scenario.host_constants))
    by (eexists; reflexivity).
  split; [exact H1|]. split; [exact H2|]. split; [exact H3|].
  exact (UbusFacts.scanner_init_raises_NameError Scenario.router
           (H := Scenario.host_constants) Scenario.config Scenario.quiet H1 H2 H3).
Defined.
End UbusCases.

Module VacuumCases.
Import Py Miio Vacuum.

(** The robot reports a state the table does not have. *)
Lemma unknown_state_not_logged_witness :
  let w := Scenario.vacuum_world (Other "Unknown") in
  vacuum_state (data w) = Other "Unknown" /\
  fst (_handle_coordinator_update (H := Scenario.hass_states) w) = Ret tt /\
  _state (entity (snd (_handle_coordinator_update (H := Scenario.hass_states) w))) = None /\
  log (snd (_handle_coordinator_update (H := Scenario.hass_states) w)) = log w.
Proof.
  split; [reflexivity|].
  exact (VacuumFacts.unknown_state_not_logged (H := Scenario.hass_states)
           (Scenario.vacuum_world (Other "Unknown")) "Unknown" eq_refl).
Defined.

(** The six states of the table, with the usual host constants. *)
Lemma known_states_table_witness :
  let stored vs :=
    _state (entity (snd (_handle_coordinator_update (H := Scenario.hass_states)
                           (Scenario.vacuum_world vs)))) in
  stored Error = Some "error"%string /\
  stored Cleaning = Some "cleaning"%string /\
  stored Idle = Some "idle"%string /\
  stored Docked = Some "docked"%string /\
  stored Returning = Some "returning"%string /\
  stored Paused = Some "paused"%string.
Proof.
  pose (T := fun vs => VacuumFacts.known_states_table (H := Scenario.hass_states)
                         (Scenario.vacuum_world vs)).
  simpl. repeat apply conj.
  - exact (proj1 (T Error) eq_refl).
  - exact (proj1 (proj2 (T Cleaning)) eq_refl).
  - exact (proj1 (proj2 (proj2 (T Idle))) eq_refl).
  - exact (proj1 (proj2 (proj2 (proj2 (T Docked)))) eq_refl).
  - exact (proj1 (proj2 (proj2 (proj2 (proj2 (T Returning))))) eq_refl).
  - exact (proj2 (proj2 (proj2 (proj2 (proj2 (T Paused))))) eq_refl).
Defined.

(** A stored idle state, with the device reporting Error and Docked. *)
Lemma state_error_overrides_witness :
  let self := mkVacuum Scenario.presets (presets_reverse Scenario.presets)
                       (Some "idle"%string) in
  (vacuum_state (Scenario.status Error) = Error /\
   state (H := Scenario.hass_states) self (Scenario.status Error) = Some "error"%string) /\
  (vacuum_state (Scenario.status Docked) <> Error /\
   state (H := Scenario.hass_states) self (Scenario.status Docked) = Some "idle"%string).
Proof.
  simpl. split.
  - split; [reflexivity|].
    exact (proj1 (VacuumFacts.state_error_overrides (H := Scenario.hass_states) _
                    (Scenario.status Error)) eq_refl).
  - assert (Hne : vacuum_state (Scenario.status Docked) <> Error) by discriminate.
    split; [exact Hne|].
    exact (proj2 (VacuumFacts.state_error_overrides (H := Scenario.hass_states)
                    (mkVacuum Scenario.presets (presets_reverse Scenario.presets)
                              (Some "idle"%string))
                    (Scenario.status Docked)) Hne).
Defined.

(** The speed of a preset, and a speed of no preset. *)
Lemma fan_speed_reverse_lookup_witness :
  let self := Vacuum.__init__ Scenario.presets in
  (NoDup Scenario.presets.*2 /\
   "Standard"%string ∈ fan_speed_list self /\
   dict_get Scenario.presets "Standard"%string = Some (fanspeed (Scenario.status Docked)) /\
   fan_speed self (Scenario.status Docked) = "Standard"%string) /\
  ((forall name, (name, fanspeed (mkStatus Docked 101 100 "Charging")) ∉ Scenario.presets) /\
   fan_speed self (mkStatus Docked 101 100 "Charging") = "Custom"%string).
Proof.
  assert (H1 : NoDup Scenario.presets.*2) by (apply (bool_decide_unpack _); vm_compute; exact I).
  assert (H2 : "Standard"%string ∈ fan_speed_list (Vacuum.__init__ Scenario.presets))
    by (apply (bool_decide_unpack _); vm_compute; exact I).
  assert (H3 : dict_get Scenario.presets "Standard"%string
               = Some (fanspeed (Scenario.status Docked))) by reflexivity.
  assert (H4 : forall name,
             (name, fanspeed (mkStatus Docked 101 100 "Charging")) ∉ Scenario.presets).
  { intros name Hin. simpl in Hin.
    repeat (apply elem_of_cons in Hin as [Hin|Hin]; [discriminate|]).
    by apply elem_of_nil in Hin. }
  simpl. split.
  - split; [exact H1|]. split; [exact H2|]. split; [exact H3|].
    exact (proj1 (VacuumFacts.fan_speed_reverse_lookup Scenario.presets None
                    (Scenario.status Docked)) H1 _ H2 H3).
  - split; [exact H4|].
    exact (proj2 (VacuumFacts.fan_speed_reverse_lookup Scenario.presets None
                    (mkStatus Docked 101 100 "Charging")) H4).
Defined.

(** No preset and no number, a preset name, and a number. *)
Lemma set_fan_speed_argument_witness :
  let w := Scenario.vacuum_world Docked in
  let set fs := async_set_fan_speed (H := Scenario.hass_states) Scenario.robot int_of_str fs w in
  (dict_get (_fan_speed_presets (entity w)) "Warp"%string = None /\
   int_of_str "Warp" = Raise (ValueError "invalid literal for int() with base 10") /\
   set "Warp"%string =
     (Ret tt,
      mkWorld (entity w) (data w) (device w)
        ((ERROR, "Fan speed step not recognized (%s). Valid speeds are: %s"%string) :: log w)
        (sdk_calls w) (state_writes w))) /\
  (dict_get (_fan_speed_presets (entity w)) "Turbo"%string = Some 90%Z /\
   sdk_calls (snd (set "Turbo"%string)) =
     (set_fan_speed 90, fst (run Scenario.robot (set_fan_speed 90) (device w)))
       :: sdk_calls w) /\
  (dict_get (_fan_speed_presets (entity w)) "75"%string = None /\
   int_of_str "75" = Ret 75%Z /\
   sdk_calls (snd (set "75"%string)) =
     (set_fan_speed 75, fst (run Scenario.robot (set_fan_speed 75) (device w)))
       :: sdk_calls w).
Proof.
  pose (T := fun fs => VacuumFacts.set_fan_speed_argument (H := Scenario.hass_states)
                         Scenario.robot int_of_str fs (Scenario.vacuum_world Docked)).
  simpl. split; [|split].
  - split; [reflexivity|]. split; [reflexivity|].
    exact (proj1 (T "Warp"%string) _ eq_refl eq_refl).
  - split; [reflexivity|].
    exact (proj1 (proj2 (T "Turbo"%string)) _ eq_refl).
  - split; [reflexivity|]. split; [reflexivity|].
    exact (proj2 (proj2 (T "75"%string)) _ eq_refl eq_refl).
Defined.
End VacuumCases.

Module CommandCases.
Import Py Miio.

End CommandCases.


(* ===================================================================== *)
(** * Rules for statements over local variables *)
(* ===================================================================== *)

Module FrameRules.
Import Py Invariants.

Section Rules.
Context {L S : Type} (P : L -> Prop).

Lemma preserves_ret {A} (Q : A -> Prop) (a : A) :
  Q a -> preserves (S := S) P Q (ret a).
Proof. intros Ha l s Hl. by split. Qed.

Lemma preserves_raise {A} (Q : A -> Prop) e :
  preserves (S := S) P Q (raise e).
Proof. by intros l s Hl. Qed.

Lemma preserves_eval {A} (Q : A -> Prop) (o : Outcome A) :
  (forall a, o = Ret a -> Q a) -> preserves (S := S) P Q (eval o).
Proof. intros Ho l s Hl. unfold eval. destruct o; [split; auto|done]. Qed.

Lemma preserves_in_frame {A} (Q : A -> Prop) (m : M S A) :
  (forall s a s', m s = (Ret a, s') -> Q a) -> preserves P Q (in_frame (L := L) m).
Proof.
  intros Hm l s Hl. unfold in_frame.
  destruct (m s) as [[a|e] s'] eqn:E; [split; eauto|done].
Qed.

Lemma preserves_set_local (f : L -> L) :
  (forall l, P l -> P (f l)) -> preserves (S := S) P (fun _ => True) (set_local f).
Proof. intros Hf l s Hl. simpl. auto. Qed.

Lemma preserves_bind {A B} (Q : A -> Prop) (R : B -> Prop)
      (m : M (L * S) A) (k : A -> M (L * S) B) :
  preserves P Q m -> (forall a, Q a -> preserves P R (k a)) -> preserves P R (bind m k).
Proof.
  intros Hm Hk l s Hl. unfold bind. specialize (Hm l s Hl).
  destruct (m (l, s)) as [[a|e] [l' s']]; [|done].
  destruct Hm as [Hl' Ha]. by apply Hk.
Qed.

Lemma preserves_weaken {A} (Q Q' : A -> Prop) (m : M (L * S) A) :
  (forall a, Q a -> Q' a) -> preserves P Q m -> preserves P Q' m.
Proof.
  intros HQ Hm l s Hl. specialize (Hm l s Hl).
  destruct (m (l, s)) as [[a|e] [l' s']]; [|done]. destruct Hm. auto.
Qed.

Lemma preserves_for_each {A} (xs : list A) (body : A -> M (L * S) unit) :
  (forall x, In x xs -> preserves P (fun _ => True) (body x)) ->
  preserves P (fun _ => True) (for_each xs body).
Proof.
  induction xs as [|x xs IH]; intros Hb; simpl.
  - by apply preserves_ret.
  - apply (preserves_bind (fun _ => True)).
    + apply Hb. by left.
    + intros _ _. apply IH. intros y Hy. apply Hb. by right.
Qed.

Lemma preserves_try_except {A} (Q : A -> Prop) (body : M (L * S) A) catches handler :
  preserves P Q body -> (forall e, preserves P Q (handler e)) ->
  preserves P Q (try_except body catches handler).
Proof.
  intros Hb Hh l s Hl. unfold try_except. specialize (Hb l s Hl).
  destruct (body (l, s)) as [[a|e] [l' s']]; [done|].
  destruct (catches e); [by apply Hh|done].
Qed.

(** What [with_locals] returns satisfies what the body preserved. *)
Lemma with_locals_preserved {A B} (Q : A -> Prop) (init : L) (body : M (L * S) A)
      (finish : L -> B) (s : S) b s' :
  P init -> preserves P Q body ->
  with_locals init body finish s = (Ret b, s') ->
  exists l, P l /\ b = finish l.
Proof.
  intros Hi Hb. unfold with_locals. specialize (Hb init s Hi).
  destruct (body (init, s)) as [[a|e] [l s1]]; [|done].
  intros [= <- <-]. exists l. by destruct Hb.
Qed.

End Rules.

Section Session.
Context {V L : Type} (ubus : Ubus.UbusClient V) (P : L -> Prop).

Lemma preserves_with_ubus {A} (Q : A -> Prop) (body : M (L * Ubus.World V) A) :
  preserves P Q body -> preserves P Q (Ubus.with_ubus ubus body).
Proof.
  intros Hb l s Hl. unfold Ubus.with_ubus, bind, in_frame, Ubus.call.
  destruct (Ubus.ubus_enter ubus (Ubus.router s)) as [[[]|e] v1]; [|done].
  specialize (Hb l (Ubus.mkWorld v1 (Ubus.log s)) Hl).
  destruct (body (l, Ubus.mkWorld v1 (Ubus.log s))) as [r [l' s']].
  destruct (Ubus.ubus_exit ubus (Ubus.router s')) as [[[]|e] v2]; simpl.
  - done.
  - by destruct r as [a|e']; [destruct Hb|].
Qed.

End Session.

End FrameRules.

(* ===================================================================== *)
(** * Further properties of the ubus device scanner *)
(* ===================================================================== *)

Module ScannerFacts.
Import Py Ubus Invariants FrameRules.

(** ** One call into the router *)

Section Scanner.
Context {V : Type} (ubus : UbusClient V).

(** X1.  [_get_network_interfaces] returns all or nothing.  It never
    raises [UbusException]; when the session is entered, the interfaces are
    read and the session is left, it returns the list the router gave; when
    [UbusException] is raised on entering the session, by the read, or on
    leaving the session after a read that succeeded, it logs one error and
    returns the empty list. *)
Theorem network_interfaces_all_or_nothing (w : World V) :
  let fmt := "Unable to read network interfaces from ubus,check your configuration: %s"%string in
  (forall msg, fst (_get_network_interfaces ubus w) <> Raise (UbusException msg))
  /\ (forall msg v1,
      ubus_enter ubus (router w) = (Raise (UbusException msg), v1) ->
      _get_network_interfaces ubus w = (Ret [], mkWorld v1 ((ERROR, fmt) :: log w)))
  /\ (forall v1 devices v2 v3,
      ubus_enter ubus (router w) = (Ret tt, v1) ->
      iwinfo_devices ubus v1 = (Ret devices, v2) ->
      ubus_exit ubus v2 = (Ret tt, v3) ->
      _get_network_interfaces ubus w = (Ret devices, mkWorld v3 (log w)))
  /\ (forall v1 devices v2 msg v3,
      ubus_enter ubus (router w) = (Ret tt, v1) ->
      iwinfo_devices ubus v1 = (Ret devices, v2) ->
      ubus_exit ubus v2 = (Raise (UbusException msg), v3) ->
      _get_network_interfaces ubus w = (Ret [], mkWorld v3 ((ERROR, fmt) :: log w)))
  /\ (forall v1 msg v2 v3,
      ubus_enter ubus (router w) = (Ret tt, v1) ->
      iwinfo_devices ubus v1 = (Raise (UbusException msg), v2) ->
      ubus_exit ubus v2 = (Ret tt, v3) ->
      _get_network_interfaces ubus w = (Ret [], mkWorld v3 ((ERROR, fmt) :: log w))).
Proof.
  simpl. repeat apply conj.
  - intros msg. unfold _get_network_interfaces, bind at 1, without_locals, try_except.
    destruct (with_ubus ubus _ (tt, w)) as [[[d|]|e] [[] w1]]; simpl; try done.
    destruct (is_UbusException e) eqn:E; simpl; [done|].
    intros [= ->]. discriminate.
  - intros msg v1 He.
    unfold _get_network_interfaces, bind at 1, without_locals, try_except,
      with_ubus, bind at 1, in_frame, call.
    by rewrite He.
  - intros v1 devices v2 v3 He Hd Hx.
    unfold _get_network_interfaces, bind at 1, without_locals, try_except,
      with_ubus, bind, in_frame, call. simpl.
    rewrite He. simpl. rewrite Hd. simpl. by rewrite Hx.
  - intros v1 devices v2 msg v3 He Hd Hx.
    unfold _get_network_interfaces, bind at 1, without_locals, try_except,
      with_ubus, bind, in_frame, call. simpl.
    rewrite He. simpl. rewrite Hd. simpl. by rewrite Hx.
  - intros v1 msg v2 v3 He Hd Hx.
    unfold _get_network_interfaces, bind at 1, without_locals, try_except,
      with_ubus, bind, in_frame, call. simpl.
    rewrite He. simpl. rewrite Hd. simpl. by rewrite Hx.
Qed.

Lemma comprehension_getitem_ok (sections : list (gmap string string)) key files :
  Forall2 (fun sec f => sec !! key = Some f) sections files ->
  comprehension (fun x => getitem x key) sections = Ret files.
Proof.
  induction 1 as [|sec f sections files Hs _ IH]; simpl; [done|].
  unfold getitem at 1. by rewrite Hs, IH.
Qed.

Lemma comprehension_getitem_missing (sections : list (gmap string string)) key :
  Exists (fun sec => sec !! key = None) sections ->
  comprehension (fun x => getitem x key) sections = Raise (KeyError key).
Proof.
  induction 1 as [sec sections Hs|sec sections _ IH]; simpl.
  - unfold getitem. by rewrite Hs.
  - unfold getitem at 1. destruct (sec !! key); [by rewrite IH|done].
Qed.

(** X3.  [_get_lease_files], when the router returns the dnsmasq
    sections: it returns the [leasefile] of every section, in order, when
    every section has one, and raises [KeyError] for [leasefile] when some
    section has none; nothing is logged. *)
Theorem lease_files_from_sections (w : World V) sections v1 :
  uci_get ubus "dhcp" "dnsmasq" (router w) = (Ret sections, v1) ->
  (forall files,
      Forall2 (fun sec f => sec !! "leasefile"%string = Some f) sections files ->
      _get_lease_files ubus w = (Ret files, mkWorld v1 (log w)))
  /\ (Exists (fun sec => sec !! "leasefile"%string = None) sections ->
      _get_lease_files ubus w = (Raise (KeyError "leasefile"), mkWorld v1 (log w))).
Proof.
  intros Hu. split.
  - intros files Hf. unfold _get_lease_files, bind, call, eval. rewrite Hu.
    by rewrite (comprehension_getitem_ok _ _ _ Hf).
  - intros Hm. unfold _get_lease_files, bind, call, eval. rewrite Hu.
    by rewrite (comprehension_getitem_missing _ _ Hm).
Qed.

End Scanner.

(** ** odhcpd *)

Section Odhcpd.
Context {V : Type}.
Implicit Types w : World V.

Lemma only_warned_refl w : only_warned w w.
Proof. split; [done|]. by exists []. Qed.

Lemma only_warned_trans w1 w2 w3 :
  only_warned w1 w2 -> only_warned w2 w3 -> only_warned w1 w3.
Proof.
  intros [Hr1 (n1 & Hl1 & Hf1)] [Hr2 (n2 & Hl2 & Hf2)]. split; [congruence|].
  exists (n2 ++ n1). rewrite Hl2, Hl1, app_assoc. split; [done|].
  by apply Forall_app.
Qed.

Lemma only_warned_warning w fmt :
  only_warned w (mkWorld (router w) ((WARNING, fmt) :: log w)).
Proof. split; [done|]. exists [(WARNING, fmt)]. split; [done|]. by constructor. Qed.

Lemma warning_loop {A L} (xs : list A) fmt (l : L) w :
  exists w', for_each xs (fun _ => in_frame (_LOGGER_warning fmt)) (l, w) = (Ret tt, (l, w'))
             /\ only_warned w w'.
Proof.
  revert w. induction xs as [|x xs IH]; intros w; simpl.
  - exists w. split; [done|apply only_warned_refl].
  - unfold bind at 1. simpl.
    destruct (IH (mkWorld (router w) ((WARNING, fmt) :: log w))) as (w' & -> & Hw).
    exists w'. split; [done|].
    eapply only_warned_trans; [apply only_warned_warning|done].
Qed.

Lemma vlists_loop {L} (vlists : list (list string)) (l : L) w :
  exists w',
    for_each vlists (fun vlist =>
      for_each vlist (fun _ => in_frame (_LOGGER_warning "odhcpd lease: %s"))) (l, w)
    = (Ret tt, (l, w')) /\ only_warned w w'.
Proof.
  revert w. induction vlists as [|vlist vlists IH]; intros w; simpl.
  - exists w. split; [done|apply only_warned_refl].
  - unfold bind at 1.
    destruct (warning_loop vlist "odhcpd lease: %s" l w) as (w1 & -> & H1).
    destruct (IH w1) as (w2 & -> & H2).
    exists w2. split; [done|]. by eapply only_warned_trans.
Qed.

Lemma last_bound_cons item items before :
  last_bound (item :: items) before = last_bound items (OdhcpdList <$> item.2).
Proof.
  unfold last_bound. destruct item as [iface leases]. simpl.
  destruct items as [|i2 items]; [done|]. rewrite last_cons_cons.
  destruct (last (i2 :: items)) as [[? ?]|] eqn:E; [done|]. by apply last_None in E.
Qed.

Lemma items_loop (dev : list (string * gmap string (list string))) l w :
  exists w',
    for_each dev rebind_and_log (l, w) = (Ret tt, (last_bound dev l, w'))
    /\ only_warned w w'.
Proof.
  revert l w. induction dev as [|[iface leases] dev IH]; intros l w.
  - exists w. split; [done|apply only_warned_refl].
  - simpl. unfold bind at 1, rebind_and_log at 1, bind at 1. simpl.
    destruct (vlists_loop (map_to_list leases).*2 (OdhcpdList <$> leases) w)
      as (w1 & -> & H1).
    destruct (IH (OdhcpdList <$> leases) w1) as (w2 & Heq & H2).
    exists w2. rewrite last_bound_cons. split; [exact Heq|]. by eapply only_warned_trans.
Qed.

Lemma last_bound_app items1 items2 before :
  last_bound (items1 ++ items2) before = last_bound items2 (last_bound items1 before).
Proof.
  revert before. induction items1 as [|item items1 IH]; intros before; [done|].
  simpl. by rewrite !last_bound_cons, IH.
Qed.

Lemma devs_loop (devs : list (list (string * gmap string (list string)))) l w :
  exists w',
    for_each devs (fun dev =>
      bind (in_frame (_LOGGER_warning "RAW lease: %s"))
           (fun _ => for_each dev rebind_and_log)) (l, w)
    = (Ret tt, (last_bound (concat devs) l, w'))
    /\ only_warned w w'.
Proof.
  revert l w. induction devs as [|dev devs IH]; intros l w.
  - exists w. split; [done|apply only_warned_refl].
  - simpl. unfold bind at 1, bind at 1. simpl.
    destruct (items_loop dev l (mkWorld (router w) ((WARNING, "RAW lease: %s"%string) :: log w)))
      as (w1 & -> & H1).
    destruct (IH (last_bound dev l) w1) as (w2 & -> & H2).
    exists w2. rewrite last_bound_app. split; [done|].
    eapply only_warned_trans; [apply only_warned_warning|].
    by eapply only_warned_trans.
Qed.

Variable ubus : UbusClient V.

Lemma odhcpd_unfold :
  _get_odhcpd_leases ubus =
  with_locals (∅ : gmap string LeaseValue)
    (bind (in_frame (_LOGGER_warning "odhcpd not supported, please report the lines below"))
       (fun _ => for_each ["ipv4leases"; "ipv6leases"]%string (fun lease_method =>
          bind (in_frame (call (dhcp_leases ubus lease_method)))
            (fun devs => for_each devs (fun dev =>
               bind (in_frame (_LOGGER_warning "RAW lease: %s"))
                    (fun _ => for_each dev rebind_and_log))))))
    (fun leases => leases).
Proof. reflexivity. Qed.

Lemma odhcpd_last_bound w devs4 v1 devs6 v2 :
  dhcp_leases ubus "ipv4leases" (router w) = (Ret devs4, v1) ->
  dhcp_leases ubus "ipv6leases" v1 = (Ret devs6, v2) ->
  exists new,
    _get_odhcpd_leases ubus w =
      (Ret (last_bound (concat (devs4 ++ devs6)) ∅), mkWorld v2 (new ++ log w)) /\
    Forall (fun r : LogRecord => r.1 = WARNING) new /\ new <> [].
Proof.
  intros H4 H6. rewrite odhcpd_unfold.
  unfold with_locals, bind at 1. simpl.
  unfold bind at 1, bind at 1, in_frame at 1, call at 1. simpl. rewrite H4.
  set (w0 := mkWorld v1 _).
  destruct (devs_loop devs4 ∅ w0) as (w1 & -> & [Hr1 (n1 & Hl1 & Hf1)]).
  unfold bind at 1, bind at 1, in_frame at 1, call at 1. rewrite Hr1. simpl. rewrite H6.
  set (w2 := mkWorld v2 _).
  destruct (devs_loop devs6 (last_bound (concat devs4) ∅) w2)
    as (w3 & -> & [Hr3 (n3 & Hl3 & Hf3)]).
  simpl in *.
  exists (n3 ++ n1 ++ [(WARNING, "odhcpd not supported, please report the lines below"%string)]).
  split; [|split].
  - rewrite concat_app, last_bound_app. f_equal.
    destruct w3 as [r3 l3]. simpl in *. subst r3. f_equal.
    rewrite Hl3, Hl1. by rewrite <- !app_assoc.
  - repeat apply Forall_app_2; try done. by constructor.
  - intros Hn. apply (f_equal length) in Hn. rewrite !length_app in Hn. simpl in Hn. lia.
Qed.

End Odhcpd.

Section OdhcpdResult.
Context {V : Type} (ubus : UbusClient V).

(** X2.  [_get_odhcpd_leases] returns what the name [leases] was last bound
    to.  When the router answers both lease methods, the result is the raw
    per-interface dict of the last interface of the last device listed
    (over [ipv4leases], then [ipv6leases]), or the empty dict when no
    device lists an interface; no value of it is a [Lease]; the router is
    left as the second call left it and only warnings were logged, at least
    one. *)
Theorem odhcpd_returns_last_bound (w : World V) devs4 v1 devs6 v2 :
  dhcp_leases ubus "ipv4leases" (router w) = (Ret devs4, v1) ->
  dhcp_leases ubus "ipv6leases" v1 = (Ret devs6, v2) ->
  exists new,
    _get_odhcpd_leases ubus w =
      (Ret (match last (concat (devs4 ++ devs6)) with
            | Some (_, leases) => OdhcpdList <$> leases
            | None => ∅
            end),
       mkWorld v2 (new ++ log w)) /\
    Forall (fun r : LogRecord => r.1 = WARNING) new /\ new <> [] /\
    forall k v,
      last_bound (concat (devs4 ++ devs6)) ∅ !! k = Some v ->
      exists vlist, v = OdhcpdList vlist.
Proof.
  intros H4 H6.
  destruct (odhcpd_last_bound ubus w devs4 v1 devs6 v2 H4 H6) as (new & Hr & Hf & Hn).
  exists new. split; [exact Hr|]. split; [exact Hf|]. split; [exact Hn|].
  intros k v. unfold last_bound.
  destruct (last (concat (devs4 ++ devs6))) as [[iface leases]|].
  - rewrite lookup_fmap. destruct (leases !! k) as [vlist|]; [|done].
    intros [= <-]. by exists vlist.
  - by rewrite lookup_empty.
Qed.

End OdhcpdResult.

(** ** Lease files *)

Lemma split_from_length sep cur s :
  length (split_from sep cur s) = S (count_char sep s).
Proof.
  revert cur. induction s as [|c s IH]; intros cur; simpl; [done|].
  destruct (Ascii.eqb c sep); simpl; by rewrite IH.
Qed.

Lemma split_length sep s : length (split sep s) = S (count_char sep s).
Proof. apply split_from_length. Qed.

Section Scanner.
Context {V : Type} (ubus : UbusClient V).

(** X4.  Once the lease file has been read, [_get_dnsmasq_leases] returns
    a mapping exactly when every line of the text has exactly four space
    characters, and raises [TypeError] exactly when some line has another
    number of them (an empty line has none). *)
Theorem dnsmasq_leases_need_four_spaces lease_file (w : World V) text v' :
  file_read ubus lease_file (router w) = (Ret text, v') ->
  (Forall (fun line => count_char " " line = 4) (splitlines text) <->
     exists leases,
       _get_dnsmasq_leases ubus lease_file w = (Ret leases, mkWorld v' (log w)))
  /\ (Exists (fun line => count_char " " line <> 4) (splitlines text) <->
     exists msg,
       _get_dnsmasq_leases ubus lease_file w = (Raise (TypeError msg), mkWorld v' (log w))).
Proof.
  intros Hread.
  assert (Hrun : forall acc,
    _get_dnsmasq_leases ubus lease_file w =
      match for_each (splitlines text) dnsmasq_line (acc, mkWorld v' (log w)) with
      | (Ret _, (l, s')) => (Ret l, s')
      | (Raise e, (_, s')) => (Raise e, s')
      end -> True) by done.
  clear Hrun.
  assert (Hok : Forall (fun line => count_char " " line = 4) (splitlines text) ->
    exists leases,
      _get_dnsmasq_leases ubus lease_file w = (Ret leases, mkWorld v' (log w))).
  { intros Hf. unfold _get_dnsmasq_leases, with_locals, bind at 1, in_frame, call.
    rewrite Hread. rewrite UbusFacts.dnsmasq_loop_ok; [eauto|].
    eapply Forall_impl; [exact Hf|]. intros line Hl. simpl in *. rewrite split_length. lia. }
  assert (Hbad : Exists (fun line => count_char " " line <> 4) (splitlines text) ->
    exists msg,
      _get_dnsmasq_leases ubus lease_file w = (Raise (TypeError msg), mkWorld v' (log w))).
  { intros He. unfold _get_dnsmasq_leases, with_locals, bind at 1, in_frame, call.
    rewrite Hread.
    destruct (UbusFacts.dnsmasq_loop_bad (splitlines text) ∅ (mkWorld v' (log w)))
      as (msg & acc' & ->); [|eauto].
    eapply Exists_impl; [exact He|]. intros line Hl. simpl in *. rewrite split_length. lia. }
  split; split; auto.
  - intros [leases Hl].
    destruct (decide (Forall (fun line => count_char " " line = 4) (splitlines text)))
      as [Hf|Hn]; [done|].
    apply not_Forall_Exists in Hn; [|apply _].
    destruct (Hbad Hn) as [msg Hm]. congruence.
  - intros [msg Hm].
    destruct (decide (Forall (fun line => count_char " " line = 4) (splitlines text)))
      as [Hf|Hn].
    + destruct (Hok Hf) as [leases Hl]. congruence.
    + apply not_Forall_Exists in Hn; [done|apply _].
Qed.

Variable self : UbusDeviceScanner.

(** X7.  A malformed line reaches the caller.  With a configured lease
    file, a router without the [dhcp] namespace and a session that opens
    and closes, a line of the file that does not have exactly four spaces
    makes [_get_leases] and [get_device_name] raise [TypeError]: only
    [UbusException] is caught.  Nothing is logged. *)
Theorem malformed_lease_line_reaches_caller (w : World V) path v1 v2 text v3 v4 address :
  lease_file self = Some path ->
  ubus_enter ubus (router w) = (Ret tt, v1) ->
  ubus_contains ubus "dhcp" v1 = (Ret false, v2) ->
  file_read ubus path v2 = (Ret text, v3) ->
  Exists (fun line => count_char " " line <> 4) (splitlines text) ->
  ubus_exit ubus v3 = (Ret tt, v4) ->
  exists msg,
    _get_leases ubus self w = (Raise (TypeError msg), mkWorld v4 (log w)) /\
    get_device_name ubus self address w = (Raise (TypeError msg), mkWorld v4 (log w)).
Proof.
  intros Hlf He Hc Hr Hbad Hx.
  assert (Hparse : exists msg,
    _get_dnsmasq_leases ubus path (mkWorld v2 (log w))
      = (Raise (TypeError msg), mkWorld v3 (log w))).
  { unfold _get_dnsmasq_leases, with_locals, bind at 1, in_frame, call. simpl.
    rewrite Hr.
    destruct (UbusFacts.dnsmasq_loop_bad (splitlines text) ∅ (mkWorld v3 (log w)))
      as (msg & acc' & ->); [|eauto].
    eapply Exists_impl; [exact Hbad|]. intros line Hl. simpl in *. rewrite split_length. lia. }
  destruct Hparse as [msg Hparse]. exists msg.
  assert (Hl : _get_leases ubus self w = (Raise (TypeError msg), mkWorld v4 (log w))).
  { unfold _get_leases, with_locals, try_except, leases_try, with_ubus.
    unfold bind at 1, in_frame at 1, call at 1. rewrite He. cbv beta iota.
    unfold bind at 1, in_frame at 1, call at 1. simpl. rewrite Hc. cbv beta iota.
    unfold bind at 1, ret at 1. cbv beta iota. rewrite Hlf.
    unfold bind at 1, ret at 1. cbv beta iota.
    unfold bind at 1. simpl for_each. unfold bind at 1, bind at 1, in_frame at 1.
    rewrite Hparse. cbv beta iota.
    unfold in_frame, call. simpl. by rewrite Hx. }
  split; [done|]. unfold get_device_name, bind. by rewrite Hl.
Qed.

(** X11.  A record without [mac] reaches the caller: when the first
    interface answers a list with such a record, [_get_connected_devices]
    and [scan_devices] raise [KeyError] for [mac], once the session has
    been closed, without logging. *)
Theorem record_without_mac_reaches_caller (w : World V) iface ifaces v1 records v2 v3 :
  _wlan_ifaces self = iface :: ifaces ->
  ubus_enter ubus (router w) = (Ret tt, v1) ->
  iwinfo_assoclist ubus iface v1 = (Ret records, v2) ->
  Exists (fun x : gmap string string => x !! "mac"%string = None) records ->
  ubus_exit ubus v2 = (Ret tt, v3) ->
  _get_connected_devices ubus self w = (Raise (KeyError "mac"), mkWorld v3 (log w)) /\
  scan_devices ubus self w = (Raise (KeyError "mac"), mkWorld v3 (log w)).
Proof.
  intros Hi He Ha Hbad Hx.
  assert (Hcomp : comprehension
            (fun x : gmap string string =>
               match getitem x "mac" with
               | Ret m => Ret (m, x)
               | Raise e => Raise e
               end) records = Raise (KeyError "mac")).
  { clear - Hbad. induction Hbad as [x records Hm|x records _ IH]; simpl.
    - unfold getitem. by rewrite Hm.
    - unfold getitem at 1. destruct (x !! "mac"%string); [by rewrite IH|done]. }
  assert (Hd : _get_connected_devices ubus self w
               = (Raise (KeyError "mac"), mkWorld v3 (log w))).
  { unfold _get_connected_devices, with_locals, try_except, connected_devices_try.
    unfold bind at 1, with_ubus.
    unfold bind at 1, in_frame at 1, call at 1. rewrite He. cbv beta iota.
    rewrite Hi. simpl for_each.
    unfold bind at 1, bind at 1, in_frame at 1, call at 1. simpl. rewrite Ha. cbv beta iota.
    unfold bind at 1, eval at 1. rewrite Hcomp. cbv beta iota.
    unfold in_frame, call. simpl. by rewrite Hx. }
  split; [done|]. unfold scan_devices, bind. by rewrite Hd.
Qed.

(** X8.  With odhcpd present, the raw dict that [_get_odhcpd_leases]
    returns is merged into the leases: when no lease file is configured and
    the router lists no dnsmasq lease file, [_get_leases] returns that
    dict, and [get_device_name] on one of its keys raises [AttributeError]
    (a list of raw leases has no [hostname]). *)
Theorem odhcpd_entry_breaks_get_device_name (w : World V)
        v1 v2 devs4 v3 devs6 v4 v5 v6 address vlist :
  lease_file self = None ->
  ubus_enter ubus (router w) = (Ret tt, v1) ->
  ubus_contains ubus "dhcp" v1 = (Ret true, v2) ->
  dhcp_leases ubus "ipv4leases" v2 = (Ret devs4, v3) ->
  dhcp_leases ubus "ipv6leases" v3 = (Ret devs6, v4) ->
  uci_get ubus "dhcp" "dnsmasq" v4 = (Ret [], v5) ->
  ubus_exit ubus v5 = (Ret tt, v6) ->
  last_bound (concat (devs4 ++ devs6)) ∅ !! address = Some (OdhcpdList vlist) ->
  exists w',
    _get_leases ubus self w = (Ret (last_bound (concat (devs4 ++ devs6)) ∅), w') /\
    get_device_name ubus self address w = (Raise (AttributeError "hostname"), w').
Proof.
  intros Hlf He Hc H4 H6 Hu Hx Hk.
  destruct (odhcpd_last_bound ubus (mkWorld v2 (log w)) devs4 v3 devs6 v4 H4 H6)
    as (new & Ho & _ & _).
  eexists. 
  assert (Hl : _get_leases ubus self w = (Ret (last_bound (concat (devs4 ++ devs6)) ∅), 
     mkWorld v6 ((DEBUG, "Found %s leases: %s"%string) :: (WARNING, "Report the lease format as shown above"%string) :: new ++ log w))).
  { unfold _get_leases, with_locals, try_except, leases_try, with_ubus.
    unfold bind at 1, in_frame at 1, call at 1. rewrite He. cbv beta iota.
    unfold bind at 1, in_frame at 1, call at 1. simpl. rewrite Hc. cbv beta iota.
    unfold bind at 1, bind at 1, in_frame at 1. rewrite Ho. cbv beta iota.
    unfold bind at 1. simpl. rewrite Hlf.
    unfold bind at 1, in_frame at 1, _get_lease_files, bind at 1, call at 1. simpl.
    rewrite Hu. simpl. unfold call. simpl. rewrite Hx. simpl.
    f_equal. f_equal. apply map_eq. intros k. rewrite lookup_union, lookup_empty.
    by destruct (_ !! k). }
  split; [exact Hl|]. unfold get_device_name, bind. rewrite Hl. by rewrite Hk.
Qed.

(** X12.  For every configuration, [__init__] raises before any call to
    the vendor library, and so does [get_scanner]: [KeyError] for the first
    of host, username and password that the configuration lacks, and
    [NameError] for [CONF_LEASEFILE] when it lacks none. *)
Theorem scanner_is_never_constructed `{HostConstants}
        (config : gmap string (option string)) (w : World V) :
  exists e,
    __init__ ubus config w = (Raise e, w) /\
    get_scanner ubus config w = (Raise e, w) /\
    e = (if decide (is_Some (config !! CONF_HOST)) then
           if decide (is_Some (config !! CONF_USERNAME)) then
             if decide (is_Some (config !! CONF_PASSWORD)) then NameError "CONF_LEASEFILE"
             else KeyError CONF_PASSWORD
           else KeyError CONF_USERNAME
         else KeyError CONF_HOST).
Proof.
  assert (module_globals !! "CONF_HOST"%string = Some CONF_HOST) as G1 by reflexivity.
  assert (module_globals !! "CONF_USERNAME"%string = Some CONF_USERNAME) as G2 by reflexivity.
  assert (module_globals !! "CONF_PASSWORD"%string = Some CONF_PASSWORD) as G3 by reflexivity.
  assert (module_globals !! "CONF_LEASEFILE"%string = None) as G4 by reflexivity.
  eexists. split; [|split; [|reflexivity]].
  - unfold __init__, bind, load_global, eval, getitem, ret, raise. rewrite G1, G2, G3, G4.
    repeat case_decide;
      repeat match goal with
             | Hs : is_Some _ |- _ => destruct Hs as [? ->]
             | Hn : ¬ is_Some _ |- _ => apply eq_None_not_Some in Hn; rewrite Hn
             end; reflexivity.
  - unfold get_scanner, bind at 1.
    unfold __init__, bind, load_global, eval, getitem, ret, raise. rewrite G1, G2, G3, G4.
    repeat case_decide;
      repeat match goal with
             | Hs : is_Some _ |- _ => destruct Hs as [? ->]
             | Hn : ¬ is_Some _ |- _ => apply eq_None_not_Some in Hn; rewrite Hn
             end; reflexivity.
Qed.

End Scanner.

(** ** Characters of lines and fields *)

Lemma count_char_snoc c s c' :
  count_char c (snoc s c') = count_char c s + (if Ascii.eqb c' c then 1 else 0).
Proof.
  unfold snoc. induction s as [|c0 s IH]; simpl; [lia|]. rewrite IH. lia.
Qed.

Lemma split_from_chars sep cur s f c :
  In f (split_from sep cur s) ->
  count_char c cur = 0 -> count_char c s = 0 -> count_char c f = 0.
Proof.
  revert cur. induction s as [|c0 s IH]; intros cur; simpl.
  - by intros [<-|[]].
  - intros Hin Hcur Hs.
    assert (count_char c s = 0) by lia.
    assert ((if Ascii.eqb c0 c then 1 else 0) = 0) as Hc0 by lia.
    destruct (Ascii.eqb c0 sep).
    + destruct Hin as [<-|Hin]; [done|]. by apply (IH ""%string).
    + apply (IH (snoc cur c0)); [done| |done]. rewrite count_char_snoc. lia.
Qed.

Lemma split_from_no_sep sep cur s f :
  In f (split_from sep cur s) -> count_char sep cur = 0 -> count_char sep f = 0.
Proof.
  revert cur. induction s as [|c0 s IH]; intros cur; simpl.
  - by intros [<-|[]].
  - intros Hin Hcur. destruct (Ascii.eqb c0 sep) eqn:E.
    + destruct Hin as [<-|Hin]; [done|]. by apply (IH ""%string).
    + apply (IH (snoc cur c0)); [done|]. rewrite count_char_snoc, E. lia.
Qed.

Lemma splitlines_from_no_break n : forall s cur line c,
  String.length s <= n ->
  In line (splitlines_from cur s) ->
  is_linebreak c = true -> count_char c cur = 0 -> count_char c line = 0.
Proof.
  induction n as [|n IH]; intros s cur line c Hn.
  - destruct s; simpl in Hn; [|lia]. simpl.
    destruct (String.eqb cur ""); [intros []|]. by intros [<-|[]].
  - destruct s as [|c0 s]; simpl.
    { destruct (String.eqb cur ""); [intros []|]. by intros [<-|[]]. }
    simpl in Hn. destruct (is_linebreak c0) eqn:E0.
    + destruct s as [|c1 s]; simpl in *.
      * intros [<-|[]] _ Hc; done.
      * destruct (is_CR c0 && is_LF c1).
        -- intros [<-|Hin] Hc Hcur; [done|]. apply (IH s ""%string); auto. lia.
        -- intros [<-|Hin] Hc Hcur; [done|].
           apply (IH (String c1 s) ""%string); auto. simpl. lia.
    + intros Hin Hc Hcur. apply (IH s (snoc cur c0)); auto; [lia|].
      rewrite count_char_snoc. 
      destruct (Ascii.eqb c0 c) eqn:Ec; [|lia].
      apply Ascii.eqb_eq in Ec. subst. congruence.
Qed.

Lemma splitlines_no_break text line c :
  In line (splitlines text) -> is_linebreak c = true -> count_char c line = 0.
Proof.
  intros Hin Hc. by apply (splitlines_from_no_break (String.length text) text ""%string).
Qed.

Lemma line_fields_clean text line l :
  In line (splitlines text) -> Lease_new (split " " line) = Ret l -> clean_lease l.
Proof.
  intros Hin Hl. apply UbusFacts.Lease_new_Ret in Hl.
  assert (Hf : forall f, In f (split " " line) -> clean_field f).
  { intros f Hf. split.
    - by apply (split_from_no_sep " " ""%string line).
    - intros c Hc. apply (split_from_chars " " ""%string line f c Hf); [done|].
      by apply (splitlines_no_break text). }
  rewrite Hl in Hf. unfold clean_lease.
  refine (conj _ (conj _ (conj _ (conj _ _)))); apply Hf; simpl; auto 10.
Qed.

Section Scanner.
Context {V : Type} (ubus : UbusClient V).

Lemma dnsmasq_line_clean {S} text line :
  In line (splitlines text) ->
  preserves (S := S) (fun parsed : gmap string Lease => forall k l, parsed !! k = Some l -> clean_lease l)
            (fun _ => True) (dnsmasq_line line).
Proof.
  intros Hin. unfold dnsmasq_line.
  apply (preserves_bind _ (fun l => clean_lease l)).
  { apply preserves_eval. intros l Hl. by apply (line_fields_clean text line). }
  intros lease Hc. apply preserves_set_local. intros parsed Hp k l.
  destruct (decide (upper (mac lease) = k)) as [<-|Hne].
  - rewrite lookup_insert_eq. by intros [= <-].
  - rewrite lookup_insert_ne by done. apply Hp.
Qed.

(** X5.  No field of a lease that [_get_dnsmasq_leases] returns contains a
    space or a line-boundary character, whatever the router answered. *)
Theorem lease_fields_have_no_separators lease_file (w : World V) parsed w' :
  _get_dnsmasq_leases ubus lease_file w = (Ret parsed, w') ->
  forall k l, parsed !! k = Some l ->
    clean_field (expires l) /\ clean_field (mac l) /\ clean_field (ip l) /\
    clean_field (hostname l) /\ clean_field (client_id l).
Proof.
  intros H.
  assert (Hb : preserves (fun parsed : gmap string Lease =>
                            forall k l, parsed !! k = Some l -> clean_lease l)
                 (fun _ => True)
                 (bind (in_frame (call (file_read ubus lease_file)))
                       (fun text => for_each (splitlines text) dnsmasq_line))).
  { apply (preserves_bind _ (fun _ => True)); [by apply preserves_in_frame|].
    intros text _. apply preserves_for_each. intros line Hl.
    by apply (dnsmasq_line_clean text). }
  assert (H0 : forall k l, (∅ : gmap string Lease) !! k = Some l -> clean_lease l)
    by (intros k l Hk; by rewrite lookup_empty in Hk).
  destruct (with_locals_preserved _ (fun _ => True) _ _ _ _ _ _ H0 Hb H) as (l & Hl & ->).
  exact Hl.
Qed.

End Scanner.

(** ** Keys of the leases *)

Lemma upper_char_idempotent c : upper_char (upper_char c) = upper_char c.
Proof.
  unfold upper_char.
  destruct (Nat.leb 97 (nat_of_ascii c) && Nat.leb (nat_of_ascii c) 122) eqn:E.
  - apply andb_true_iff in E as [H1 H2].
    apply Nat.leb_le in H1, H2.
    rewrite nat_ascii_embedding by lia.
    replace (Nat.leb 97 (nat_of_ascii c - 32)) with false; [done|].
    symmetry. apply Nat.leb_gt. lia.
  - by rewrite E.
Qed.

Lemma upper_idempotent s : upper (upper s) = upper s.
Proof.
  induction s as [|c s IH]; simpl; [done|]. by rewrite upper_char_idempotent, IH.
Qed.

Lemma dnsmasq_line_keys {S} line :
  preserves (S := S) parsed_under_upper_mac (fun _ => True) (dnsmasq_line line).
Proof.
  unfold dnsmasq_line.
  apply (preserves_bind _ (fun _ => True)); [by apply preserves_eval|].
  intros lease _. apply preserves_set_local. intros parsed Hp k l.
  destruct (decide (upper (mac lease) = k)) as [<-|Hne].
  - rewrite lookup_insert_eq. by intros [= <-].
  - rewrite lookup_insert_ne by done. apply Hp.
Qed.

Section Scanner.
Context {V : Type} (ubus : UbusClient V).

Lemma dnsmasq_leases_keys lease_file (w : World V) parsed w' :
  _get_dnsmasq_leases ubus lease_file w = (Ret parsed, w') ->
  parsed_under_upper_mac parsed.
Proof.
  intros H.
  assert (Hb : preserves parsed_under_upper_mac (fun _ => True)
                 (bind (in_frame (call (file_read ubus lease_file)))
                       (fun text => for_each (splitlines text) dnsmasq_line))).
  { apply (preserves_bind _ (fun _ => True)); [by apply preserves_in_frame|].
    intros text _. apply preserves_for_each. intros line _. apply dnsmasq_line_keys. }
  destruct (with_locals_preserved parsed_under_upper_mac (fun _ => True) _ _ _ _ _ _
              (fun k x Hk => ltac:(by rewrite lookup_empty in Hk)) Hb H) as (l & Hl & ->).
  done.
Qed.

Variable self : UbusDeviceScanner.

Hypothesis no_odhcpd : forall v, fst (ubus_contains ubus "dhcp" v) <> Ret true.

Lemma leases_try_under_upper_mac :
  preserves leases_under_upper_mac (fun _ => True) (leases_try ubus self).
Proof using no_odhcpd.
  unfold leases_try. apply preserves_with_ubus.
  apply (preserves_bind _ (fun b => b = false)).
  { apply preserves_in_frame. intros s b s'. unfold call.
    pose proof (no_odhcpd (router s)) as Hn.
    destruct (ubus_contains ubus "dhcp" (router s)) as [r v]. simpl in Hn.
    intros [= -> <-]. by destruct b. }
  intros b ->.
  apply (preserves_bind _ (fun _ => True)); [by apply preserves_ret|]. intros _ _.
  apply (preserves_bind _ (fun _ => True)).
  { destruct (lease_file self); [by apply preserves_ret|by apply preserves_in_frame]. }
  intros files _.
  apply (preserves_bind _ (fun _ => True)); [|intros; by apply preserves_in_frame].
  apply preserves_for_each. intros f _.
  apply (preserves_bind _ parsed_under_upper_mac).
  { apply preserves_in_frame. intros s parsed s'. apply dnsmasq_leases_keys. }
  intros parsed Hp. apply preserves_set_local. intros leases Hl k v.
  rewrite lookup_union, lookup_fmap.
  destruct (parsed !! k) as [l|] eqn:E; simpl.
  - destruct (leases !! k); simpl; intros [= <-]; exists l; split; auto.
  - destruct (leases !! k) as [v0|] eqn:E0; simpl; [|done]. intros [= <-]. by apply Hl.
Qed.

Lemma leases_under_upper_mac_returned (w : World V) leases w' :
  _get_leases ubus self w = (Ret leases, w') -> leases_under_upper_mac leases.
Proof using no_odhcpd.
  intros H.
  destruct (with_locals_preserved leases_under_upper_mac (fun _ => True) _ _ _ _ _ _
              (fun k x Hk => ltac:(by rewrite lookup_empty in Hk))
              (preserves_try_except _ _ _ _ _ leases_try_under_upper_mac
                 (fun e => preserves_in_frame _ _ _ (fun _ _ _ _ => I)))
              H) as (l & Hl & ->).
  done.
Qed.

End Scanner.

(** X6.  On a router that never reports the [dhcp] namespace, every entry
    of the dict [_get_leases] returns is a [Lease] stored under the
    uppercase of its own hardware address.  So [get_device_name] returns
    [None] for every address that is not already in upper case, does not
    raise once [_get_leases] has returned, and a hostname it returns is
    that of a lease whose uppercased hardware address is the address asked
    for. *)
Theorem dnsmasq_leases_answer_uppercase_queries_only {V} (ubus : UbusClient V)
        (self : UbusDeviceScanner) (w : World V) leases w' :
  (forall v, fst (ubus_contains ubus "dhcp" v) <> Ret true) ->
  _get_leases ubus self w = (Ret leases, w') ->
  (forall k v, leases !! k = Some v -> exists l, v = IsLease l /\ k = upper (mac l)) /\
  (forall address, upper address <> address ->
     get_device_name ubus self address w = (Ret None, w')) /\
  (forall address, exists answer,
     get_device_name ubus self address w = (Ret answer, w') /\
     forall name, answer = Some name ->
       exists l, leases !! address = Some (IsLease l) /\
                 upper (mac l) = address /\ hostname l = name).
Proof.
  intros Hno H.
  pose proof (leases_under_upper_mac_returned ubus self Hno w leases w' H) as Hinv.
  split; [exact Hinv|]. split.
  - intros address Hne. unfold get_device_name, bind. rewrite H.
    destruct (leases !! address) as [v|] eqn:E; [|done].
    destruct (Hinv _ _ E) as (l & -> & ->). by rewrite upper_idempotent in Hne.
  - intros address. unfold get_device_name, bind. rewrite H.
    destruct (leases !! address) as [v|] eqn:E.
    + destruct (Hinv _ _ E) as (l & -> & ->). eexists. split; [done|].
      intros name [= <-]. eauto.
    + exists None. by split.
Qed.

(** ** Connected devices *)

Lemma comprehension_by_mac (records : list (gmap string string)) by_mac :
  comprehension (fun x => match getitem x "mac" with
                          | Ret m => Ret (m, x)
                          | Raise e => Raise e
                          end) records = Ret by_mac ->
  Forall (fun kv => kv.2 !! "mac"%string = Some kv.1) by_mac.
Proof.
  revert by_mac. induction records as [|x records IH]; intros by_mac; simpl.
  - intros [= <-]. constructor.
  - unfold getitem. destruct (x !! "mac"%string) as [m|] eqn:E; [|done].
    destruct (comprehension _ records) as [ys|]; [|done].
    intros [= <-]. constructor; [done|]. by apply IH.
Qed.

Lemma update_pairs_keyed clients by_mac :
  keyed_by_mac clients ->
  Forall (fun kv => kv.2 !! "mac"%string = Some kv.1) by_mac ->
  keyed_by_mac (update_pairs clients by_mac).
Proof.
  intros Hc Hp. revert clients Hc. unfold update_pairs.
  induction Hp as [|[m x] by_mac Hx _ IH]; intros clients Hc; simpl; [done|].
  apply IH. intros k y. destruct (decide (m = k)) as [->|Hne].
  - rewrite lookup_insert_eq. by intros [= <-].
  - rewrite lookup_insert_ne by done. apply Hc.
Qed.

Section Scanner.
Context {V : Type} (ubus : UbusClient V) (self : UbusDeviceScanner).

Lemma connected_devices_try_keyed :
  preserves keyed_by_mac (fun _ => True) (connected_devices_try ubus self).
Proof.
  unfold connected_devices_try.
  apply (preserves_bind _ (fun _ => True)); [|intros; by apply preserves_in_frame].
  apply preserves_with_ubus, preserves_for_each. intros iface _.
  apply (preserves_bind _ (fun _ => True)); [by apply preserves_in_frame|].
  intros records _.
  apply (preserves_bind _ (Forall (fun kv => kv.2 !! "mac"%string = Some kv.1))).
  - apply preserves_eval. intros by_mac. apply comprehension_by_mac.
  - intros by_mac Hb. apply preserves_set_local. intros clients Hc.
    by apply update_pairs_keyed.
Qed.

Lemma connected_devices_keyed (w : World V) clients w' :
  _get_connected_devices ubus self w = (Ret clients, w') -> keyed_by_mac clients.
Proof.
  intros H.
  destruct (with_locals_preserved keyed_by_mac (fun _ => True) _ _ _ _ _ _
              (fun k x Hk => ltac:(by rewrite lookup_empty in Hk))
              (preserves_try_except _ _ _ _ _ connected_devices_try_keyed
                 (fun e => preserves_in_frame _ _ _ (fun _ _ _ _ => I)))
              H) as (l & Hl & ->).
  done.
Qed.

(** X9.  What [scan_devices] returns has no duplicates and is the key set
    of the dict of [_get_connected_devices], in which every record is
    stored under its own [mac] attribute, whatever the router answered. *)
Theorem scan_devices_ids_are_mac_attributes (w : World V) ids w' :
  scan_devices ubus self w = (Ret ids, w') ->
  NoDup ids /\
  exists clients,
    _get_connected_devices ubus self w = (Ret clients, w') /\
    (forall k, k ∈ ids <-> is_Some (clients !! k)) /\
    (forall k x, clients !! k = Some x -> x !! "mac"%string = Some k).
Proof.
  unfold scan_devices, bind, ret.
  destruct (_get_connected_devices ubus self w) as [[clients|e] w1] eqn:E; [|done].
  intros [= <- <-]. split; [apply NoDup_fst_map_to_list|].
  exists clients. split; [done|]. split.
  - intros k. rewrite list_elem_of_fmap. split.
    + intros ([k' x] & -> & Hin). apply elem_of_map_to_list in Hin. by exists x.
    + intros [x Hx]. exists (k, x). split; [done|]. by apply elem_of_map_to_list.
  - by apply (connected_devices_keyed w clients w1).
Qed.

End Scanner.

Lemma comprehension_by_mac_ok (records : list (gmap string string)) :
  Forall (fun x => is_Some (x !! "mac"%string)) records ->
  exists by_mac,
    comprehension (fun x => match getitem x "mac" with
                            | Ret m => Ret (m, x)
                            | Raise e => Raise e
                            end) records = Ret by_mac /\
    forall k, In k by_mac.*1 <-> exists x, In x records /\ x !! "mac"%string = Some k.
Proof.
  induction 1 as [|x records [m Hm] _ (by_mac & Hc & IH)]; simpl.
  - exists []. split; [done|]. intros k. simpl. split; [done|]. by intros (x & [] & _).
  - unfold getitem at 1. rewrite Hm, Hc. exists ((m, x) :: by_mac). split; [done|].
    intros k. simpl. rewrite IH. split.
    + intros [<-|(y & Hy & Hk)]; [exists x; auto|exists y; auto].
    + intros (y & [<-|Hy] & Hk); [left; congruence|right; eauto].
Qed.

Lemma update_pairs_keys {A} (d : gmap string A) pairs k :
  is_Some (update_pairs d pairs !! k) <-> is_Some (d !! k) \/ In k pairs.*1.
Proof.
  unfold update_pairs. revert d. induction pairs as [|[k0 v0] pairs IH]; intros d; simpl.
  - tauto.
  - rewrite IH. destruct (decide (k0 = k)) as [->|Hne].
    + rewrite lookup_insert_eq. split; [auto|]. intros _. left. by eexists.
    + rewrite lookup_insert_ne by done. tauto.
Qed.

Section Scanner.
Context {V : Type} (ubus : UbusClient V) (self : UbusDeviceScanner).
Variable records : string -> list (gmap string string).

Hypothesis enter_ok : forall v, fst (ubus_enter ubus v) = Ret tt.
Hypothesis exit_ok : forall v, fst (ubus_exit ubus v) = Ret tt.
Hypothesis assoclist_ok : forall iface v,
  In iface (_wlan_ifaces self) -> fst (iwinfo_assoclist ubus iface v) = Ret (records iface).
Hypothesis records_have_mac : forall iface x,
  In iface (_wlan_ifaces self) -> In x (records iface) -> is_Some (x !! "mac"%string).

Lemma ifaces_loop ifaces (clients : gmap string (gmap string string)) (w : World V) :
  (forall iface, In iface ifaces -> In iface (_wlan_ifaces self)) ->
  exists clients' w',
    for_each ifaces (fun iface =>
      bind (in_frame (call (iwinfo_assoclist ubus iface)))
        (fun clients_for_iface =>
           bind (eval (comprehension
                         (fun x => match getitem x "mac" with
                                   | Ret m => Ret (m, x)
                                   | Raise e => Raise e
                                   end)
                         clients_for_iface))
             (fun by_mac => set_local (fun clients => update_pairs clients by_mac))))
      (clients, w) = (Ret tt, (clients', w')) /\
    forall k, is_Some (clients' !! k) <->
              is_Some (clients !! k) \/
              exists iface x, In iface ifaces /\ In x (records iface) /\
                              x !! "mac"%string = Some k.
Proof using assoclist_ok records_have_mac.
  revert clients w. induction ifaces as [|iface ifaces IH]; intros clients w Hsub.
  - exists clients, w. split; [done|]. intros k. split; [by left|].
    by intros [?|(? & ? & [] & _)].
  - simpl. unfold bind at 1, bind at 1, in_frame at 1, call at 1.
    pose proof (assoclist_ok iface (router w) (Hsub iface (or_introl eq_refl))) as Ha.
    destruct (iwinfo_assoclist ubus iface (router w)) as [r v1]. simpl in Ha. subst r.
    destruct (comprehension_by_mac_ok (records iface)) as (by_mac & Hc & Hk).
    { apply Forall_forall. intros x Hx.
      apply (records_have_mac iface); [apply Hsub; by left|by apply list_elem_of_In]. }
    unfold bind at 1, eval at 1. rewrite Hc. simpl.
    destruct (IH (update_pairs clients by_mac) (mkWorld v1 (log w))) as (c' & w' & -> & Hc').
    { intros i Hi. apply Hsub. by right. }
    exists c', w'. split; [done|]. intros k. rewrite Hc', update_pairs_keys, Hk.
    split.
    + intros [[?|(x & Hx & Hm)]|(i & x & Hi & Hx & Hm)]; [by left| |].
      * right. exists iface, x. auto.
      * right. exists i, x. auto.
    + intros [?|(i & x & [<-|Hi] & Hx & Hm)]; [by left; left| |].
      * left. right. eauto.
      * right. eauto.
Qed.

(** X10.  When the session opens and closes, every interface of the
    scanner answers [records iface] and every record has a [mac],
    [scan_devices] returns, and its ids are exactly the [mac] attributes of
    the records of the scanner's interfaces: no station is lost and none is
    invented. *)
Theorem scan_devices_reports_every_station (w : World V) :
  exists ids w',
    scan_devices ubus self w = (Ret ids, w') /\
    forall k, k ∈ ids <->
              exists iface x, In iface (_wlan_ifaces self) /\ In x (records iface) /\
                              x !! "mac"%string = Some k.
Proof using enter_ok exit_ok assoclist_ok records_have_mac.
  destruct (ubus_enter ubus (router w)) as [re v1] eqn:Ee.
  pose proof (enter_ok (router w)) as He. rewrite Ee in He. simpl in He. subst re.
  destruct (ifaces_loop (_wlan_ifaces self) ∅ (mkWorld v1 (log w)))
    as (clients & w1 & Hloop & Hk); [auto|].
  destruct (ubus_exit ubus (router w1)) as [rx v2] eqn:Ex.
  pose proof (exit_ok (router w1)) as Hx. rewrite Ex in Hx. simpl in Hx. subst rx.
  assert (Hd : _get_connected_devices ubus self w =
               (Ret clients,
                mkWorld v2 ((DEBUG, "Total %s connected devices: %s"%string) :: log w1))).
  { unfold _get_connected_devices, with_locals, try_except, connected_devices_try.
    unfold bind at 1, with_ubus.
    unfold bind at 1, in_frame at 1, call at 1. rewrite Ee. cbv beta iota.
    rewrite Hloop. unfold in_frame, call. simpl. by rewrite Ex. }
  eexists _, _. unfold scan_devices, bind. rewrite Hd. split; [reflexivity|].
  intros k. split.
  - intros Hin. apply list_elem_of_fmap in Hin as ([k' x] & -> & Hin).
    apply elem_of_map_to_list in Hin.
    destruct (proj1 (Hk k') (ex_intro _ x Hin)) as [[y Hy]|Hr]; [|exact Hr].
    by rewrite lookup_empty in Hy.
  - intros Hr. destruct (proj2 (Hk k) (or_intror Hr)) as [x Hx].
    apply list_elem_of_fmap. exists (k, x). split; [done|]. by apply elem_of_map_to_list.
Qed.

End Scanner.

End ScannerFacts.

(* ===================================================================== *)
(** * What the scanner gathers in a session, and what is left of it when
      the session fails *)
(* ===================================================================== *)

Module GatheringFacts.
Import Py Ubus Invariants.

(** ** Loops and dicts *)

Lemma for_each_app {S A} (xs ys : list A) (body : A -> M S unit) (s : S) :
  for_each (xs ++ ys) body s = bind (for_each xs body) (fun _ => for_each ys body) s.
Proof.
  revert s. induction xs as [|x xs IH]; intros s; simpl.
  - reflexivity.
  - unfold bind. destruct (body x s) as [[[]|e] s']; [|reflexivity].
    rewrite IH. reflexivity.
Qed.

Lemma insert_line_union (acc : gmap string Lease) line :
  insert_line acc line = insert_line ∅ line ∪ acc.
Proof.
  unfold insert_line. destruct (Lease_new (split " " line)) as [l|e].
  - by rewrite insert_union_singleton_l, insert_empty.
  - by rewrite (left_id ∅ (∪)).
Qed.

Lemma fold_insert_line_union lines (acc : gmap string Lease) :
  fold_left insert_line lines acc = fold_left insert_line lines ∅ ∪ acc.
Proof.
  revert acc. induction lines as [|line lines IH]; intros acc; simpl.
  - by rewrite (left_id ∅ (∪)).
  - rewrite IH, (IH (insert_line ∅ line)), (insert_line_union acc).
    by rewrite (assoc_L (∪)).
Qed.

Lemma store_by_mac_origin records clients k x :
  store_by_mac clients records !! k = Some x ->
  clients !! k = Some x \/ (In x records /\ x !! "mac"%string = Some k).
Proof.
  unfold store_by_mac. revert clients.
  induction records as [|y records IH]; intros clients H; simpl in *; [by left|].
  destruct (IH _ H) as [Hc|[Hin Hm]]; [|right; auto].
  destruct (y !! "mac"%string) as [m|] eqn:Ey; [|by left].
  destruct (decide (m = k)) as [->|Hne].
  - rewrite lookup_insert_eq in Hc. injection Hc as <-. right. auto.
  - rewrite lookup_insert_ne in Hc by done. by left.
Qed.

Lemma store_by_mac_other records clients k :
  Forall (fun y : gmap string string => y !! "mac"%string <> Some k) records ->
  store_by_mac clients records !! k = clients !! k.
Proof.
  unfold store_by_mac. intros H. revert clients.
  induction H as [|y records Hy _ IH]; intros clients; simpl; [done|].
  rewrite IH. destruct (y !! "mac"%string) as [m|] eqn:Ey; [|done].
  apply lookup_insert_ne. intros ->. done.
Qed.

Lemma store_by_mac_last before x after clients k :
  x !! "mac"%string = Some k ->
  Forall (fun y : gmap string string => y !! "mac"%string <> Some k) after ->
  store_by_mac clients (before ++ x :: after) !! k = Some x.
Proof.
  intros Hx Ha. unfold store_by_mac. rewrite fold_left_app. simpl. rewrite Hx.
  etrans; [apply (store_by_mac_other after _ k Ha)|]. apply lookup_insert_eq.
Qed.

Lemma comprehension_store_by_mac (records : list (gmap string string)) :
  Forall (fun x => is_Some (x !! "mac"%string)) records ->
  exists by_mac,
    comprehension (fun x => match getitem x "mac" with
                            | Ret m => Ret (m, x)
                            | Raise e => Raise e
                            end) records = Ret by_mac /\
    forall clients, update_pairs clients by_mac = store_by_mac clients records.
Proof.
  induction 1 as [|x records [m Hm] _ (by_mac & Hc & IH)]; simpl.
  - exists []. split; [done|]. done.
  - unfold getitem at 1. rewrite Hm, Hc. exists ((m, x) :: by_mac). split; [done|].
    intros clients. unfold update_pairs, store_by_mac. cbn [fold_left fst snd].
    apply IH.
Qed.

Section Scanner.
Context {V : Type} (ubus : UbusClient V) (self : UbusDeviceScanner).

(** The loop of [_get_connected_devices] over interfaces that answer. *)
Lemma interfaces_loop ifaces answers (clients : gmap string (gmap string string)) v v' lg :
  assoclists ubus ifaces v = (Ret answers, v') ->
  Forall (Forall (fun x : gmap string string => is_Some (x !! "mac"%string))) answers ->
  for_each ifaces (fun iface =>
    bind (in_frame (call (iwinfo_assoclist ubus iface)))
      (fun clients_for_iface =>
         bind (eval (comprehension
                       (fun x => match getitem x "mac" with
                                 | Ret m => Ret (m, x)
                                 | Raise e => Raise e
                                 end)
                       clients_for_iface))
           (fun by_mac => set_local (fun clients => update_pairs clients by_mac))))
    (clients, mkWorld v lg)
  = (Ret tt, (store_by_mac clients (concat answers), mkWorld v' lg)).
Proof.
  revert answers clients v. induction ifaces as [|iface ifaces IH]; intros answers clients v.
  - simpl. unfold ret. intros [= <- <-] _. reflexivity.
  - simpl assoclists. unfold bind at 1.
    destruct (iwinfo_assoclist ubus iface v) as [[records|e] v1] eqn:Ea; [|discriminate].
    unfold bind at 1.
    destruct (assoclists ubus ifaces v1) as [[rest|e] v2] eqn:Er; [|discriminate].
    unfold ret. intros [= <- <-] Hmac.
    apply Forall_cons in Hmac as [Hm Hrest].
    destruct (comprehension_store_by_mac records Hm) as (by_mac & Hc & Hs).
    simpl for_each. unfold bind at 1, bind at 1, in_frame at 1, call at 1. simpl.
    rewrite Ea. unfold bind at 1, eval at 1. rewrite Hc. simpl.
    rewrite (IH rest _ v1 Er Hrest). simpl.
    unfold store_by_mac at 2. rewrite fold_left_app. by rewrite Hs.
Qed.

(** [_get_dnsmasq_leases] on a file whose lines all have five fields. *)
Lemma dnsmasq_leases_read file text v v' lg :
  file_read ubus file v = (Ret text, v') ->
  Forall five_fields (splitlines text) ->
  _get_dnsmasq_leases ubus file (mkWorld v lg)
  = (Ret (fold_left insert_line (splitlines text) ∅), mkWorld v' lg).
Proof.
  intros Hread Hfive.
  unfold _get_dnsmasq_leases, with_locals, bind at 1, in_frame, call. simpl.
  rewrite Hread. by rewrite UbusFacts.dnsmasq_loop_ok.
Qed.

(** The loop of [_get_leases] over lease files that can be read and parsed. *)
Lemma lease_files_loop files texts (leases : gmap string LeaseValue) v v' lg :
  file_reads ubus files v = (Ret texts, v') ->
  Forall five_fields (concat (splitlines <$> texts)) ->
  for_each files (fun lease_file =>
    bind (in_frame (_get_dnsmasq_leases ubus lease_file))
      (fun parsed => set_local (fun leases => (IsLease <$> parsed) ∪ leases)))
    (leases, mkWorld v lg)
  = (Ret tt,
     ((IsLease <$> fold_left insert_line (concat (splitlines <$> texts)) ∅) ∪ leases,
      mkWorld v' lg)).
Proof.
  revert texts leases v. induction files as [|file files IH]; intros texts leases v.
  - simpl. unfold ret. intros [= <- <-] _. simpl.
    by rewrite fmap_empty, (left_id ∅ (∪)).
  - simpl file_reads. unfold bind at 1.
    destruct (file_read ubus file v) as [[text|e] v1] eqn:Ea; [|discriminate].
    unfold bind at 1.
    destruct (file_reads ubus files v1) as [[rest|e] v2] eqn:Er; [|discriminate].
    unfold ret. intros [= <- <-] Hfive. simpl in Hfive.
    apply Forall_app in Hfive as [H1 Hrest].
    simpl for_each. unfold bind at 1, bind at 1, in_frame at 1.
    rewrite (dnsmasq_leases_read _ _ _ _ _ Ea H1). simpl.
    rewrite (IH rest _ v1 Er Hrest). simpl.
    rewrite fold_left_app, (fold_insert_line_union _ (fold_left _ _ _)).
    by rewrite map_fmap_union, (assoc_L (∪)).
Qed.

(** The lease files, once found. *)
Lemma lease_files_step {L} (l : L) files v v' lg :
  lease_files_found ubus self v files v' ->
  match lease_file self with
  | None => in_frame (_get_lease_files ubus)
  | Some f => ret [f]
  end (l, mkWorld v lg) = (Ret files, (l, mkWorld v' lg)).
Proof.
  unfold lease_files_found. destruct (lease_file self) as [f|].
  - by intros [-> ->].
  - intros (sections & Hu & Hf).
    unfold in_frame, _get_lease_files, bind, call, eval. simpl. rewrite Hu.
    by rewrite (ScannerFacts.comprehension_getitem_ok _ _ _ Hf).
Qed.


(** One run of the session of [_get_connected_devices] in which the
    interfaces [done] answer and the next one raises. *)
Lemma connected_devices_try_stops (w : World V) done bad rest v0 answers v1 e v2 v3 :
  _wlan_ifaces self = done ++ bad :: rest ->
  ubus_enter ubus (router w) = (Ret tt, v0) ->
  assoclists ubus done v0 = (Ret answers, v1) ->
  Forall (Forall (fun x : gmap string string => is_Some (x !! "mac"%string))) answers ->
  iwinfo_assoclist ubus bad v1 = (Raise e, v2) ->
  ubus_exit ubus v2 = (Ret tt, v3) ->
  connected_devices_try ubus self (∅, w)
  = (Raise e, (store_by_mac ∅ (concat answers), mkWorld v3 (log w))).
Proof.
  intros Hif He Ha Hmac Hbad Hx.
  unfold connected_devices_try. unfold bind at 1, with_ubus.
  unfold bind at 1, in_frame at 1, call at 1. rewrite He. cbv beta iota.
  rewrite Hif, for_each_app. unfold bind at 1.
  rewrite (interfaces_loop done answers ∅ v0 v1 (log w) Ha Hmac).
  simpl for_each. unfold bind at 1, bind at 1, in_frame at 1, call at 1. simpl.
  rewrite Hbad. cbv beta iota.
  unfold in_frame, call. simpl. by rewrite Hx.
Qed.

(** The session of [_get_leases] up to the loop over the lease files, on a
    router without the [dhcp] namespace. *)
Lemma leases_try_unfold (w : World V) v0 v1 files v2 :
  ubus_enter ubus (router w) = (Ret tt, v0) ->
  ubus_contains ubus "dhcp" v0 = (Ret false, v1) ->
  lease_files_found ubus self v1 files v2 ->
  leases_try ubus self (∅, w)
  = (let '(r, s') :=
       bind (for_each files (fun lease_file =>
               bind (in_frame (_get_dnsmasq_leases ubus lease_file))
                 (fun parsed => set_local (fun leases => (IsLease <$> parsed) ∪ leases))))
            (fun _ => in_frame (_LOGGER_debug "Found %s leases: %s"))
            (∅, mkWorld v2 (log w)) in
     match in_frame (call (ubus_exit ubus)) s' with
     | (Ret _, s'') => (r, s'')
     | (Raise e, s'') => (Raise e, s'')
     end).
Proof.
  intros He Hc Hf.
  unfold leases_try, with_ubus.
  unfold bind at 1, in_frame at 1, call at 1. rewrite He. cbv beta iota.
  unfold bind at 1, in_frame at 1, call at 1. simpl. rewrite Hc. cbv beta iota.
  unfold bind at 1, ret at 1. cbv beta iota.
  unfold bind at 1. rewrite (lease_files_step _ _ _ _ _ Hf). reflexivity.
Qed.

Lemma leases_try_stops (w : World V) v0 v1 done bad rest v2 texts v3 e v4 v5 :
  ubus_enter ubus (router w) = (Ret tt, v0) ->
  ubus_contains ubus "dhcp" v0 = (Ret false, v1) ->
  lease_files_found ubus self v1 (done ++ bad :: rest) v2 ->
  file_reads ubus done v2 = (Ret texts, v3) ->
  Forall five_fields (concat (splitlines <$> texts)) ->
  _get_dnsmasq_leases ubus bad (mkWorld v3 (log w)) = (Raise e, mkWorld v4 (log w)) ->
  ubus_exit ubus v4 = (Ret tt, v5) ->
  leases_try ubus self (∅, w)
  = (Raise e,
     (IsLease <$> fold_left insert_line (concat (splitlines <$> texts)) ∅,
      mkWorld v5 (log w))).
Proof.
  intros He Hc Hf Hr Hfive Hbad Hx.
  rewrite (leases_try_unfold w v0 v1 _ v2 He Hc Hf).
  unfold bind at 1. rewrite for_each_app. unfold bind at 1.
  rewrite (lease_files_loop done texts ∅ v2 v3 (log w) Hr Hfive).
  rewrite (right_id ∅ (∪)).
  simpl for_each. unfold bind at 1, bind at 1, in_frame at 1.
  rewrite Hbad. cbv beta iota.
  unfold in_frame, call. simpl. by rewrite Hx.
Qed.

Lemma leases_try_completes (w : World V) v0 v1 files v2 texts v3 v4 :
  ubus_enter ubus (router w) = (Ret tt, v0) ->
  ubus_contains ubus "dhcp" v0 = (Ret false, v1) ->
  lease_files_found ubus self v1 files v2 ->
  file_reads ubus files v2 = (Ret texts, v3) ->
  Forall five_fields (concat (splitlines <$> texts)) ->
  ubus_exit ubus v3 = (Ret tt, v4) ->
  leases_try ubus self (∅, w)
  = (Ret tt,
     (IsLease <$> fold_left insert_line (concat (splitlines <$> texts)) ∅,
      mkWorld v4 ((DEBUG, "Found %s leases: %s"%string) :: log w))).
Proof.
  intros He Hc Hf Hr Hfive Hx.
  rewrite (leases_try_unfold w v0 v1 _ v2 He Hc Hf).
  unfold bind at 1.
  rewrite (lease_files_loop files texts ∅ v2 v3 (log w) Hr Hfive).
  rewrite (right_id ∅ (∪)).
  unfold in_frame, call, _LOGGER_debug, _LOGGER_log, modify. simpl. by rewrite Hx.
Qed.

(** What the parsed leases are, in terms of the lines read. *)
Lemma parsed_origin lines k l :
  fold_left insert_line lines ∅ !! k = Some l ->
  exists line, In line lines /\
    split " " line = [expires l; mac l; ip l; hostname l; client_id l] /\
    k = upper (mac l).
Proof.
  intros Hk.
  destruct (UbusFacts.fold_insert_line_origin _ _ _ _ Hk) as [He|(line & Hin & Hl & ->)].
  - by rewrite lookup_empty in He.
  - exists line. split; [done|]. split; [|done]. by apply UbusFacts.Lease_new_Ret.
Qed.

Lemma parsed_last before line after l :
  split " " line = [expires l; mac l; ip l; hostname l; client_id l] ->
  Forall (fun line' => lease_key line' <> upper (mac l)) after ->
  fold_left insert_line (before ++ line :: after) ∅ !! upper (mac l) = Some l.
Proof.
  destruct l as [e m i h c]. simpl. intros Hl Hafter.
  rewrite fold_left_app. simpl.
  rewrite UbusFacts.fold_insert_line_other by done.
  unfold insert_line. rewrite Hl. simpl. apply lookup_insert_eq.
Qed.

Lemma parsed_absent lines k :
  Forall (fun line => lease_key line <> k) lines ->
  fold_left insert_line lines ∅ !! k = None.
Proof.
  intros H. rewrite UbusFacts.fold_insert_line_other by done. apply lookup_empty.
Qed.

(** C4, as amended.  A [UbusException] raised while the association list
    of an interface or a lease file is read is caught and logged as an
    error, and the method returns what it had gathered before:
    [_get_connected_devices] the records of the interfaces that answered
    before the failing one, each under its [mac], a later record replacing
    an earlier one; [_get_leases], on a router without the [dhcp]
    namespace, the leases of the lines of the lease files read before the
    failing one, each under its uppercased hardware address, a later line
    replacing an earlier one.  Both return the empty dict when the session
    cannot be entered.  No [UbusException] leaves
    [_get_connected_devices], [_get_leases], [scan_devices] or
    [get_device_name]. *)
Theorem vendor_exception_keeps_what_was_read (w : World V) :
  (forall done bad rest v0 answers v1 msg v2 v3,
      _wlan_ifaces self = done ++ bad :: rest ->
      ubus_enter ubus (router w) = (Ret tt, v0) ->
      assoclists ubus done v0 = (Ret answers, v1) ->
      Forall (Forall (fun x : gmap string string => is_Some (x !! "mac"%string))) answers ->
      iwinfo_assoclist ubus bad v1 = (Raise (UbusException msg), v2) ->
      ubus_exit ubus v2 = (Ret tt, v3) ->
      exists clients,
        _get_connected_devices ubus self w =
          (Ret clients,
           mkWorld v3 ((ERROR, "Unable to read connected devices: %s"%string) :: log w)) /\
        (forall k x, clients !! k = Some x ->
           In x (concat answers) /\ x !! "mac"%string = Some k) /\
        (forall before x after k,
           concat answers = before ++ x :: after ->
           x !! "mac"%string = Some k ->
           Forall (fun y : gmap string string => y !! "mac"%string <> Some k) after ->
           clients !! k = Some x))
  /\ (forall v0 v1 done bad rest v2 texts v3 msg v4 v5,
      ubus_enter ubus (router w) = (Ret tt, v0) ->
      ubus_contains ubus "dhcp" v0 = (Ret false, v1) ->
      lease_files_found ubus self v1 (done ++ bad :: rest) v2 ->
      file_reads ubus done v2 = (Ret texts, v3) ->
      Forall five_fields (concat (splitlines <$> texts)) ->
      file_read ubus bad v3 = (Raise (UbusException msg), v4) ->
      ubus_exit ubus v4 = (Ret tt, v5) ->
      exists parsed,
        _get_leases ubus self w =
          (Ret (IsLease <$> parsed),
           mkWorld v5 ((ERROR, "Unable to read leases from ubus: %s"%string) :: log w)) /\
        (forall k l, parsed !! k = Some l ->
           exists line, In line (concat (splitlines <$> texts)) /\
             split " " line = [expires l; mac l; ip l; hostname l; client_id l] /\
             k = upper (mac l)) /\
        (forall before line after l,
           concat (splitlines <$> texts) = before ++ line :: after ->
           split " " line = [expires l; mac l; ip l; hostname l; client_id l] ->
           Forall (fun line' => lease_key line' <> upper (mac l)) after ->
           parsed !! upper (mac l) = Some l))
  /\ (forall msg v',
      ubus_enter ubus (router w) = (Raise (UbusException msg), v') ->
      _get_connected_devices ubus self w =
        (Ret ∅, mkWorld v' ((ERROR, "Unable to read connected devices: %s"%string) :: log w)) /\
      _get_leases ubus self w =
        (Ret ∅, mkWorld v' ((ERROR, "Unable to read leases from ubus: %s"%string) :: log w)))
  /\ (forall msg mac,
      fst (_get_connected_devices ubus self w) <> Raise (UbusException msg) /\
      fst (_get_leases ubus self w) <> Raise (UbusException msg) /\
      fst (scan_devices ubus self w) <> Raise (UbusException msg) /\
      fst (get_device_name ubus self mac w) <> Raise (UbusException msg)).
Proof.
  split; [|split; [|split]].
  - intros done bad rest v0 answers v1 msg v2 v3 Hif He Ha Hmac Hbad Hx.
    exists (store_by_mac ∅ (concat answers)). split; [|split].
    + unfold _get_connected_devices. rewrite UbusFacts.try_ubus_caught.
      by rewrite (connected_devices_try_stops w _ _ _ _ _ _ _ _ _ Hif He Ha Hmac Hbad Hx).
    + intros k x Hk. destruct (store_by_mac_origin _ _ _ _ Hk) as [He0|H]; [|done].
      by rewrite lookup_empty in He0.
    + intros before x after k -> Hxm Hafter. by apply store_by_mac_last.
  - intros v0 v1 done bad rest v2 texts v3 msg v4 v5 He Hc Hf Hr Hfive Hbad Hx.
    exists (fold_left insert_line (concat (splitlines <$> texts)) ∅). split; [|split].
    + unfold _get_leases. rewrite UbusFacts.try_ubus_caught.
      rewrite (leases_try_stops w v0 v1 done bad rest v2 texts v3
                 (UbusException msg) v4 v5 He Hc Hf Hr Hfive); [done| |done].
      unfold _get_dnsmasq_leases, with_locals, bind at 1, in_frame, call. simpl.
      by rewrite Hbad.
    + intros k l. apply parsed_origin.
    + intros before line after l -> Hl Hafter. by apply parsed_last.
  - intros msg v' He. split.
    + unfold _get_connected_devices. rewrite UbusFacts.try_ubus_caught.
      unfold connected_devices_try, bind at 1.
      by rewrite (UbusFacts.with_ubus_enter_fails _ _ _ _ _ _ He).
    + unfold _get_leases. rewrite UbusFacts.try_ubus_caught.
      unfold leases_try. by rewrite (UbusFacts.with_ubus_enter_fails _ _ _ _ _ _ He).
  - intros msg address. split; [|split; [|split]].
    + apply UbusFacts.try_ubus_not_raised.
    + apply UbusFacts.try_ubus_not_raised.
    + unfold scan_devices, bind.
      pose proof (UbusFacts.try_ubus_not_raised (connected_devices_try ubus self)
                    "Unable to read connected devices: %s" ∅ w msg) as Hn.
      fold (_get_connected_devices ubus self) in Hn.
      destruct (_get_connected_devices ubus self w) as [[c|e] w']; simpl in *; [done|].
      intros [= ->]. by apply Hn.
    + unfold get_device_name, bind.
      pose proof (UbusFacts.try_ubus_not_raised (leases_try ubus self)
                    "Unable to read leases from ubus: %s" ∅ w msg) as Hn.
      fold (_get_leases ubus self) in Hn.
      destruct (_get_leases ubus self w) as [[d|e] w']; simpl in *.
      * destruct (d !! address) as [[l|vl]|]; simpl; done.
      * intros [= ->]. by apply Hn.
Qed.


End Scanner.
End GatheringFacts.

(* ===================================================================== *)
(** * Further properties of the vacuum and of the switch *)
(* ===================================================================== *)

Module EntityFacts.
Import Py Miio Invariants.

Module OfVacuum.
Import Vacuum.

(** ** Presets *)

Lemma fold_reverse_origin (presets : list (string * Z)) (acc : gmap Z string) speed name :
  fold_left (fun acc item => <[item.2 := item.1]> acc) presets acc !! speed = Some name ->
  acc !! speed = Some name \/ (name, speed) ∈ presets.
Proof.
  revert acc. induction presets as [|[n v] presets IH]; intros acc; simpl; [by left|].
  intros H. destruct (IH _ H) as [Ha|Hin]; [|right; by right].
  destruct (decide (v = speed)) as [->|Hne].
  - rewrite lookup_insert_eq in Ha. injection Ha as ->. right. left.
  - rewrite lookup_insert_ne in Ha by done. by left.
Qed.

Lemma dict_get_listed {A} (d : list (string * A)) name :
  name ∈ d.*1 -> is_Some (dict_get d name).
Proof.
  induction d as [|[k v] d IH]; simpl.
  - intros H. by apply elem_of_nil in H.
  - intros H. destruct (decide (k = name)) as [->|Hne]; [by eexists|].
    apply elem_of_cons in H as [->|H]; [done|]. by apply IH.
Qed.

(** X14.  For an entity as [__init__] builds it, [fan_speed] is "Custom"
    or a name of [fan_speed_list] whose preset speed is the reported
    speed. *)
Theorem fan_speed_is_listed_or_custom (presets : list (string * Z)) (stored : option string)
        (status : VacuumStatus) :
  let self := mkVacuum presets (presets_reverse presets) stored in
  fan_speed self status = "Custom"%string \/
  (fan_speed self status ∈ fan_speed_list self /\
   (fan_speed self status, fanspeed status) ∈ presets).
Proof.
  simpl. unfold fan_speed, fan_speed_list, presets_reverse. simpl.
  destruct (fold_left _ presets ∅ !! fanspeed status) as [name|] eqn:E; simpl; [|by left].
  right. apply fold_reverse_origin in E as [E|E]; [by rewrite lookup_empty in E|].
  split; [|done]. apply list_elem_of_fmap. by exists (name, fanspeed status).
Qed.

(** X15.  When several presets have the reported speed, [fan_speed] is
    the name of the last of them in the order of the presets. *)
Theorem fan_speed_last_preset_wins (before after : list (string * Z)) name speed
        (stored : option string) (status : VacuumStatus) :
  let presets := before ++ (name, speed) :: after in
  let self := mkVacuum presets (presets_reverse presets) stored in
  speed ∉ after.*2 ->
  fanspeed status = speed ->
  fan_speed self status = name.
Proof.
  simpl. intros Hlast <-. unfold fan_speed, presets_reverse. simpl.
  rewrite fold_left_app. simpl.
  rewrite VacuumFacts.fold_reverse_absent.
  - by rewrite lookup_insert_eq.
  - intros n Hin. apply Hlast. apply list_elem_of_fmap. by exists (n, fanspeed status).
Qed.

Section Entity.
Context {float Params D : Type} `{HassStates}.
Variable sdk : Device float Params D.
Variable int : string -> Outcome Z.

Local Abbreviation VWorld := (World MiroboVacuum VacuumStatus D (command float Params)).

(** X13.  [_handle_coordinator_update] always returns and leaves the
    coordinator data alone, and right after it the [state] property is the
    stored display state, for every reported state: the override for Error
    in [state] agrees with the table. *)
Theorem state_agrees_after_update (w : VWorld) :
  let w' := snd (_handle_coordinator_update w) in
  fst (_handle_coordinator_update w) = Ret tt /\
  data w' = data w /\
  state (entity w') (data w') = _state (entity w').
Proof.
  rewrite VacuumFacts.update_effect. simpl. repeat split.
  unfold state. simpl.
  destruct (decide (vacuum_state (data w) = Error)) as [->|]; [|done].
  reflexivity.
Qed.

Lemma refresh_keeps (w : VWorld) :
  exists stored c n,
    async_refresh sdk w =
      (Ret tt,
       mkWorld (mkVacuum (_fan_speed_presets (entity w)) (_fan_speed_presets_reverse (entity w))
                         stored)
               c (snd (poll sdk (device w))) (log w) (sdk_calls w) n).
Proof.
  unfold async_refresh. destruct (poll sdk (device w)) as [polled d].
  rewrite VacuumFacts.update_effect. simpl. eauto.
Qed.

Lemma try_command_same_presets mask func (w : VWorld) :
  same_presets w (snd (_try_command sdk mask func w)).
Proof.
  unfold _try_command, try_except, bind, async_add_executor_job. cbv beta.
  destruct (run sdk func (device w)) as [[[]|ex] d].
  - match goal with |- context [async_refresh sdk ?w1] =>
      destruct (refresh_keeps w1) as (st & c & n & ->) end.
    by split.
  - by destruct (is_DeviceException ex).
Qed.

Lemma via_try_command_same_presets mask func (w : VWorld) :
  same_presets w (snd (bind (_try_command sdk mask func) (fun _ => ret tt) w)).
Proof.
  pose proof (try_command_same_presets mask func w) as Hs.
  unfold bind. by destruct (_try_command sdk mask func w) as [[b|e] w1].
Qed.

(** X17.  No command handler, no coordinator update and no refresh changes
    the presets of the entity or their reverse mapping.  (The refresh is
    the host framework's, as modelled: it reaches the entity only through
    [_handle_coordinator_update].) *)
Theorem presets_are_never_changed (w : VWorld) :
  (forall svc, same_presets w (snd (handler sdk int svc w))) /\
  same_presets w (snd (_handle_coordinator_update w)) /\
  same_presets w (snd (async_refresh sdk w)).
Proof.
  split; [|split].
  - intros svc.
    destruct svc as [| | |fs| | | |? ?| | |? ? ?|? ? ?|? ?|?|? ?];
      try apply via_try_command_same_presets.
    + simpl. rewrite VacuumFacts.set_fan_speed_cases.
      destruct (dict_get _ fs); [apply via_try_command_same_presets|].
      destruct (int fs) as [n|ex]; [apply via_try_command_same_presets|].
      by destruct (is_ValueError ex).
    + simpl. unfold async_clean_zone, try_except, bind, _LOGGER_debug, _LOGGER_error,
        _LOGGER_log, modify, async_add_executor_job.
      cbv beta iota. simpl.
      destruct (run sdk _ (device w)) as [[[]|ex] d].
      * match goal with |- context [async_refresh sdk ?w1] =>
          destruct (refresh_keeps w1) as (st & c & n & ->) end.
        by split.
      * by destruct (is_OSError ex || is_DeviceException ex).
  - by rewrite VacuumFacts.update_effect.
  - destruct (refresh_keeps w) as (st & c & n & ->). by split.
Qed.

Lemma try_command_issued mask func (w : VWorld) :
  sdk_calls (snd (bind (_try_command sdk mask func) (fun _ => ret tt) w)) =
  (func, fst (run sdk func (device w))) :: sdk_calls w.
Proof.
  pose proof (VacuumFacts.try_command_cases sdk mask func w) as Hc.
  unfold bind.
  destruct (run sdk func (device w)) as [[[]|ex] d].
  - by destruct Hc as (e & c' & d' & n & ->).
  - rewrite Hc. by destruct (is_DeviceException ex).
Qed.

(** X16.  Round trip by name.  For an entity as [__init__] builds it,
    with pairwise distinct preset speeds: [async_set_fan_speed] with a name
    of [fan_speed_list] issues [set_fan_speed] with some speed, whatever
    [int] would make of the name, and whenever the device reports that
    speed the entity, as the command left it, gives the name back as
    [fan_speed].  (On success the command ends with the host framework's
    refresh, as modelled.) *)
Theorem fan_speed_name_round_trip (w : VWorld) name :
  _fan_speed_presets_reverse (entity w) = presets_reverse (_fan_speed_presets (entity w)) ->
  NoDup (_fan_speed_presets (entity w)).*2 ->
  name ∈ fan_speed_list (entity w) ->
  let w' := snd (async_set_fan_speed sdk int name w) in
  exists speed,
    sdk_calls w' =
      (set_fan_speed speed, fst (run sdk (set_fan_speed speed) (device w))) :: sdk_calls w /\
    forall status, fanspeed status = speed -> fan_speed (entity w') status = name.
Proof.
  intros Hrev Hnd Hin. simpl.
  destruct (dict_get_listed _ _ Hin) as [speed Hs].
  exists speed. rewrite VacuumFacts.set_fan_speed_cases, Hs. split.
  - apply try_command_issued.
  - intros status <-. unfold fan_speed.
    destruct (via_try_command_same_presets "Unable to set fan speed: %s"
                (set_fan_speed (fanspeed status)) w) as [_ ->].
    rewrite Hrev. unfold presets_reverse.
    by rewrite (VacuumFacts.fold_reverse_present _ _ name)
      by eauto using VacuumFacts.dict_get_elem_of.
Qed.


(** What the in-place appends of the loop leave in each object. *)
Lemma fold_list_append (items : list nat) (objects : nat -> list Z) (x : Z) (j : nat) :
  fold_left (fun objects _zone => list_append objects _zone x) items objects j
  = objects j ++ replicate (times_held j items) x.
Proof.
  revert objects. induction items as [|i items IH]; intros objects; simpl.
  - unfold times_held. simpl. by rewrite app_nil_r.
  - rewrite IH. unfold list_append, times_held.
    destruct (decide (j = i)) as [->|Hne].
    + rewrite filter_cons_True by done. simpl. by rewrite <- app_assoc.
    + rewrite filter_cons_False by (intros ->; done). done.
Qed.

Lemma times_held_absent (items : list nat) (i : nat) :
  i ∉ items -> times_held i items = 0.
Proof.
  unfold times_held. induction items as [|k items IH]; intros Hin; [done|].
  apply not_elem_of_cons in Hin as [Hne Hin].
  rewrite filter_cons_False by (intros ->; done). by apply IH.
Qed.

Lemma times_held_NoDup (items : list nat) (i : nat) :
  NoDup items -> i ∈ items -> times_held i items = 1.
Proof.
  induction 1 as [|k items Hk Hnd IH]; intros Hin.
  - by apply elem_of_nil in Hin.
  - apply elem_of_cons in Hin as [->|Hin].
    + pose proof (times_held_absent _ _ Hk) as H0. unfold times_held in *.
      rewrite filter_cons_True by done. simpl. by rewrite H0.
    + assert (Hne : k <> i) by (intros ->; done).
      specialize (IH Hin). unfold times_held in *.
      by rewrite filter_cons_False by done.
Qed.

(** X19.  [async_clean_zone] issues exactly one SDK call, [zoned_clean],
    with as many zones as its list has positions.  The zone sent for a
    position is the contents of the list object held there, followed by
    [repeats] once for every position of the list that holds that object:
    the loop appends in place.  So when no object is held twice, every
    zone is sent followed by [repeats] once, and zones of four coordinates
    are sent as five values ending in [repeats]; an object held at two
    positions is sent with [repeats] twice, at both.  (The poll of the
    refresh that follows is the coordinator's, not a call of the
    handler.) *)
Theorem clean_zone_appends_repeats zone repeats (w : VWorld) :
  exists sent,
    sdk_calls (snd (async_clean_zone sdk zone repeats w)) =
      (zoned_clean sent, fst (run sdk (zoned_clean sent) (device w))) :: sdk_calls w /\
    length sent = length (zone_items zone) /\
    (forall p i, zone_items zone !! p = Some i ->
       sent !! p = Some (zone_objects zone i
                           ++ replicate (times_held i (zone_items zone)) repeats)) /\
    (NoDup (zone_items zone) ->
       (forall p i, zone_items zone !! p = Some i ->
          sent !! p = Some (zone_objects zone i ++ [repeats])) /\
       (forall n, Forall (fun i => length (zone_objects zone i) = n) (zone_items zone) ->
                  Forall (fun z => length z = S n /\ last z = Some repeats) sent)).
Proof.
  set (objects := fold_left (fun objects _zone => list_append objects _zone repeats)
                            (zone_items zone) (zone_objects zone)).
  assert (Hsent : forall p i, zone_items zone !! p = Some i ->
            zone_values objects (zone_items zone) !! p
            = Some (zone_objects zone i
                      ++ replicate (times_held i (zone_items zone)) repeats)).
  { intros p i Hp. unfold zone_values. rewrite list_lookup_fmap, Hp. simpl.
    unfold objects. by rewrite fold_list_append. }
  exists (zone_values objects (zone_items zone)). split; [|split; [|split]].
  - unfold async_clean_zone, try_except, bind, _LOGGER_debug, _LOGGER_error,
      _LOGGER_log, modify, async_add_executor_job.
    cbv beta iota. simpl. fold objects.
    destruct (run sdk _ (device w)) as [[[]|ex] d].
    + match goal with |- context [async_refresh sdk ?w1] =>
        destruct (refresh_keeps w1) as (st & c' & n & ->) end.
      done.
    + by destruct (is_OSError ex || is_DeviceException ex).
  - unfold zone_values. apply length_fmap.
  - exact Hsent.
  - intros Hnd.
    assert (Hone : forall p i, zone_items zone !! p = Some i ->
              zone_values objects (zone_items zone) !! p
              = Some (zone_objects zone i ++ [repeats])).
    { intros p i Hp. rewrite (Hsent p i Hp).
      rewrite (times_held_NoDup _ _ Hnd) by (by eapply list_elem_of_lookup_2). done. }
    split; [exact Hone|].
    intros n Hf. apply Forall_lookup. intros p z Hz.
    destruct (zone_items zone !! p) as [i|] eqn:Hp.
    + rewrite (Hone p i Hp) in Hz. injection Hz as <-.
      rewrite length_app, last_snoc. simpl.
      rewrite Forall_lookup in Hf. rewrite (Hf p i Hp). split; [lia|done].
    + unfold zone_values in Hz. rewrite list_lookup_fmap, Hp in Hz. done.
Qed.

End Entity.

End OfVacuum.

Module OfSwitch.
Import Switch.

Section Entity.
Context {C D : Type}.
Variable _setter : bool -> M D unit.

Local Abbreviation SWorld := (World XiaomiSwitch C D bool).


End Entity.

End OfSwitch.

End EntityFacts.

(* ===================================================================== *)
(** * The further properties on the concrete scenario *)
(* ===================================================================== *)

Module ScannerCases.
Import Py Ubus Invariants.

(** The routers that answer, refuse the session, hang up and do not list
    their radios. *)
Lemma network_interfaces_all_or_nothing_witness :
  let fmt := "Unable to read network interfaces from ubus,check your configuration: %s"%string in
  _get_network_interfaces Scenario.router Scenario.quiet
    = (Ret ["wlan0"; "wlan1"]%string, Scenario.quiet) /\
  _get_network_interfaces Scenario.unreachable_router Scenario.quiet
    = (Ret [], mkWorld tt [(ERROR, fmt)]) /\
  _get_network_interfaces Scenario.hanging_router Scenario.quiet
    = (Ret [], mkWorld tt [(ERROR, fmt)]) /\
  _get_network_interfaces Scenario.deaf_router Scenario.quiet
    = (Ret [], mkWorld tt [(ERROR, fmt)]).
Proof.
  pose (T := fun r => ScannerFacts.network_interfaces_all_or_nothing r Scenario.quiet).
  simpl. split; [|split; [|split]].
  - exact (proj1 (proj2 (proj2 (T Scenario.router))) tt _ tt tt eq_refl eq_refl eq_refl).
  - exact (proj1 (proj2 (T Scenario.unreachable_router)) _ tt eq_refl).
  - exact (proj1 (proj2 (proj2 (proj2 (T Scenario.hanging_router))))
             tt _ tt _ tt eq_refl eq_refl eq_refl).
  - exact (proj2 (proj2 (proj2 (proj2 (T Scenario.deaf_router))))
             tt _ tt tt eq_refl eq_refl eq_refl).
Defined.

(** odhcpd with one device and one interface. *)
Lemma odhcpd_returns_last_bound_witness :
  dhcp_leases Scenario.odhcpd_router "ipv4leases" (router Scenario.quiet)
    = (Ret Scenario.odhcpd_ipv4, tt) /\
  dhcp_leases Scenario.odhcpd_router "ipv6leases" tt = (Ret [], tt) /\
  exists new,
    _get_odhcpd_leases Scenario.odhcpd_router Scenario.quiet =
      (Ret (match last (concat (Scenario.odhcpd_ipv4 ++ [])) with
            | Some (_, leases) => OdhcpdList <$> leases
            | None => ∅
            end),
       mkWorld tt (new ++ log Scenario.quiet)) /\
    Forall (fun r : LogRecord => r.1 = WARNING) new /\ new <> [] /\
    forall k v,
      last_bound (concat (Scenario.odhcpd_ipv4 ++ [])) ∅ !! k = Some v ->
      exists vlist, v = OdhcpdList vlist.
Proof.
  split; [reflexivity|]. split; [reflexivity|].
  exact (ScannerFacts.odhcpd_returns_last_bound Scenario.odhcpd_router Scenario.quiet
           Scenario.odhcpd_ipv4 tt [] tt eq_refl eq_refl).
Defined.

(** Two sections with a lease file; a section without. *)
Lemma lease_files_from_sections_witness :
  (uci_get Scenario.router "dhcp" "dnsmasq" (router Scenario.quiet)
     = (Ret [ <["leasefile"%string := "/tmp/dhcp.leases"%string]> ∅;
              <["leasefile"%string := "/tmp/guest.leases"%string]> ∅ ], tt) /\
   _get_lease_files Scenario.router Scenario.quiet
     = (Ret ["/tmp/dhcp.leases"; "/tmp/guest.leases"]%string, Scenario.quiet)) /\
  (uci_get Scenario.headless_router "dhcp" "dnsmasq" (router Scenario.quiet)
     = (Ret [ <["leasefile"%string := "/tmp/dhcp.leases"%string]> ∅;
              <["domain"%string := "lan"%string]> ∅ ], tt) /\
   _get_lease_files Scenario.headless_router Scenario.quiet
     = (Raise (KeyError "leasefile"), Scenario.quiet)).
Proof.
  split.
  - split; [reflexivity|].
    refine (proj1 (ScannerFacts.lease_files_from_sections Scenario.router Scenario.quiet
                     _ tt eq_refl) _ _).
    repeat constructor.
  - split; [reflexivity|].
    refine (proj2 (ScannerFacts.lease_files_from_sections Scenario.headless_router
                     Scenario.quiet _ tt eq_refl) _).
    apply Exists_cons_tl, Exists_cons_hd. reflexivity.
Defined.

(** The two-lease file. *)
Lemma dnsmasq_leases_need_four_spaces_witness :
  file_read Scenario.router "/tmp/dhcp.leases" (router Scenario.quiet)
    = (Ret Scenario.lease_text, tt) /\
  (Forall (fun line => count_char " " line = 4) (splitlines Scenario.lease_text) <->
     exists leases,
       _get_dnsmasq_leases Scenario.router "/tmp/dhcp.leases" Scenario.quiet
         = (Ret leases, mkWorld tt (log Scenario.quiet)))
  /\ (Exists (fun line => count_char " " line <> 4) (splitlines Scenario.lease_text) <->
     exists msg,
       _get_dnsmasq_leases Scenario.router "/tmp/dhcp.leases" Scenario.quiet
         = (Raise (TypeError msg), mkWorld tt (log Scenario.quiet))).
Proof.
  split; [reflexivity|].
  exact (ScannerFacts.dnsmasq_leases_need_four_spaces Scenario.router "/tmp/dhcp.leases"
           Scenario.quiet Scenario.lease_text tt eq_refl).
Defined.

(** The leases of the two-lease file. *)
Lemma lease_fields_have_no_separators_witness :
  _get_dnsmasq_leases Scenario.router "/tmp/dhcp.leases" Scenario.quiet
    = (Ret (<["AA:BB:CC:DD:EE:FF"%string := Scenario.laptop]>
            (<["11:22:33:44:55:66"%string := Scenario.phone]> ∅)), Scenario.quiet) /\
  forall k l,
    (<["AA:BB:CC:DD:EE:FF"%string := Scenario.laptop]>
     (<["11:22:33:44:55:66"%string := Scenario.phone]> ∅) : gmap string Lease) !! k = Some l ->
    clean_field (expires l) /\ clean_field (mac l) /\ clean_field (ip l) /\
    clean_field (hostname l) /\ clean_field (client_id l).
Proof.
  assert (H0 : _get_dnsmasq_leases Scenario.router "/tmp/dhcp.leases" Scenario.quiet
    = (Ret (<["AA:BB:CC:DD:EE:FF"%string := Scenario.laptop]>
            (<["11:22:33:44:55:66"%string := Scenario.phone]> ∅)), Scenario.quiet))
    by (vm_compute; reflexivity).
  split; [exact H0|].
  exact (ScannerFacts.lease_fields_have_no_separators Scenario.router _ _ _ _ H0).
Defined.

(** The router of the scenario has no odhcpd. *)
Lemma dnsmasq_leases_answer_uppercase_queries_only_witness :
  (forall v, fst (ubus_contains Scenario.router "dhcp" v) <> Ret true) /\
  _get_leases Scenario.router Scenario.scanner_with_file Scenario.quiet
    = (Ret Scenario.known_leases, mkWorld tt [(DEBUG, "Found %s leases: %s"%string)]) /\
  (forall k v, Scenario.known_leases !! k = Some v ->
     exists l, v = IsLease l /\ k = upper (mac l)) /\
  (forall address, upper address <> address ->
     get_device_name Scenario.router Scenario.scanner_with_file address Scenario.quiet
       = (Ret None, mkWorld tt [(DEBUG, "Found %s leases: %s"%string)])) /\
  (forall address, exists answer,
     get_device_name Scenario.router Scenario.scanner_with_file address Scenario.quiet
       = (Ret answer, mkWorld tt [(DEBUG, "Found %s leases: %s"%string)]) /\
     forall name, answer = Some name ->
       exists l, Scenario.known_leases !! address = Some (IsLease l) /\
                 upper (mac l) = address /\ hostname l = name).
Proof.
  assert (H1 : forall v, fst (ubus_contains Scenario.router "dhcp" v) <> Ret true)
    by (intros v; discriminate).
  assert (H2 : _get_leases Scenario.router Scenario.scanner_with_file Scenario.quiet
    = (Ret Scenario.known_leases, mkWorld tt [(DEBUG, "Found %s leases: %s"%string)]))
    by (vm_compute; reflexivity).
  split; [exact H1|]. split; [exact H2|].
  exact (ScannerFacts.dnsmasq_leases_answer_uppercase_queries_only Scenario.router
           Scenario.scanner_with_file Scenario.quiet _ _ H1 H2).
Defined.

(** The lease file with an empty line. *)
Lemma malformed_lease_line_reaches_caller_witness :
  lease_file Scenario.scanner_with_file = Some "/tmp/dhcp.leases"%string /\
  file_read Scenario.blank_line_router "/tmp/dhcp.leases" tt
    = (Ret Scenario.blank_line_text, tt) /\
  Exists (fun line => count_char " " line <> 4) (splitlines Scenario.blank_line_text) /\
  exists msg,
    _get_leases Scenario.blank_line_router Scenario.scanner_with_file Scenario.quiet
      = (Raise (TypeError msg), mkWorld tt (log Scenario.quiet)) /\
    get_device_name Scenario.blank_line_router Scenario.scanner_with_file
                    "AA:BB:CC:DD:EE:FF" Scenario.quiet
      = (Raise (TypeError msg), mkWorld tt (log Scenario.quiet)).
Proof.
  assert (H3 : Exists (fun line => count_char " " line <> 4)
                      (splitlines Scenario.blank_line_text)).
  { assert (Hs : splitlines Scenario.blank_line_text =
      ["1700000000 aa:bb:cc:dd:ee:ff 192.168.1.2 laptop 01:aa:bb:cc:dd:ee:ff"; "";
       "1700000500 11:22:33:44:55:66 192.168.1.3 phone *"]%string)
      by (vm_compute; reflexivity).
    rewrite Hs. apply Exists_cons_tl, Exists_cons_hd. simpl. discriminate. }
  split; [reflexivity|]. split; [reflexivity|]. split; [exact H3|].
  exact (ScannerFacts.malformed_lease_line_reaches_caller Scenario.blank_line_router
           Scenario.scanner_with_file Scenario.quiet "/tmp/dhcp.leases" tt tt
           Scenario.blank_line_text tt tt "AA:BB:CC:DD:EE:FF"
           eq_refl eq_refl eq_refl eq_refl H3 eq_refl).
Defined.

(** The key [leases] of the dict odhcpd answered. *)
Lemma odhcpd_entry_breaks_get_device_name_witness :
  lease_file Scenario.scanner = None /\
  ubus_contains Scenario.odhcpd_router "dhcp" tt = (Ret true, tt) /\
  last_bound (concat (Scenario.odhcpd_ipv4 ++ [])) ∅ !! "leases"%string
    = Some (OdhcpdList ["192.168.1.7 tablet"%string]) /\
  exists w',
    _get_leases Scenario.odhcpd_router Scenario.scanner Scenario.quiet
      = (Ret (last_bound (concat (Scenario.odhcpd_ipv4 ++ [])) ∅), w') /\
    get_device_name Scenario.odhcpd_router Scenario.scanner "leases" Scenario.quiet
      = (Raise (AttributeError "hostname"), w').
Proof.
  assert (H3 : last_bound (concat (Scenario.odhcpd_ipv4 ++ [])) ∅ !! "leases"%string
    = Some (OdhcpdList ["192.168.1.7 tablet"%string])) by reflexivity.
  split; [reflexivity|]. split; [reflexivity|]. split; [exact H3|].
  exact (ScannerFacts.odhcpd_entry_breaks_get_device_name Scenario.odhcpd_router
           Scenario.scanner Scenario.quiet tt tt Scenario.odhcpd_ipv4 tt [] tt tt tt
           "leases" _ eq_refl eq_refl eq_refl eq_refl eq_refl eq_refl eq_refl H3).
Defined.

(** The scan of the scenario. *)
Lemma scan_devices_ids_are_mac_attributes_witness :
  scan_devices Scenario.router Scenario.scanner Scenario.quiet
    = (Ret ["AA:BB:CC:DD:EE:FF"%string],
       mkWorld tt [(ERROR, "Unable to read connected devices: %s"%string)]) /\
  NoDup ["AA:BB:CC:DD:EE:FF"%string] /\
  exists clients,
    _get_connected_devices Scenario.router Scenario.scanner Scenario.quiet
      = (Ret clients, mkWorld tt [(ERROR, "Unable to read connected devices: %s"%string)]) /\
    (forall k, k ∈ ["AA:BB:CC:DD:EE:FF"%string] <-> is_Some (clients !! k)) /\
    (forall k x, clients !! k = Some x -> x !! "mac"%string = Some k).
Proof.
  assert (H0 : scan_devices Scenario.router Scenario.scanner Scenario.quiet
    = (Ret ["AA:BB:CC:DD:EE:FF"%string],
       mkWorld tt [(ERROR, "Unable to read connected devices: %s"%string)]))
    by (vm_compute; reflexivity).
  split; [exact H0|].
  exact (ScannerFacts.scan_devices_ids_are_mac_attributes Scenario.router Scenario.scanner
           Scenario.quiet _ _ H0).
Defined.

(** Both radios up: two stations, one of them on both radios. *)
Lemma scan_devices_reports_every_station_witness :
  (forall v, fst (ubus_enter Scenario.two_radio_router v) = Ret tt) /\
  (forall v, fst (ubus_exit Scenario.two_radio_router v) = Ret tt) /\
  (forall iface v, In iface (_wlan_ifaces Scenario.scanner) ->
     fst (iwinfo_assoclist Scenario.two_radio_router iface v)
       = Ret (Scenario.radio_records iface)) /\
  (forall iface x, In iface (_wlan_ifaces Scenario.scanner) ->
     In x (Scenario.radio_records iface) -> is_Some (x !! "mac"%string)) /\
  exists ids w',
    scan_devices Scenario.two_radio_router Scenario.scanner Scenario.quiet = (Ret ids, w') /\
    forall k, k ∈ ids <->
              exists iface x, In iface (_wlan_ifaces Scenario.scanner) /\
                              In x (Scenario.radio_records iface) /\
                              x !! "mac"%string = Some k.
Proof.
  assert (H1 : forall v, fst (ubus_enter Scenario.two_radio_router v) = Ret tt)
    by reflexivity.
  assert (H2 : forall v, fst (ubus_exit Scenario.two_radio_router v) = Ret tt)
    by reflexivity.
  assert (H3 : forall iface v, In iface (_wlan_ifaces Scenario.scanner) ->
     fst (iwinfo_assoclist Scenario.two_radio_router iface v)
       = Ret (Scenario.radio_records iface)) by reflexivity.
  assert (H4 : forall iface x, In iface (_wlan_ifaces Scenario.scanner) ->
     In x (Scenario.radio_records iface) -> is_Some (x !! "mac"%string)).
  { intros iface x [<-|[<-|[]]]; simpl; intros Hx;
      repeat (destruct Hx as [<-|Hx]; [by eexists|]); destruct Hx. }
  split; [exact H1|]. split; [exact H2|]. split; [exact H3|]. split; [exact H4|].
  exact (ScannerFacts.scan_devices_reports_every_station Scenario.two_radio_router
           Scenario.scanner Scenario.radio_records H1 H2 H3 H4 Scenario.quiet).
Defined.

(** A record without address on the only radio. *)
Lemma record_without_mac_reaches_caller_witness :
  _wlan_ifaces Scenario.one_radio_scanner = ["wlan0"%string] /\
  iwinfo_assoclist Scenario.anonymous_router "wlan0" tt
    = (Ret [Scenario.station; Scenario.nameless], tt) /\
  Exists (fun x : gmap string string => x !! "mac"%string = None)
         [Scenario.station; Scenario.nameless] /\
  _get_connected_devices Scenario.anonymous_router Scenario.one_radio_scanner Scenario.quiet
    = (Raise (KeyError "mac"), mkWorld tt (log Scenario.quiet)) /\
  scan_devices Scenario.anonymous_router Scenario.one_radio_scanner Scenario.quiet
    = (Raise (KeyError "mac"), mkWorld tt (log Scenario.quiet)).
Proof.
  assert (H3 : Exists (fun x : gmap string string => x !! "mac"%string = None)
                      [Scenario.station; Scenario.nameless]).
  { apply Exists_cons_tl, Exists_cons_hd. reflexivity. }
  split; [reflexivity|]. split; [reflexivity|]. split; [exact H3|].
  exact (ScannerFacts.record_without_mac_reaches_caller Scenario.anonymous_router
           Scenario.one_radio_scanner Scenario.quiet "wlan0" [] tt _ tt tt
           eq_refl eq_refl eq_refl H3 eq_refl).
Defined.

End ScannerCases.

Module GatheringCases.
Import Py Ubus Invariants.

(** The router whose second radio and second lease file cannot be read,
    and the router that refuses the session. *)
Lemma vendor_exception_keeps_what_was_read_witness :
  (_wlan_ifaces Scenario.scanner = ["wlan0"%string] ++ "wlan1"%string :: [] /\
   ubus_enter Scenario.router (router Scenario.quiet) = (Ret tt, tt) /\
   assoclists Scenario.router ["wlan0"%string] tt = (Ret [[Scenario.station]], tt) /\
   Forall (Forall (fun x : gmap string string => is_Some (x !! "mac"%string)))
          [[Scenario.station]] /\
   iwinfo_assoclist Scenario.router "wlan1" tt
     = (Raise (UbusException "Request timed out"), tt) /\
   ubus_exit Scenario.router tt = (Ret tt, tt) /\
   exists clients,
     _get_connected_devices Scenario.router Scenario.scanner Scenario.quiet =
       (Ret clients,
        mkWorld tt ((ERROR, "Unable to read connected devices: %s"%string)
                      :: log Scenario.quiet)) /\
     (forall k x, clients !! k = Some x ->
        In x (concat [[Scenario.station]]) /\ x !! "mac"%string = Some k) /\
     (forall before x after k,
        concat [[Scenario.station]] = before ++ x :: after ->
        x !! "mac"%string = Some k ->
        Forall (fun y : gmap string string => y !! "mac"%string <> Some k) after ->
        clients !! k = Some x)) /\
  (ubus_contains Scenario.router "dhcp" tt = (Ret false, tt) /\
   lease_files_found Scenario.router Scenario.scanner tt
     (["/tmp/dhcp.leases"%string] ++ "/tmp/guest.leases"%string :: []) tt /\
   file_reads Scenario.router ["/tmp/dhcp.leases"%string] tt
     = (Ret [Scenario.lease_text], tt) /\
   Forall five_fields (concat (splitlines <$> [Scenario.lease_text])) /\
   file_read Scenario.router "/tmp/guest.leases" tt
     = (Raise (UbusException "Not found"), tt) /\
   exists parsed,
     _get_leases Scenario.router Scenario.scanner Scenario.quiet =
       (Ret (IsLease <$> parsed),
        mkWorld tt ((ERROR, "Unable to read leases from ubus: %s"%string)
                      :: log Scenario.quiet)) /\
     (forall k l, parsed !! k = Some l ->
        exists line, In line (concat (splitlines <$> [Scenario.lease_text])) /\
          split " " line = [expires l; mac l; ip l; hostname l; client_id l] /\
          k = upper (mac l)) /\
     (forall before line after l,
        concat (splitlines <$> [Scenario.lease_text]) = before ++ line :: after ->
        split " " line = [expires l; mac l; ip l; hostname l; client_id l] ->
        Forall (fun line' => lease_key line' <> upper (mac l)) after ->
        parsed !! upper (mac l) = Some l)) /\
  (ubus_enter Scenario.unreachable_router (router Scenario.quiet)
     = (Raise (UbusException "Access denied"), tt) /\
   _get_connected_devices Scenario.unreachable_router Scenario.scanner Scenario.quiet =
     (Ret ∅, mkWorld tt ((ERROR, "Unable to read connected devices: %s"%string)
                           :: log Scenario.quiet)) /\
   _get_leases Scenario.unreachable_router Scenario.scanner Scenario.quiet =
     (Ret ∅, mkWorld tt ((ERROR, "Unable to read leases from ubus: %s"%string)
                           :: log Scenario.quiet))).
Proof.
  destruct (GatheringFacts.vendor_exception_keeps_what_was_read
              Scenario.router Scenario.scanner Scenario.quiet) as (Hd & Hl & _ & _).
  destruct (GatheringFacts.vendor_exception_keeps_what_was_read
              Scenario.unreachable_router Scenario.scanner Scenario.quiet)
    as (_ & _ & He & _).
  assert (H1 : _wlan_ifaces Scenario.scanner = ["wlan0"%string] ++ "wlan1"%string :: [])
    by reflexivity.
  assert (H2 : ubus_enter Scenario.router (router Scenario.quiet) = (Ret tt, tt))
    by reflexivity.
  assert (H3 : assoclists Scenario.router ["wlan0"%string] tt
               = (Ret [[Scenario.station]], tt)) by reflexivity.
  assert (H4 : Forall (Forall (fun x : gmap string string => is_Some (x !! "mac"%string)))
                      [[Scenario.station]]).
  { repeat constructor. by eexists. }
  assert (H5 : iwinfo_assoclist Scenario.router "wlan1" tt
               = (Raise (UbusException "Request timed out"), tt)) by reflexivity.
  assert (H6 : ubus_exit Scenario.router tt = (Ret tt, tt)) by reflexivity.
  assert (L1 : ubus_contains Scenario.router "dhcp" tt = (Ret false, tt)) by reflexivity.
  assert (L2 : lease_files_found Scenario.router Scenario.scanner tt
                 (["/tmp/dhcp.leases"%string] ++ "/tmp/guest.leases"%string :: []) tt).
  { eexists. split; [reflexivity|]. repeat constructor. }
  assert (L3 : file_reads Scenario.router ["/tmp/dhcp.leases"%string] tt
               = (Ret [Scenario.lease_text], tt)) by reflexivity.
  assert (L4 : Forall five_fields (concat (splitlines <$> [Scenario.lease_text])))
    by (vm_compute; repeat constructor).
  assert (L5 : file_read Scenario.router "/tmp/guest.leases" tt
               = (Raise (UbusException "Not found"), tt)) by reflexivity.
  assert (E1 : ubus_enter Scenario.unreachable_router (router Scenario.quiet)
               = (Raise (UbusException "Access denied"), tt)) by reflexivity.
  split; [|split].
  - split; [exact H1|]. split; [exact H2|]. split; [exact H3|]. split; [exact H4|].
    split; [exact H5|]. split; [exact H6|].
    exact (Hd _ _ _ _ _ _ _ _ _ H1 H2 H3 H4 H5 H6).
  - split; [exact L1|]. split; [exact L2|]. split; [exact L3|]. split; [exact L4|].
    split; [exact L5|].
    exact (Hl _ _ _ _ _ _ _ _ _ _ _ H2 L1 L2 L3 L4 L5 H6).
  - split; [exact E1|]. exact (He _ _ E1).
Defined.



End GatheringCases.

Module EntityCases.
Import Py Miio Invariants.

(** Two presets at speed 38: the later one is shown. *)
Lemma fan_speed_last_preset_wins_witness :
  let self := Vacuum.__init__ Scenario.doubled_presets in
  let status := Vacuum.mkStatus Vacuum.Docked 38 100 "Charging" in
  (38%Z ∉ [("Turbo"%string, 90%Z)].*2) /\
  Vacuum.fanspeed status = 38%Z /\
  Vacuum.fan_speed self status = "Quiet"%string.
Proof.
  assert (H1 : 38%Z ∉ [("Turbo"%string, 90%Z)].*2).
  { simpl. intros Hin. apply elem_of_cons in Hin as [Hin|Hin]; [discriminate|].
    by apply elem_of_nil in Hin. }
  simpl. split; [exact H1|]. split; [reflexivity|].
  exact (EntityFacts.OfVacuum.fan_speed_last_preset_wins
           [("Silent"%string, 38%Z)] [("Turbo"%string, 90%Z)] "Quiet" 38 None
           (Vacuum.mkStatus Vacuum.Docked 38 100 "Charging") H1 eq_refl).
Defined.

(** Setting "Turbo" and reading it back. *)
Lemma fan_speed_name_round_trip_witness :
  let w := Scenario.vacuum_world Vacuum.Docked in
  let w' := snd (Vacuum.async_set_fan_speed (H := Scenario.hass_states) Scenario.robot
                   int_of_str "Turbo" w) in
  Vacuum._fan_speed_presets_reverse (entity w)
    = Vacuum.presets_reverse (Vacuum._fan_speed_presets (entity w)) /\
  NoDup (Vacuum._fan_speed_presets (entity w)).*2 /\
  "Turbo"%string ∈ Vacuum.fan_speed_list (entity w) /\
  exists speed,
    sdk_calls w' =
      (Vacuum.set_fan_speed speed,
       fst (Vacuum.run Scenario.robot (Vacuum.set_fan_speed speed) (device w)))
        :: sdk_calls w /\
    forall status, Vacuum.fanspeed status = speed ->
                   Vacuum.fan_speed (entity w') status = "Turbo"%string.
Proof.
  assert (H1 : Vacuum._fan_speed_presets_reverse (entity (Scenario.vacuum_world Vacuum.Docked))
    = Vacuum.presets_reverse
        (Vacuum._fan_speed_presets (entity (Scenario.vacuum_world Vacuum.Docked))))
    by reflexivity.
  assert (H2 : NoDup (Vacuum._fan_speed_presets
                        (entity (Scenario.vacuum_world Vacuum.Docked))).*2)
    by (apply (bool_decide_unpack _); vm_compute; exact I).
  assert (H3 : "Turbo"%string
               ∈ Vacuum.fan_speed_list (entity (Scenario.vacuum_world Vacuum.Docked)))
    by (apply (bool_decide_unpack _); vm_compute; exact I).
  simpl. split; [exact H1|]. split; [exact H2|]. split; [exact H3|].
  exact (EntityFacts.OfVacuum.fan_speed_name_round_trip (H := Scenario.hass_states)
           Scenario.robot int_of_str (Scenario.vacuum_world Vacuum.Docked) "Turbo"
           H1 H2 H3).
Defined.


(** A list that holds one zone object of four coordinates at both of its
    positions, cleaned twice: six values are sent for each position. *)
Lemma clean_zone_appends_repeats_witness :
  let w := Scenario.vacuum_world Vacuum.Docked in
  let zone := Scenario.same_zone_twice in
  sdk_calls (snd (Vacuum.async_clean_zone (H := Scenario.hass_states) Scenario.robot
                    zone 2 w))
    = [(Vacuum.zoned_clean [[1; 2; 3; 4; 2; 2]%Z; [1; 2; 3; 4; 2; 2]%Z], Ret tt)] /\
  exists sent,
    sdk_calls (snd (Vacuum.async_clean_zone (H := Scenario.hass_states) Scenario.robot
                      zone 2 w)) =
      (Vacuum.zoned_clean sent,
       fst (Vacuum.run Scenario.robot (Vacuum.zoned_clean sent) (device w)))
        :: sdk_calls w /\
    length sent = length (Vacuum.zone_items zone) /\
    (forall p i, Vacuum.zone_items zone !! p = Some i ->
       sent !! p = Some (Vacuum.zone_objects zone i
                           ++ replicate (times_held i (Vacuum.zone_items zone)) 2%Z)) /\
    (NoDup (Vacuum.zone_items zone) ->
       (forall p i, Vacuum.zone_items zone !! p = Some i ->
          sent !! p = Some (Vacuum.zone_objects zone i ++ [2%Z])) /\
       (forall n, Forall (fun i => length (Vacuum.zone_objects zone i) = n)
                         (Vacuum.zone_items zone) ->
                  Forall (fun z => length z = S n /\ last z = Some 2%Z) sent)).
Proof.
  split; [vm_compute; reflexivity|].
  exact (EntityFacts.OfVacuum.clean_zone_appends_repeats (H := Scenario.hass_states)
           Scenario.robot Scenario.same_zone_twice 2%Z
           (Scenario.vacuum_world Vacuum.Docked)).
Defined.


End EntityCases.
